(** * PySwitchLib: the MLX ACL parameter parsers and orchestrator

    A shallow embedding of [pyswitch/snmp/base/acl/ipacl.py] (class [IpAcl])
    and of the parts of [pyswitch/snmp/mlx/base/acl/acl.py] (class [Acl])
    that validate parameters, render commands and talk to the device.

    Python values are modelled by the inductive [value], the keyword
    dictionary [**parameters] by a finite map from field names to values,
    exceptions by a [result] type, and the device callback by a step
    function on an abstract device state together with a trace of every
    command submitted. *)

From Stdlib Require Import ZArith Lia List Ascii String Bool.
From Stdlib Require Import DecimalString.
From stdpp Require Import base gmap strings list.

Local Open Scope Z_scope.

(** ** Python strings

    The repository is Python 2 code: [str] is a byte string, which is what
    [string] (a list of [ascii]) is.  What [jinja2] renders is a text
    string ([unicode]); it is modelled by a [string] too, each [ascii]
    standing for a code point below 256, and has its own whitespace test.
    Only the operations the source uses are defined. *)
Module Py.

(** [c.isspace()] for one byte, C locale: space, and \t \n \v \f \r. *)
Definition isspace (c : ascii) : bool :=
  let n := N_of_ascii c in
  N.eqb n 32 || (N.leb 9 n && N.leb n 13).

(** [c.isdigit()] for one byte. *)
Definition isdigit_char (c : ascii) : bool :=
  let n := N_of_ascii c in
  N.leb 48 n && N.leb n 57.

(** [s.split()]: the maximal runs of non-whitespace bytes, in order. *)
Fixpoint split (s : string) : list string :=
  match s with
  | EmptyString => []
  | String c s' =>
      if isspace c then split s'
      else match s' with
           | EmptyString => [String c EmptyString]
           | String d _ =>
               if isspace d then String c EmptyString :: split s'
               else match split s' with
                    | w :: ws => String c w :: ws
                    | [] => [String c EmptyString]
                    end
           end
  end.

(** [sep.join(l)]. *)
Fixpoint join (sep : string) (l : list string) : string :=
  match l with
  | [] => EmptyString
  | [w] => w
  | w :: ws => w +:+ sep +:+ join sep ws
  end.

(** [' '.join(s.split())]: the whitespace normalisation used all over
    the source. *)
Definition collapse (s : string) : string := join " " (split s).

(** [c.isspace()] for one character of a text string, code points below
    256: the byte-string whitespace, the four separators 0x1c to 0x1f,
    NEL (0x85) and the no-break space (0xa0). *)
Definition isspace_text (c : ascii) : bool :=
  let n := N_of_ascii c in
  N.eqb n 32 || (N.leb 9 n && N.leb n 13) || (N.leb 28 n && N.leb n 31)
  || N.eqb n 133 || N.eqb n 160.

(** [s.split()] for a text string. *)
Fixpoint split_text (s : string) : list string :=
  match s with
  | EmptyString => []
  | String c s' =>
      if isspace_text c then split_text s'
      else match s' with
           | EmptyString => [String c EmptyString]
           | String d _ =>
               if isspace_text d then String c EmptyString :: split_text s'
               else match split_text s' with
                    | w :: ws => String c w :: ws
                    | [] => [String c EmptyString]
                    end
           end
  end.

(** [' '.join(config.split())] for a rendered command. *)
Definition collapse_text (s : string) : string := join " " (split_text s).

(** [s.split(c)] for a one-byte separator: never empty, keeps empty
    fields. *)
Fixpoint split_on (c : ascii) (s : string) : list string :=
  match s with
  | EmptyString => [EmptyString]
  | String d s' =>
      if Ascii.eqb d c then EmptyString :: split_on c s'
      else match split_on c s' with
           | w :: ws => String d w :: ws
           | [] => [String d EmptyString]
           end
  end.

(** [s.find(sub)]: index of the first occurrence, or -1. *)
Fixpoint find_from (i : Z) (sub s : string) : Z :=
  if String.prefix sub s then i
  else match s with
       | EmptyString => -1
       | String _ s' => find_from (i + 1) sub s'
       end.

Definition find (s sub : string) : Z := find_from 0 sub s.

(** [sub in s]. *)
Definition contains (sub s : string) : bool := 0 <=? find s sub.

(** [s[0:n]] and [s[n:]] for a non-negative [n]. *)
Fixpoint slice_to (n : nat) (s : string) : string :=
  match n, s with
  | S n', String c s' => String c (slice_to n' s')
  | _, _ => EmptyString
  end.

Fixpoint slice_from (n : nat) (s : string) : string :=
  match n, s with
  | S n', String _ s' => slice_from n' s'
  | _, _ => s
  end.

Fixpoint forallb_str (p : ascii -> bool) (s : string) : bool :=
  match s with
  | EmptyString => true
  | String c s' => p c && forallb_str p s'
  end.

(** [s.isdigit()]: at least one byte, all of them digits. *)
Definition isdigit (s : string) : bool :=
  match s with
  | EmptyString => false
  | _ => forallb_str isdigit_char s
  end.

(** [int(s)] for a string of digits. *)
Fixpoint int_acc (acc : Z) (s : string) : Z :=
  match s with
  | EmptyString => acc
  | String c s' => int_acc (10 * acc + (Z.of_N (N_of_ascii c) - 48)) s'
  end.

Definition int (s : string) : Z := int_acc 0 s.

(** [str(z)] for an integer: decimal, with a leading minus sign. *)
Definition str_int (z : Z) : string := NilZero.string_of_int (Z.to_int z).

(** [re.sub(r'[^a-zA-Z0-9 .-]', r'', s)]: the bytes the rule-body
    commands may keep. *)
Definition allowed_char (c : ascii) : bool :=
  let n := N_of_ascii c in
  (N.leb 97 n && N.leb n 122) || (N.leb 65 n && N.leb n 90)
  || (N.leb 48 n && N.leb n 57)
  || N.eqb n 32 || N.eqb n 46 || N.eqb n 45.

Fixpoint filter_str (p : ascii -> bool) (s : string) : string :=
  match s with
  | EmptyString => EmptyString
  | String c s' => if p c then String c (filter_str p s') else filter_str p s'
  end.

Definition strip_disallowed (s : string) : string := filter_str allowed_char s.

Definition not_space (c : ascii) : bool := negb (isspace c).


(** The concatenation of a list of strings, [''.join(ws)]. *)
Definition concat_str_list (ws : list string) : string :=
  fold_right (fun w acc => w +:+ acc) EmptyString ws.

End Py.

(** ** Python values, exceptions and the parameter bag *)

(** The values a caller passes in [**parameters]: [None], booleans,
    integers, strings, and the list of interface names of [apply_acl]. *)
Inductive value :=
| VNone
| VBool (b : bool)
| VInt (z : Z)
| VStr (s : string)
| VList (l : list string).

(** Truth value of [v] in [if v:] and [not v]. *)
Definition truthy (v : value) : bool :=
  match v with
  | VNone => false
  | VBool b => b
  | VInt z => negb (z =? 0)
  | VStr s => negb (String.eqb s "")
  | VList l => match l with [] => false | _ => true end
  end.

(** Ordering of a value against an integer literal, as Python 2 orders
    mixed types: [None] below every number, a boolean as 0 or 1, strings
    and lists above every number. *)
Definition cmp_int (v : value) (n : Z) : comparison :=
  match v with
  | VNone => Lt
  | VBool b => Z.compare (Z.b2z b) n
  | VInt z => Z.compare z n
  | VStr _ | VList _ => Gt
  end.

Definition gt_int (v : value) (n : Z) : bool :=
  match cmp_int v n with Gt => true | _ => false end.
Definition lt_int (v : value) (n : Z) : bool :=
  match cmp_int v n with Lt => true | _ => false end.
Definition ge_int (v : value) (n : Z) : bool := negb (lt_int v n).
Definition le_int (v : value) (n : Z) : bool := negb (gt_int v n).

(** [str(v)].  The list case is exact for element strings without quotes,
    backslashes or non-printable bytes. *)
Definition py_str (v : value) : string :=
  match v with
  | VNone => "None"
  | VBool true => "True"
  | VBool false => "False"
  | VInt z => Py.str_int z
  | VStr s => s
  | VList l => "[" +:+ Py.join ", " (map (fun s => "'" +:+ s +:+ "'") l) +:+ "]"
  end.

(** The classes of failure of the specification.  Every [raise ValueError]
    of the source is tagged with the class it belongs to and carries the
    literal message of the raise site (placeholders [{}] left unfilled). *)
Inductive err_kind :=
| MissingParameter
| InvalidValue
| InvalidAddress
| ConflictingParameters
| UnsupportedInterfaceType
| AclNotFound
| SequenceNotFound
| DeviceRejected
| TransportFailure.

Inductive exn :=
| ValueError (k : err_kind) (msg : string)
| KeyError (key : string)
| AttributeError (attr : string)
| UnboundLocalError (var : string)
| TypeError (msg : string).

Inductive result (A : Type) :=
| Ok (a : A)
| Raise (e : exn).
Arguments Ok {A} a.
Arguments Raise {A} e.

Definition bind {A B : Type} (m : result A) (k : A -> result B) : result B :=
  match m with
  | Ok a => k a
  | Raise e => Raise e
  end.

Notation "x <- m ;; k" := (bind m (fun x => k))
  (at level 100, m at next level, right associativity, only parsing).

Definition is_ok {A : Type} (r : result A) : bool :=
  match r with Ok _ => true | Raise _ => false end.

Abbreviation bag := (gmap string value).

(** [parameters[k]]. *)
Definition getitem (parameters : bag) (k : string) : result value :=
  match parameters !! k with
  | Some v => Ok v
  | None => Raise (KeyError k)
  end.

(** [k in parameters]. *)
Definition has_key (parameters : bag) (k : string) : bool :=
  match parameters !! k with Some _ => true | None => false end.

(** [k in parameters and parameters[k]]; its negation is the presence test
    [k not in parameters or not parameters[k]]. *)
Definition is_set (parameters : bag) (k : string) : bool :=
  match parameters !! k with Some v => truthy v | None => false end.

(** [k in parameters or not parameters[k]], the test that [parse_log] and
    [parse_mirror] use: the right operand is evaluated only when the key
    is missing, and then the subscript raises. *)
Definition in_or_falsy (parameters : bag) (k : string) : result bool :=
  if has_key parameters k then Ok true
  else v <- getitem parameters k ;; Ok (negb (truthy v)).

(** A string method called on a value: [AttributeError] unless it is a
    string. *)
Definition str_method (attr : string) (v : value) : result string :=
  match v with
  | VStr s => Ok s
  | _ => Raise (AttributeError attr)
  end.

Definition mem (s : string) (l : list string) : bool := existsb (String.eqb s) l.

(** [v in [s1, ..., sn]] for a list of string literals. *)
Definition in_strs (v : value) (l : list string) : bool :=
  match v with
  | VStr s => mem s l
  | _ => false
  end.

Definition nonempty (s : string) : bool := negb (String.eqb s "").

(** ** [class IpAcl] of [pyswitch/snmp/base/acl/ipacl.py]

    Every [parse_*] method takes the whole bag and returns a fragment
    ([Some s]), Python's [None], or raises. *)
Module IpAcl.

Definition tcp_udp_ops : list string := ["range"; "neq"; "lt"; "gt"; "eq"].

Definition protocol_keywords : list string :=
  ["a_n"; "ahp"; "argus"; "aris"; "ax25"; "bbn-rcc"; "bna"; "br-sat-mon";
   "cbt"; "cftp"; "chaos"; "compaq-peer"; "cphb"; "cpnx"; "crdup";
   "crtp"; "dcn"; "ddp"; "ddx"; "dgp"; "divert"; "egp"; "emcon"; "encap";
   "esp"; "etherip"; "fc"; "fire"; "ggp"; "gmtp"; "gre"; "hip"; "hmp";
   "i-nlsp"; "iatp"; "icmp"; "idpr"; "idpr-cmtp"; "idrp"; "ifmp"; "igmp";
   "igp"; "igrp"; "il"; "ip"; "ipcomp"; "ipcv"; "ipencap"; "ipip";
   "iplt"; "ippc"; "ipv6"; "ipv6-frag"; "ipv6-icmp"; "ipv6-nonxt";
   "ipv6-opts"; "ipv6-route"; "ipx-in-ip"; "irtp"; "isis"; "iso-ip";
   "iso-tp4"; "kryptolan"; "l2tp"; "larp"; "leaf-1"; "leaf-2"; "manet";
   "merit-inp"; "mfe-nsp"; "mhrp"; "micp"; "mobile"; "mobility-header";
   "mpls-in-ip"; "mtp"; "mux"; "narp"; "netblt"; "nsfnet-igp"; "nvp";
   "ospf"; "pgm"; "pim"; "pipe"; "pnni"; "prm"; "ptp"; "pup"; "pvp";
   "qnx"; "rdp"; "rsvp"; "rsvp-e2e-ignore"; "rvd"; "sat-expak";
   "sat-mon"; "scc-sp"; "scps"; "sctp"; "sdrp"; "secure-vmtp"; "sep";
   "shim6"; "skip"; "sm"; "smp"; "snp"; "sprite-rpc"; "sps"; "srp";
   "sscopmce"; "st"; "st2"; "sun-nd"; "swipe"; "tcf"; "tcp"; "third-pc";
   "tlsp"; "tp++"; "trunk-1"; "trunk-2"; "ttp"; "udp"; "udplite"; "uti";
   "vines"; "visa"; "vlan"; "vmtp"; "vrrp"; "wb-expak"; "wb-mon"; "wsn";
   "xnet"; "xns-idp"; "xtp"].

(** The list literal of [parse_precedence]; its first two string
    literals have no comma between them in the source and so form one
    element. *)
Definition precedence_keywords : list string :=
  ["criticalflash"; "flash-override"; "immediate"; "internet"; "network";
   "priority"; "routine"].

Definition option_keywords : list string :=
  ["any"; "eol"; "extended-security"; "ignore"; "loose-source-route";
   "no-op"; "record-route"; "router-alert"; "security"; "streamid";
   "strict-source-route"; "timestamp"].

Definition parse_action (parameters : bag) : result (option string) :=
  if negb (is_set parameters "action") then
    Raise (ValueError MissingParameter "'action' not present in parameters arg")
  else
    action <- getitem parameters "action" ;;
    if in_strs action ["permit"; "deny"] then Ok (Some (py_str action))
    else Raise (ValueError InvalidValue
      "The 'action' value {} is invalid. Specify 'deny' or 'permit' supported values").

Definition _validate_op_str (op_str : string) : result bool :=
  let op_str := Py.split (Py.collapse op_str) in
  let invalid := Raise (ValueError InvalidValue "Invalid tcp-udp-operator: ") in
  match op_str with
  | [op; port] =>
      if mem op ["neq"; "lt"; "gt"; "eq"] && Py.isdigit port then Ok true
      else invalid
  | [op; _; _] => if String.eqb op "range" then Ok true else invalid
  | _ => invalid
  end.

Definition established_fragment : string := "established".

Definition parse_established (parameters : bag) : result (option string) :=
  if negb (is_set parameters "established") then Ok None
  else Ok (Some established_fragment).

Definition parse_vlan (parameters : bag) : result (option string) :=
  match parameters !! "vlan_id" with
  | None => Ok None
  | Some vlan =>
      if negb (truthy vlan) then Ok None
      else if gt_int vlan 0 && lt_int vlan 4096 then Ok (Some (py_str vlan))
      else Raise (ValueError InvalidValue
        "The 'vlan' value {} is invalid. Specify '1-4095' supported values")
  end.

Definition log_mirror_conflict : exn :=
  ValueError ConflictingParameters
    "log and mirror keywords can not be used together".

Definition parse_log (parameters : bag) : result (option string) :=
  c <- in_or_falsy parameters "log" ;;
  if (c : bool) then Ok None
  else
    c' <- in_or_falsy parameters "mirror" ;;
    if (c' : bool) then Ok (Some "log")
    else Raise log_mirror_conflict.

Definition parse_protocol (parameters : bag) : result (option string) :=
  match parameters !! "protocol_type" with
  | None => Ok None
  | Some protocol_type =>
      if negb (truthy protocol_type) then Ok None
      else
        s <- str_method "isdigit" protocol_type ;;
        _ <- (if Py.isdigit s then
                if (Py.int s <? 0) || (255 <? Py.int s) then
                  Raise (ValueError InvalidValue
                    "The 'protocol' value {} is invalid. Specify '0-255' supported values")
                else Ok tt
              else Ok tt) ;;
        if negb (mem s protocol_keywords) then
          Raise (ValueError InvalidValue "invalid 'protocol_type' value {}.")
        else Ok (Some s)
  end.

(** The shape shared by [parse_dscp_mapping], [parse_dscp_marking],
    [parse_drop_precedence] and [parse_drop_precedence_force] after the
    presence test: normalise, then a digit string in [0, hi]. *)
Definition digits_upto (key kw : string) (hi : Z) (msg : string)
    (parameters : bag) : result (option string) :=
  v <- getitem parameters key ;;
  s <- str_method "split" v ;;
  let s := Py.collapse s in
  if Py.isdigit s && (0 <=? Py.int s) && (Py.int s <=? hi)
  then Ok (Some (kw +:+ s))
  else Raise (ValueError InvalidValue msg).

Definition parse_dscp_mapping (parameters : bag) : result (option string) :=
  if negb (is_set parameters "dscp") then Ok None
  else digits_upto "dscp" "dscp-mapping " 63
         "Invalid dscp_mapping {}. Supported range is <0-63>" parameters.

Definition parse_dscp_marking (parameters : bag) : result (option string) :=
  if negb (is_set parameters "dscp_marking") then Ok None
  else digits_upto "dscp_marking" "dscp-marking " 63
         "Invalid dscp_marking {}. Supported range is <0-63>" parameters.

Definition parse_fragment (parameters : bag) : result (option string) :=
  if negb (is_set parameters "fragment") then Ok None
  else
    v <- getitem parameters "fragment" ;;
    s <- str_method "split" v ;;
    let fragment := Py.collapse s in
    if mem fragment ["fragment"; "non-fragment"] then Ok (Some fragment)
    else Raise (ValueError InvalidValue
      "Invalid fragment {}. Supported values are fragment or non-fragment").

Definition parse_precedence (parameters : bag) : result (option string) :=
  if negb (is_set parameters "precedence") then Ok None
  else
    v <- getitem parameters "precedence" ;;
    s <- str_method "split" v ;;
    let precedence := Py.collapse s in
    if Py.isdigit precedence && (0 <=? Py.int precedence)
       && (Py.int precedence <=? 7)
    then Ok (Some ("precedence " +:+ precedence))
    else if mem precedence precedence_keywords
    then Ok (Some ("precedence " +:+ precedence))
    else Raise (ValueError InvalidValue
      "Invalid precedence {}. Supported values are <0 to 7> | critical | flash |flash-override | immediate | internet | network |priority | routine ").

Definition option_conflict : exn :=
  ValueError ConflictingParameters
    "option keyword cannot be used along with TCP destination port matching".

(** The loop raises at the first operator keyword found in
    [input_param]; [protocol_type] is not used. *)
Definition _is_tcp_udp_opstr_set (protocol_type : value)
    (input_param : string) : result bool :=
  if existsb (fun tcp_udp_op => 0 <=? Py.find input_param tcp_udp_op)
       tcp_udp_ops
  then Raise option_conflict
  else Ok true.

Definition parse_option (parameters : bag) : result (option string) :=
  if negb (is_set parameters "option") then Ok None
  else
    _ <- (if is_set parameters "protocol_type" &&
             match parameters !! "protocol_type" with
             | Some pt => in_strs pt ["tcp"; "udp"]
             | None => false
             end
          then
            protocol_type <- getitem parameters "protocol_type" ;;
            (* [src] is bound only when 'source' is set *)
            src <- (if is_set parameters "source" then
                      v <- getitem parameters "source" ;;
                      s <- str_method "split" v ;;
                      let src := Py.collapse s in
                      _ <- _is_tcp_udp_opstr_set protocol_type src ;;
                      Ok (Some src)
                    else Ok None) ;;
            if is_set parameters "destination" then
              (* dst = ' '.join(src.split()) : the source, not the
                 destination, is normalised and checked again *)
              match src with
              | None => Raise (UnboundLocalError "src")
              | Some src =>
                  let dst := Py.collapse src in
                  _ <- _is_tcp_udp_opstr_set protocol_type dst ;;
                  Ok tt
              end
            else Ok tt
          else Ok tt) ;;
    v <- getitem parameters "option" ;;
    s <- str_method "split" v ;;
    let option := Py.collapse s in
    if Py.isdigit option && (0 <=? Py.int option) && (Py.int option <=? 255)
    then Ok (Some ("option " +:+ option))
    else if mem option option_keywords
    then Ok (Some ("option " +:+ option))
    else Raise (ValueError InvalidValue
      "Invalid option {}. Supported values are any, eol, extended-security, ignore, loose-source-route no-op, record-route, router-alert, security, streamid, strict-source-route, timestamp Allowed value in decimal <0-255>.").

Definition parse_suppress_rpf_drop (parameters : bag) : result (option string) :=
  if negb (is_set parameters "suppress_rpf_drop") then Ok None
  else Ok (Some "suppress-rpf-drop").

Definition priority_conflict : exn :=
  ValueError ConflictingParameters
    "priority and priority-force can not be enabled at the same time!".

Definition parse_priority (parameters : bag) : result (option string) :=
  if negb (is_set parameters "priority") then Ok None
  else if is_set parameters "priority_force" then Raise priority_conflict
  else
    priority <- getitem parameters "priority" ;;
    if ge_int priority 0 && le_int priority 7
    then Ok (Some ("priority " +:+ py_str priority))
    else Raise (ValueError InvalidValue
      "Invalid priority {}. Allowed value in decimal <0-7>.").

Definition parse_priority_force (parameters : bag) : result (option string) :=
  if negb (is_set parameters "priority_force") then Ok None
  else if is_set parameters "priority" then Raise priority_conflict
  else
    priority_force <- getitem parameters "priority_force" ;;
    if ge_int priority_force 0 && le_int priority_force 7
    then Ok (Some ("priority-force " +:+ py_str priority_force))
    else Raise (ValueError InvalidValue
      "Invalid priority_force {}. Allowed value in decimal <0-7>.").

Definition parse_priority_mapping (parameters : bag) : result (option string) :=
  if negb (is_set parameters "priority_mapping") then Ok None
  else
    priority_mapping <- getitem parameters "priority_mapping" ;;
    if ge_int priority_mapping 0 && le_int priority_mapping 7
    then Ok (Some ("priority-mapping " +:+ py_str priority_mapping))
    else Raise (ValueError InvalidValue
      "Invalid priority_mapping {}. Allowed value in decimal <0-7>.").

Definition parse_tos (parameters : bag) : result (option string) :=
  if negb (is_set parameters "tos") then Ok None
  else
    tos <- getitem parameters "tos" ;;
    if ge_int tos 0 && le_int tos 15
    then Ok (Some ("tos " +:+ py_str tos))
    else Raise (ValueError InvalidValue
      "Invalid tos {}. Allowed value in decimal <0-15>.").

Definition mirror_needs_permit : exn :=
  ValueError InvalidValue
    " Mirror keyword is applicable only for ACL permit clauses".

Definition parse_mirror (parameters : bag) : result (option string) :=
  c <- in_or_falsy parameters "mirror" ;;
  if (c : bool) then Ok None
  else if is_set parameters "action" &&
          match parameters !! "action" with
          | Some (VStr "permit") => false
          | _ => true
          end
  then Raise mirror_needs_permit
  else
    c' <- in_or_falsy parameters "log" ;;
    if (c' : bool) then Ok (Some "mirror")
    else Raise log_mirror_conflict.

Definition drop_precedence_conflict : exn :=
  ValueError ConflictingParameters
    "drop-precedence and drop-precedence-force can not be enabled at the same time!".

Definition parse_drop_precedence (parameters : bag) : result (option string) :=
  if negb (is_set parameters "drop_precedence") then Ok None
  else if is_set parameters "drop_precedence_force"
  then Raise drop_precedence_conflict
  else digits_upto "drop_precedence" "drop-precedence " 3
         "drop-precedence value should be 0 - 3" parameters.

Definition parse_drop_precedence_force (parameters : bag) : result (option string) :=
  if negb (is_set parameters "drop_precedence_force") then Ok None
  else if is_set parameters "drop_precedence"
  then Raise drop_precedence_conflict
  else digits_upto "drop_precedence_force" "drop-precedence-force " 3
         "drop-precedence-force value should be 0 - 3" parameters.

(** The address parsers call [socket.inet_aton], a library function:
    [inet_aton addr] says whether it accepts [addr]. *)
Section Addresses.
Variable inet_aton : string -> bool.

Definition _validate_ipv4 (addr : string) : result unit :=
  let addr := Py.collapse addr in
  if inet_aton addr then Ok tt
  else Raise (ValueError InvalidAddress "Invalid address: ").

(** The first operator keyword, in the order of [ops], that occurs in
    [input_param], with the index of its first occurrence. *)
Fixpoint first_op_index (ops : list string) (input_param : string) : option Z :=
  match ops with
  | [] => None
  | tcp_udp_op :: ops' =>
      let op_index := Py.find input_param tcp_udp_op in
      if 0 <=? op_index then Some op_index
      else first_op_index ops' input_param
  end.

Definition _parse_source_destination (protocol_type : value)
    (input_param : string) : result string :=
  let '(v4_str, op_str) :=
    match first_op_index tcp_udp_ops input_param with
    | Some op_index =>
        (Py.slice_to (Z.to_nat op_index) input_param,
         Py.slice_from (Z.to_nat op_index) input_param)
    | None => (input_param, EmptyString)
    end in
  if negb (in_strs protocol_type ["tcp"; "udp"]) && nonempty op_str then
    Raise (ValueError InvalidValue
      "tcp udp operator is supported only for.protocol_type = tcp or udp")
  else
    _ <- (if nonempty op_str then _validate_op_str op_str else Ok true) ;;
    if String.eqb (Py.slice_to 3 v4_str) "any" then
      Ok (v4_str +:+ " " +:+ op_str)
    else if String.eqb (Py.slice_to 4 v4_str) "host" then
      (* the result of _validate_ipv4(v4_str[5:]) is discarded by a
         bare except *)
      Ok (v4_str +:+ " " +:+ op_str)
    else if Py.contains "/" v4_str then
      match Py.split_on "/" v4_str with
      | [ip; prefix_len] =>
          _ <- _validate_ipv4 ip ;;
          if negb (Py.isdigit prefix_len) then
            Raise (ValueError InvalidAddress "Invalid address: ")
          else if (Py.int prefix_len <? 0) && (32 <? Py.int prefix_len) then
            Raise (ValueError InvalidAddress "Invalid address: ")
          else Ok (v4_str +:+ " " +:+ op_str)
      | _ => Raise (ValueError InvalidAddress "too many values to unpack")
      end
    else
      match Py.split v4_str with
      | [ip; mask] =>
          _ <- _validate_ipv4 ip ;;
          _ <- _validate_ipv4 mask ;;
          Ok (v4_str +:+ " " +:+ op_str)
      | _ :: _ :: _ :: _ =>
          Raise (ValueError InvalidAddress "too many values to unpack")
      | _ => Raise (ValueError InvalidAddress "need more than 1 value to unpack")
      end.

Definition parse_source (parameters : bag) : result (option string) :=
  if negb (is_set parameters "source") then
    Raise (ValueError MissingParameter "Missing 'source' in parameters")
  else
    v <- getitem parameters "source" ;;
    s <- str_method "split" v ;;
    let src := Py.collapse s in
    protocol_type <- getitem parameters "protocol_type" ;;
    r <- _parse_source_destination protocol_type src ;;
    Ok (Some r).

Definition parse_destination (parameters : bag) : result (option string) :=
  if negb (is_set parameters "destination") then Ok None
  else if negb (is_set parameters "protocol_type") then
    Raise (ValueError MissingParameter
      "'protocol_type' is required for MLX device")
  else
    v <- getitem parameters "destination" ;;
    s <- str_method "split" v ;;
    let dst := Py.collapse s in
    protocol_type <- getitem parameters "protocol_type" ;;
    r <- _parse_source_destination protocol_type dst ;;
    Ok (Some r).
End Addresses.

(** [class IpAcl] derives from [object] and defines no [parse_seq_id],
    [parse_copy_sflow] or [parse_icmp_filter]: evaluating
    [self.ip.parse_seq_id] raises [AttributeError] before any call is
    made. *)
Definition undefined_attribute (name : string) (parameters : bag)
    : result (option string) :=
  Raise (AttributeError name).

End IpAcl.

(** Building a bag from a keyword list, as a call [f(k1=v1, ...)] does. *)
Definition kwargs (l : list (string * value)) : bag := list_to_map l.

(** ** The collaborators of [class Acl]

    [pyswitch/snmp/mlx/base/acl/acl.py] imports modules of the repository
    whose sources are not part of this development; they are parameters of
    the model. *)

(** The [handler=] argument of the callback. *)
Inductive handler := CliSet | CliGet.

(** The first argument of the callback: one command string or a list. *)
Inductive cli_arg :=
| Cmd (c : string)
| Batch (l : list string).

(** One call of the callback, with what it returned. *)
Record event := Event {
  ev_arg : cli_arg;
  ev_handler : handler;
  ev_out : result string
}.

(** A jinja2 template as its [render] function: from the keyword context
    to the rendered text. *)
Definition template : Type := bag -> string.

(** [acl_template]: the command templates. *)
Record templates := Templates {
  create_acl_template : template;
  delete_acl_template : template;
  add_l2_acl_rule_template : template;
  add_ip_standard_acl_rule_template : template;
  add_ip_extended_acl_rule_template : template;
  add_ipv6_standard_acl_rule_template : template;
  delete_rule_by_seq_id : template;
  show_l2_access_list : template;
  show_ip_access_list : template;
  show_ipv6_access_list : template;
  interface_submode_template : template;
  apply_acl_template : template
}.

(** [params_validator]: each validator returns or raises. *)
Record validators := Validators {
  validate_params_mlx_delete_acl : bag -> result unit;
  validate_params_mlx_add_or_remove_l2_acl_rule : bag -> result unit;
  validate_params_mlx_apply_acl : bag -> result unit;
  validate_params_mlx_add_ipv4_rule_acl : bag -> result unit;
  validate_params_mlx_delete_ipv4_rule_acl : bag -> result unit;
  validate_params_mlx_add_ipv6_rule_acl : bag -> result unit
}.

Definition parser : Type := bag -> result (option string).

(** [MacAcl]: the field parsers of L2 rules. *)
Record mac_acl := MacAcl {
  mac_parse_acl_name : parser;
  mac_parse_seq_id : parser;
  mac_parse_action : parser;
  mac_parse_source : parser;
  mac_parse_dst : parser;
  mac_parse_vlan : parser;
  mac_parse_ethertype : parser;
  mac_parse_arp_guard : parser;
  mac_parse_drop_precedence : parser;
  mac_parse_drop_precedence_force : parser;
  mac_parse_log : parser;
  mac_parse_mirror : parser;
  mac_parse_priority : parser;
  mac_parse_priority_force : parser;
  mac_parse_priority_mapping : parser
}.

(** [Ipv6Acl]: the field parsers of IPv6 rules. *)
Record ipv6_acl := Ipv6Acl {
  ipv6_parse_seq_id : parser;
  ipv6_parse_action : parser;
  ipv6_parse_vlan : parser;
  ipv6_parse_protocol : parser;
  ipv6_parse_source : parser;
  ipv6_parse_destination : parser;
  ipv6_parse_dscp_mapping : parser;
  ipv6_parse_fragment : parser;
  ipv6_parse_tcp_operator : parser;
  ipv6_parse_icmp_filter : parser;
  ipv6_parse_copy_sflow : parser;
  ipv6_parse_drop_precedence : parser;
  ipv6_parse_drop_precedence_force : parser;
  ipv6_parse_dscp_marking : parser;
  ipv6_parse_priority_force : parser;
  ipv6_parse_priority_mapping : parser;
  ipv6_parse_suppress_rpf_drop : parser;
  ipv6_parse_mirror : parser;
  ipv6_parse_log : parser
}.

(** Everything [Acl] is handed: the device behind [self._callback] (a
    state of type [Dev] and a step function that may raise), the output
    interpreter and the parameter filter of the base class, the
    validators, the templates, the two other parser classes, and
    [socket.inet_aton]. *)
Record env (Dev : Type) := Env {
  callback : Dev -> cli_arg -> handler -> result string * Dev;
  process_cli_output : string -> string -> string -> result string;
  is_parameter_supported : list string -> bag -> result unit;
  vals : validators;
  tpls : templates;
  mac : mac_acl;
  ipv6 : ipv6_acl;
  inet_aton : string -> bool
}.
Arguments callback {Dev} e.
Arguments process_cli_output {Dev} e.
Arguments is_parameter_supported {Dev} e.
Arguments vals {Dev} e.
Arguments tpls {Dev} e.
Arguments mac {Dev} e.
Arguments ipv6 {Dev} e.
Arguments inet_aton {Dev} e.

(** ** The monad of an orchestrator call

    A call runs against a world: the device state and the trace of the
    callback calls made so far, oldest first.  A raised exception keeps the
    world it was raised in. *)
Record world (Dev : Type) := World {
  dev : Dev;
  trace : list event
}.
Arguments World {Dev} dev trace.
Arguments dev {Dev} w.
Arguments trace {Dev} w.

Definition M (Dev A : Type) : Type := world Dev -> result A * world Dev.

Definition pure {Dev A : Type} (a : A) : M Dev A := fun w => (Ok a, w).

Definition raise {Dev A : Type} (e : exn) : M Dev A := fun w => (Raise e, w).

Definition lift {Dev A : Type} (r : result A) : M Dev A := fun w => (r, w).

Definition bindM {Dev A B : Type} (m : M Dev A) (k : A -> M Dev B) : M Dev B :=
  fun w =>
    match m w with
    | (Ok a, w') => k a w'
    | (Raise e, w') => (Raise e, w')
    end.

Notation "x <-- m ;; k" := (bindM m (fun x => k))
  (at level 100, m at next level, right associativity, only parsing).

(** [self._callback(arg, handler=h)]: steps the device and records the
    call. *)
Definition call {Dev : Type} (E : env Dev) (arg : cli_arg) (h : handler)
    : M Dev string :=
  fun w =>
    let '(out, d) := callback E (dev w) arg h in
    (out, World d (trace w ++ [Event arg h out])).

(** [for x in l: body(x)]. *)
Fixpoint for_each {Dev A : Type} (l : list A) (body : A -> M Dev unit)
    : M Dev unit :=
  match l with
  | [] => pure tt
  | x :: l' => _ <-- body x ;; for_each l' body
  end.

(** A fragment as the value stored in [user_data]. *)
Definition frag (o : option string) : value :=
  match o with
  | Some s => VStr s
  | None => VNone
  end.

(** [a + b] where [a] is a string: [TypeError] unless [b] is one too. *)
Definition concat_str (a : string) (b : value) : result string :=
  match b with
  | VStr s => Ok (a +:+ s)
  | _ => Raise (TypeError "cannot concatenate 'str' and non-str objects")
  end.

(** [x == n] for an integer [n]: a boolean compares as 0 or 1, no other
    type is equal to an integer. *)
Definition eq_int (v : value) (n : Z) : bool :=
  match v with
  | VInt z => z =? n
  | VBool b => Z.b2z b =? n
  | _ => false
  end.

Definition newline : ascii := ascii_of_nat 10.

(** ** [class Acl] of [pyswitch/snmp/mlx/base/acl/acl.py] *)
Module Acl.
Section Orchestrator.
Context {Dev : Type} (E : env Dev).

(** The dictionary [{'type': ..., 'protocol': ...}] of
    [get_acl_address_and_acl_type]. *)
Record acl_identity := AclIdentity {
  ret_type : string;
  ret_protocol : string
}.

(** The body of [if acl_name in line:], from the initial [ret]. *)
Definition classify_line (line : string) : acl_identity :=
  if String.eqb (Py.slice_to 4 line) "mac " then AclIdentity "extended" "mac"
  else if String.eqb (Py.slice_to 3 line) "ip " then
    if Py.contains "extended" line then AclIdentity "extended" "ip"
    else AclIdentity "standard" "ip"
  else if String.eqb (Py.slice_to 5 line) "ipv6 " then
    AclIdentity "standard" "ipv6"
  else AclIdentity "" "".

(** [for line in res: if acl_name in line: ...; break]. *)
Fixpoint scan_listing (acl_name : string) (res : list string) : acl_identity :=
  match res with
  | [] => AclIdentity "" ""
  | line :: res' =>
      if Py.contains acl_name line then classify_line line
      else scan_listing acl_name res'
  end.

Definition acl_not_found : exn :=
  ValueError AclNotFound "Failed to identify acl_type. Check if the ACL {} exists".

Definition get_acl_address_and_acl_type (acl_name : value) : M Dev acl_identity :=
  out1 <-- call E (Cmd "show access-list all") CliGet ;;
  out2 <-- call E (Cmd "show ipv6 access-list") CliGet ;;
  let res := Py.split_on newline out1 ++ Py.split_on newline out2 in
  (* [acl_name in line] on the first line: the left operand must be a
     string *)
  match acl_name with
  | VStr name =>
      let ret := scan_listing name res in
      if nonempty (ret_protocol ret) then pure ret
      else raise acl_not_found
  | _ => raise (TypeError "'in <string>' requires string as left operand")
  end.

Definition get_address_type (acl_name : value) : M Dev string :=
  ret <-- get_acl_address_and_acl_type acl_name ;;
  pure (ret_protocol ret).

Definition get_acl_type (acl_name : value) : M Dev string :=
  ret <-- get_acl_address_and_acl_type acl_name ;;
  pure (ret_type ret).

Definition address_type_not_supported : exn :=
  ValueError InvalidValue "Address Type: {} not supported".

Definition not_supported : exn := ValueError InvalidValue "{} not supported".



(** The rule builders run their field parsers in source order and store
    each fragment under its key; the first parser that raises ends the
    build. *)
Fixpoint run_fields (fields : list (string * parser)) (parameters : bag)
    (user_data : bag) : result bag :=
  match fields with
  | [] => Ok user_data
  | (key, parse) :: fields' =>
      v <- parse parameters ;;
      run_fields fields' parameters (<[ key := frag v ]> user_data)
  end.

Definition l2_fields : list (string * parser) :=
  [("acl_name_str", mac_parse_acl_name (mac E));
   ("seq_id_str", mac_parse_seq_id (mac E));
   ("action_str", mac_parse_action (mac E));
   ("source_str", mac_parse_source (mac E));
   ("dst_str", mac_parse_dst (mac E));
   ("vlan_str", mac_parse_vlan (mac E));
   ("ethertype_str", mac_parse_ethertype (mac E));
   ("arp_guard_str", mac_parse_arp_guard (mac E));
   ("drop_precedence_str", mac_parse_drop_precedence (mac E));
   ("drop_precedence_force_str", mac_parse_drop_precedence_force (mac E));
   ("log_str", mac_parse_log (mac E));
   ("mirror_str", mac_parse_mirror (mac E));
   ("priority_str", mac_parse_priority (mac E));
   ("priority_force_str", mac_parse_priority_force (mac E));
   ("priority_mapping_str", mac_parse_priority_mapping (mac E))].

Definition parse_params_for_add_l2_acl_rule (parameters : bag) : result bag :=
  run_fields l2_fields parameters ∅.

Definition ipv4_standard_fields : list (string * parser) :=
  [("seq_id_str", IpAcl.undefined_attribute "parse_seq_id");
   ("action_str", IpAcl.parse_action);
   ("source_str", IpAcl.parse_source (inet_aton E));
   ("vlan_str", IpAcl.parse_vlan);
   ("log_str", IpAcl.parse_log)].

Definition parse_params_for_add_ipv4_standard (parameters : bag) : result bag :=
  let supported_params :=
    ["acl_name"; "seq_id"; "action"; "source"; "vlan_id"; "log"] in
  _ <- is_parameter_supported E supported_params parameters ;;
  acl_name <- getitem parameters "acl_name" ;;
  run_fields ipv4_standard_fields parameters {[ "acl_name_str" := acl_name ]}.

(** The field parsers of an extended IPv4 rule that run before
    [parse_priority], and the ones from [parse_priority] on. *)
Definition ipv4_extended_fields_before_priority : list (string * parser) :=
  [("seq_id_str", IpAcl.undefined_attribute "parse_seq_id");
   ("action_str", IpAcl.parse_action);
   ("vlan_str", IpAcl.parse_vlan);
   ("protocol_str", IpAcl.parse_protocol);
   ("source_str", IpAcl.parse_source (inet_aton E));
   ("dst_str", IpAcl.parse_destination (inet_aton E));
   ("copy_sflow", IpAcl.undefined_attribute "parse_copy_sflow");
   ("established_str", IpAcl.parse_established);
   ("icmp_filter_str", IpAcl.undefined_attribute "parse_icmp_filter");
   ("dscp_mapping_str", IpAcl.parse_dscp_mapping);
   ("dscp_marking_str", IpAcl.parse_dscp_marking);
   ("fragment_str", IpAcl.parse_fragment);
   ("precedence_str", IpAcl.parse_precedence);
   ("option_str", IpAcl.parse_option);
   ("suppress_rpf_drop_str", IpAcl.parse_suppress_rpf_drop)].

Definition ipv4_extended_fields_from_priority : list (string * parser) :=
  [("priority_str", IpAcl.parse_priority);
   ("priority_force_str", IpAcl.parse_priority_force);
   ("priority_mapping_str", IpAcl.parse_priority_mapping);
   ("tos_str", IpAcl.parse_tos);
   ("drop_precedence_str", IpAcl.parse_drop_precedence);
   ("drop_precedence_force_str", IpAcl.parse_drop_precedence_force);
   ("log_str", IpAcl.parse_log);
   ("mirror_str", IpAcl.parse_mirror)].

Definition ipv4_extended_fields : list (string * parser) :=
  ipv4_extended_fields_before_priority ++ ipv4_extended_fields_from_priority.

Definition parse_params_for_add_ipv4_extended (parameters : bag) : result bag :=
  acl_name <- getitem parameters "acl_name" ;;
  run_fields ipv4_extended_fields parameters {[ "acl_name_str" := acl_name ]}.

Definition ipv6_fields : list (string * parser) :=
  [("seq_id_str", ipv6_parse_seq_id (ipv6 E));
   ("action_str", ipv6_parse_action (ipv6 E));
   ("vlan_str", ipv6_parse_vlan (ipv6 E));
   ("protocol_str", ipv6_parse_protocol (ipv6 E));
   ("source_str", ipv6_parse_source (ipv6 E));
   ("dst_str", ipv6_parse_destination (ipv6 E));
   ("dscp_mapping_str", ipv6_parse_dscp_mapping (ipv6 E));
   ("fragment_str", ipv6_parse_fragment (ipv6 E));
   ("tcp_operator_str", ipv6_parse_tcp_operator (ipv6 E));
   ("icmp_filter_str", ipv6_parse_icmp_filter (ipv6 E));
   ("copy_sflow_str", ipv6_parse_copy_sflow (ipv6 E));
   ("drop_precedence_str", ipv6_parse_drop_precedence (ipv6 E));
   ("drop_precedence_force_str", ipv6_parse_drop_precedence_force (ipv6 E));
   ("dscp_marking_str", ipv6_parse_dscp_marking (ipv6 E));
   ("priority_force_str", ipv6_parse_priority_force (ipv6 E));
   ("priority_mapping_str", ipv6_parse_priority_mapping (ipv6 E));
   ("suppress_rpf_drop_str", ipv6_parse_suppress_rpf_drop (ipv6 E));
   ("mirror_str", ipv6_parse_mirror (ipv6 E));
   ("log_str", ipv6_parse_log (ipv6 E))].

Definition parse_params_for_add_ipv6_extended (parameters : bag) : result bag :=
  acl_name <- getitem parameters "acl_name" ;;
  run_fields ipv6_fields parameters {[ "acl_name_str" := acl_name ]}.


(** The loop of [is_valid_seq_id] over the lines of the listing: [true]
    when some line's text before the first colon, normalised, is a digit
    string whose integer equals [seq_id]. *)
Fixpoint seq_id_listed (seq_id : value) (lines : list string) : bool :=
  match lines with
  | [] => false
  | line :: lines' =>
      if negb (nonempty line) then seq_id_listed seq_id lines'
      else
        let line_seq_id :=
          match Py.split_on ":" line with
          | x :: _ => x
          | [] => EmptyString
          end in
        let line_seq_id := Py.collapse line_seq_id in
        if negb (Py.isdigit line_seq_id) then seq_id_listed seq_id lines'
        else if eq_int seq_id (Py.int line_seq_id) then true
        else seq_id_listed seq_id lines'
  end.

(** What the loop body reads on one line: the text before the first
    colon, normalised, when the line is not empty and that text is a
    digit string. *)
Definition leading_seq_id (line : string) : option Z :=
  if negb (nonempty line) then None
  else
    let line_seq_id :=
      match Py.split_on ":" line with
      | x :: _ => x
      | [] => EmptyString
      end in
    let line_seq_id := Py.collapse line_seq_id in
    if negb (Py.isdigit line_seq_id) then None
    else Some (Py.int line_seq_id).

Definition seq_not_found : exn :=
  ValueError SequenceNotFound "{} not exists for acl {}".

Definition is_valid_seq_id (seq_id acl_name : value) : M Dev bool :=
  if negb (truthy acl_name) then
    raise (ValueError MissingParameter "Acl Name is manadatory parameter")
  else if negb (truthy seq_id) then
    raise (ValueError MissingParameter "Sequence Id is manadatory parameter")
  else
    address_type <-- get_address_type acl_name ;;
    cmd <-- lift (
      if String.eqb address_type "mac" then Ok (show_l2_access_list (tpls E))
      else if String.eqb address_type "ip" then Ok (show_ip_access_list (tpls E))
      else if String.eqb address_type "ipv6" then Ok (show_ipv6_access_list (tpls E))
      else Raise not_supported) ;;
    let config := (cmd : template) {[ "acl_name_str" := acl_name ]} in
    let config := Py.collapse_text config in
    output <-- call E (Cmd config) CliGet ;;
    (* Check if there is any error *)
    _ <-- lift (process_cli_output E "is_valid_seq_id" config output) ;;
    (* Now check if seq id exists *)
    if seq_id_listed seq_id (Py.split_on newline output) then pure true
    else raise seq_not_found.

(** [x == s] and [x != s] for a string literal [s]. *)
Definition eq_str (v : value) (s : string) : bool :=
  match v with
  | VStr x => String.eqb x s
  | _ => false
  end.

(** The items of [for intf in intf_name]: the elements of a list, the
    one-byte strings of a string; anything else is not iterable. *)
Fixpoint chars (s : string) : list string :=
  match s with
  | EmptyString => []
  | String c s' => String c EmptyString :: chars s'
  end.

Definition iterate (v : value) : result (list string) :=
  match v with
  | VList l => Ok l
  | VStr s => Ok (chars s)
  | _ => Raise (TypeError "object is not iterable")
  end.

Definition port_channel_not_allowed : exn :=
  ValueError UnsupportedInterfaceType
    "MLX does not allow ACL configuration on  port channel interface. Configure ACL on  ports part of port channel".

Definition intf_type_not_supported : exn :=
  ValueError UnsupportedInterfaceType "intf type:{} not supported".

Definition apply_acl (parameters : bag) : M Dev string :=
  _ <-- lift (validate_params_mlx_apply_acl (vals E) parameters) ;;
  acl_name <-- lift (getitem parameters "acl_name") ;;
  intf_type <-- lift (getitem parameters "intf_type") ;;
  (* intf_name = parameters.pop('intf_name', None) *)
  let intf_name := default VNone (parameters !! "intf_name") in
  let parameters := delete "intf_name" parameters in
  if negb (truthy intf_name) then
    raise (ValueError MissingParameter "No Interface specified")
  else
    address_type <-- get_address_type acl_name ;;
    if negb (mem address_type ["mac"; "ip"; "ipv6"]) then raise not_supported
    else if String.eqb address_type "mac" && negb (eq_str intf_type "ethernet")
    then raise intf_type_not_supported
    else if eq_str intf_type "port_channel" then raise port_channel_not_allowed
    else
      intfs <-- lift (iterate intf_name) ;;
      (* This iteration will validate that interface exists
         It will also validate for interfaces part of lag *)
      _ <-- for_each intfs (fun intf =>
        let config :=
          interface_submode_template (tpls E)
            (<[ "intf_name" := VStr intf ]> parameters) in
        let config := Py.collapse_text config in
        output <-- call E (Batch [config]) CliSet ;;
        _ <-- lift (process_cli_output E "apply_acl" config output) ;;
        pure tt) ;;
      _ <-- for_each intfs (fun intf =>
        let config :=
          interface_submode_template (tpls E)
            (<[ "intf_name" := VStr intf ]> parameters) in
        let config := Py.collapse_text config in
        let cli_arr := [config] in
        (* t.render(address_type=address_type, **parameters) *)
        _ <-- lift (if has_key parameters "address_type" then
                      Raise (TypeError
                        "render() got multiple values for keyword argument 'address_type'")
                    else Ok tt) ;;
        let config :=
          apply_acl_template (tpls E)
            (<[ "address_type" := VStr address_type ]> parameters) in
        let config := Py.collapse_text config in
        let cli_arr := cli_arr ++ [config] ++ ["exit"] in
        output <-- call E (Batch cli_arr) CliSet ;;
        if Py.contains "Error: " output &&
           match acl_name with
           | VStr name => Py.contains name output
           | _ => false
           end
        then pure tt   (* pre-existing binding: logged, then continue *)
        else
          _ <-- lift (process_cli_output E "apply_acl" config output) ;;
          pure tt) ;;
      pure "apply_acl: Successful".

Definition add_ipv4_rule_acl (parameters : bag) : M Dev string :=
  _ <-- lift (validate_params_mlx_add_ipv4_rule_acl (vals E) parameters) ;;
  acl_name <-- lift (getitem parameters "acl_name") ;;
  ret <-- get_acl_address_and_acl_type acl_name ;;
  let acl_type := ret_type ret in
  let address_type := ret_protocol ret in
  if negb (String.eqb address_type "ip") then raise not_supported
  else
    cmd0 <-- lift (concat_str ("ip access-list " +:+ " " +:+ acl_type +:+ " ") acl_name) ;;
    let cli_arr := [cmd0] in
    ud_cmd <-- lift (
      if String.eqb acl_type "standard" then
        user_data <- parse_params_for_add_ipv4_standard parameters ;;
        Ok (user_data, add_ip_standard_acl_rule_template (tpls E))
      else if String.eqb acl_type "extended" then
        user_data <- parse_params_for_add_ipv4_extended parameters ;;
        Ok (user_data, add_ip_extended_acl_rule_template (tpls E))
      else Raise not_supported) ;;
    let '(user_data, cmd) := ud_cmd in
    let config := (cmd : template) user_data in
    let config := Py.collapse_text config in
    let cli_arr := cli_arr ++ [config] in
    output <-- call E (Batch cli_arr) CliSet ;;
    if Py.contains "Failed to initialize dns request" output then
      raise (ValueError DeviceRejected
               "ACL DNS: Errno(5) Failed to initialize dns request")
    else if Py.contains "are undefined" output then
      _ <-- lift (getitem parameters "icmp_filter") ;;
      raise (ValueError InvalidValue "Invlaid icmp filter: {}")
    else lift (process_cli_output E "add_ipv4_rule_acl" config output).

Definition delete_ipv4_acl_rule (parameters : bag) : M Dev string :=
  _ <-- lift (validate_params_mlx_delete_ipv4_rule_acl (vals E) parameters) ;;
  acl_name <-- lift (getitem parameters "acl_name") ;;
  seq_id <-- lift (getitem parameters "seq_id") ;;
  acl_type <-- get_acl_type acl_name ;;
  _ <-- is_valid_seq_id seq_id acl_name ;;
  cmd0 <-- lift (concat_str ("ip access-list " +:+ " " +:+ acl_type +:+ " ") acl_name) ;;
  let cli_arr := [cmd0] in
  let config := delete_rule_by_seq_id (tpls E) {[ "seq_id_str" := seq_id ]} in
  let config := Py.strip_disallowed config in
  let config := Py.collapse_text config in
  let cli_arr := cli_arr ++ [config] in
  output <-- call E (Batch cli_arr) CliSet ;;
  lift (process_cli_output E "delete_ipv4_acl_rule" config output).

Definition add_ipv6_rule_acl (parameters : bag) : M Dev string :=
  _ <-- lift (validate_params_mlx_add_ipv6_rule_acl (vals E) parameters) ;;
  acl_name <-- lift (getitem parameters "acl_name") ;;
  ret <-- get_acl_address_and_acl_type acl_name ;;
  let address_type := ret_protocol ret in
  if negb (String.eqb address_type "ipv6") then raise not_supported
  else
    cmd0 <-- lift (concat_str ("ipv6 access-list " +:+ " ") acl_name) ;;
    let cli_arr := [cmd0] in
    user_data <-- lift (parse_params_for_add_ipv6_extended parameters) ;;
    let cmd := add_ipv6_standard_acl_rule_template (tpls E) in
    let config := cmd user_data in
    let config := Py.collapse_text config in
    let cli_arr := cli_arr ++ [config] in
    output <-- call E (Batch cli_arr) CliSet ;;
    lift (process_cli_output E "add_ipv6_rule_acl" config output).

End Orchestrator.
End Acl.

(** ** Vocabulary for traces *)

Definition show_all : cli_arg := Cmd "show access-list all".
Definition show_ipv6 : cli_arg := Cmd "show ipv6 access-list".

(** The lines of the two listings, as [get_acl_address_and_acl_type]
    scans them. *)
Definition listing_lines (out1 out2 : string) : list string :=
  Py.split_on newline out1 ++ Py.split_on newline out2.

Definition is_get (ev : event) : Prop := ev_handler ev = CliGet.

(** A listing query: one of the two show commands, read-only. *)
Definition is_listing_query (ev : event) : Prop :=
  ev_handler ev = CliGet /\ (ev_arg ev = show_all \/ ev_arg ev = show_ipv6).


(** ** A concrete set of collaborators

    Used to run the orchestrator on concrete inputs. *)
Module Demo.

(** Modelled from the spec: [acl_template] is missing; a template is a
    fixed text with named slots, each non-absent fragment is substituted
    into its slot and an absent fragment renders as the empty string. *)
Inductive piece :=
| Lit (s : string)
| Slot (name : string).

Definition render_piece (ctx : bag) (p : piece) : string :=
  match p with
  | Lit s => s
  | Slot name =>
      match ctx !! name with
      | Some VNone | None => EmptyString
      | Some v => py_str v
      end
  end.

Definition render (t : list piece) : template :=
  fun ctx => fold_right (fun p acc => render_piece ctx p +:+ acc) EmptyString t.

(** One slot per fragment, in the given order, separated by spaces. *)
Definition slots (names : list string) : list piece :=
  flat_map (fun n => [Slot n; Lit " "]) names.

(** Modelled from the spec: the command shapes of its sections 4.4 and 6
    ([ip access-list extended Acl_1], [no ipv6 access-list Acl_1],
    [<seq> permit any any]). *)
Definition demo_templates : templates := {|
  create_acl_template := render [Lit "mac access-list "; Slot "acl_name_str"];
  delete_acl_template := render [Lit "no mac access-list "; Slot "acl_name_str"];
  add_l2_acl_rule_template :=
    render (slots ["seq_id_str"; "action_str"; "source_str"; "dst_str";
                   "vlan_str"; "ethertype_str"; "arp_guard_str";
                   "drop_precedence_str"; "drop_precedence_force_str";
                   "log_str"; "mirror_str"; "priority_str";
                   "priority_force_str"; "priority_mapping_str"]);
  add_ip_standard_acl_rule_template :=
    render (slots ["seq_id_str"; "action_str"; "vlan_str"; "source_str";
                   "log_str"]);
  add_ip_extended_acl_rule_template :=
    render (slots ["seq_id_str"; "action_str"; "vlan_str"; "protocol_str";
                   "source_str"; "dst_str"; "established_str";
                   "icmp_filter_str"; "dscp_mapping_str"; "dscp_marking_str";
                   "fragment_str"; "precedence_str"; "option_str";
                   "suppress_rpf_drop_str"; "priority_str";
                   "priority_force_str"; "priority_mapping_str"; "tos_str";
                   "drop_precedence_str"; "drop_precedence_force_str";
                   "copy_sflow"; "log_str"; "mirror_str"]);
  add_ipv6_standard_acl_rule_template :=
    render (slots ["seq_id_str"; "action_str"; "vlan_str"; "protocol_str";
                   "source_str"; "dst_str"; "log_str"; "mirror_str"]);
  delete_rule_by_seq_id := render [Lit "no sequence "; Slot "seq_id_str"];
  show_l2_access_list := render [Lit "show access-list l2 "; Slot "acl_name_str"];
  show_ip_access_list := render [Lit "show ip access-list "; Slot "acl_name_str"];
  show_ipv6_access_list := render [Lit "show ipv6 access-list "; Slot "acl_name_str"];
  interface_submode_template :=
    render [Lit "interface "; Slot "intf_type"; Lit " "; Slot "intf_name"];
  apply_acl_template :=
    render [Slot "address_type"; Lit " access-group "; Slot "acl_name";
            Lit " "; Slot "acl_direction"]
|}.

(** Modelled from the spec: [params_validator] is missing; these
    validators accept every bag. *)
Definition accept : bag -> result unit := fun _ => Ok tt.

Definition demo_validators : validators := {|
  validate_params_mlx_delete_acl := accept;
  validate_params_mlx_add_or_remove_l2_acl_rule := accept;
  validate_params_mlx_apply_acl := accept;
  validate_params_mlx_add_ipv4_rule_acl := accept;
  validate_params_mlx_delete_ipv4_rule_acl := accept;
  validate_params_mlx_add_ipv6_rule_acl := accept
|}.

(** Modelled from the spec: the presence rule of its section 4.1, for a
    field parser whose class is missing: absent or falsy gives [None],
    otherwise the text of the value. *)
Definition presence (key : string) : parser :=
  fun parameters =>
    if is_set parameters key then
      v <- getitem parameters key ;; Ok (Some (py_str v))
    else Ok None.

Definition demo_mac : mac_acl := {|
  mac_parse_acl_name := presence "acl_name";
  mac_parse_seq_id := presence "seq_id";
  mac_parse_action := presence "action";
  mac_parse_source := presence "source";
  mac_parse_dst := presence "dst";
  mac_parse_vlan := presence "vlan";
  mac_parse_ethertype := presence "ethertype";
  mac_parse_arp_guard := presence "arp_guard";
  mac_parse_drop_precedence := presence "drop_precedence";
  mac_parse_drop_precedence_force := presence "drop_precedence_force";
  mac_parse_log := presence "log";
  mac_parse_mirror := presence "mirror";
  mac_parse_priority := presence "priority";
  mac_parse_priority_force := presence "priority_force";
  mac_parse_priority_mapping := presence "priority_mapping"
|}.

Definition demo_ipv6 : ipv6_acl := {|
  ipv6_parse_seq_id := presence "seq_id";
  ipv6_parse_action := presence "action";
  ipv6_parse_vlan := presence "vlan_id";
  ipv6_parse_protocol := presence "protocol_type";
  ipv6_parse_source := presence "source";
  ipv6_parse_destination := presence "destination";
  ipv6_parse_dscp_mapping := presence "dscp";
  ipv6_parse_fragment := presence "fragment";
  ipv6_parse_tcp_operator := presence "tcp_operator";
  ipv6_parse_icmp_filter := presence "icmp_filter";
  ipv6_parse_copy_sflow := presence "copy_sflow";
  ipv6_parse_drop_precedence := presence "drop_precedence";
  ipv6_parse_drop_precedence_force := presence "drop_precedence_force";
  ipv6_parse_dscp_marking := presence "dscp_marking";
  ipv6_parse_priority_force := presence "priority_force";
  ipv6_parse_priority_mapping := presence "priority_mapping";
  ipv6_parse_suppress_rpf_drop := presence "suppress_rpf_drop";
  ipv6_parse_mirror := presence "mirror";
  ipv6_parse_log := presence "log"
|}.

(** Modelled from the spec: [BaseAcl._process_cli_output] is missing;
    success unless the output contains an error marker. *)
Definition demo_process_cli_output (method config output : string)
    : result string :=
  if Py.contains "Error" output then Raise (ValueError DeviceRejected output)
  else Ok (method +:+ ": Successful").

(** What the C library's [inet_aton], which [socket.inet_aton] calls,
    accepts: one to four numbers separated by dots, each in decimal, in
    octal with a leading 0 or in hexadecimal with a leading 0x; a number
    followed by a dot is at most 255 and the last number fills the bytes
    that remain; after the last number the text ends or goes on with a
    whitespace byte. *)
Definition digit_of (base : Z) (c : ascii) : option Z :=
  let n := Z.of_N (N_of_ascii c) in
  let v := if (48 <=? n) && (n <=? 57) then n - 48
           else if (97 <=? n) && (n <=? 102) then n - 87
           else if (65 <=? n) && (n <=? 70) then n - 55
           else 16 in
  if v <? base then Some v else None.

(** The value of the longest prefix of digits of one base, and the rest
    of the text. *)
Fixpoint number (base acc : Z) (s : string) : Z * string :=
  match s with
  | EmptyString => (acc, s)
  | String c s' =>
      match digit_of base c with
      | Some v => number base (base * acc + v) s'
      | None => (acc, s)
      end
  end.

(** [strtoul(s, &end, 0)] on a text that starts with a digit. *)
Definition strtoul (s : string) : Z * string :=
  match s with
  | String "0" s1 =>
      match s1 with
      | String x (String h _ as s2) =>
          if (Ascii.eqb x "x" || Ascii.eqb x "X")
             && match digit_of 16 h with Some _ => true | None => false end
          then number 16 0 s2
          else number 8 0 s1
      | _ => number 8 0 s1
      end
  | _ => number 10 0 s
  end.

(** The largest last number after [dots] dotted ones. *)
Definition last_max (dots : nat) : Z :=
  match dots with
  | O => 4294967295
  | 1%nat => 16777215
  | 2%nat => 65535
  | _ => 255
  end.

Fixpoint inet_aton_from (fuel dots : nat) (s : string) : bool :=
  match fuel, s with
  | S fuel', String c _ =>
      if Py.isdigit_char c then
        let '(val, rest) := strtoul s in
        match rest with
        | EmptyString => val <=? last_max dots
        | String d rest' =>
            if Ascii.eqb d "." then
              (dots <? 3)%nat && (val <=? 255)
              && inet_aton_from fuel' (S dots) rest'
            else Py.isspace d && (val <=? last_max dots)
        end
      else false
  | _, _ => false
  end.

Definition c_inet_aton (addr : string) : bool := inet_aton_from 4 0 addr.

(** A device that answers from a fixed table: the reply to a single
    command is looked up by its text, every batch is accepted in
    silence.  Its state is the table. *)
Definition device : Type := list (string * string).

Fixpoint reply (table : device) (c : string) : string :=
  match table with
  | [] => EmptyString
  | (c', out) :: table' => if String.eqb c c' then out else reply table' c
  end.

Definition demo_callback (d : device) (arg : cli_arg) (h : handler)
    : result string * device :=
  match arg with
  | Cmd c => (Ok (reply d c), d)
  | Batch _ => (Ok EmptyString, d)
  end.

Definition demo_env : env device := {|
  callback := demo_callback;
  process_cli_output := demo_process_cli_output;
  is_parameter_supported := fun _ _ => Ok tt;
  vals := demo_validators;
  tpls := demo_templates;
  mac := demo_mac;
  ipv6 := demo_ipv6;
  inet_aton := c_inet_aton
|}.

Definition lines (l : list string) : string := Py.join (String newline EmptyString) l.

(** A switch with one MAC, one extended IPv4 and one IPv6 access list;
    the IPv4 list holds rules 10 and 20. *)
Definition switch : device :=
  [("show access-list all",
    lines ["mac access-list Mac_1"; "ip access-list extended Acl_1"]);
   ("show ipv6 access-list", lines ["ipv6 access-list V6_1"]);
   ("show ip access-list Acl_1",
    lines ["10: permit ip any any"; "20: deny tcp any any eq 80"])].

Definition world0 : world device := World switch [].

(** A bag with every mandatory field of an extended IPv4 rule, a
    'priority' in range and a 'priority_force' out of range. *)
Definition both_priorities : bag :=
  kwargs [("acl_name", VStr "Acl_1"); ("action", VStr "permit");
          ("protocol_type", VStr "ip"); ("source", VStr "any");
          ("priority", VInt 3); ("priority_force", VInt 9)].

(** A bag with the mandatory fields of an extended IPv4 rule and 'mirror'
    set. *)
Definition mirrored : bag :=
  kwargs [("acl_name", VStr "Acl_1"); ("action", VStr "permit");
          ("protocol_type", VStr "ip"); ("source", VStr "any");
          ("log", VBool false); ("mirror", VBool true)].

(** An IPv6 rule whose source is an IPv6 prefix. *)
Definition v6_rule : bag :=
  kwargs [("acl_name", VStr "V6_1"); ("action", VStr "permit");
          ("protocol_type", VStr "ipv6"); ("source", VStr "2001:db8::/32");
          ("destination", VStr "any")].

(** The L2 rule of the docstring of [add_l2_acl_rule]. *)
Definition l2_rule : bag :=
  kwargs [("acl_name", VStr "Mac_1"); ("action", VStr "permit");
          ("source", VStr "any"); ("dst", VStr "any"); ("vlan", VInt 10)].

(** Binding an access list that the switch does not have, and one that
    it has, to a port channel. *)
Definition port_channel_unknown_acl : bag :=
  kwargs [("acl_name", VStr "Acl_9"); ("intf_type", VStr "port_channel");
          ("intf_name", VList ["1/1"; "1/2"]); ("acl_direction", VStr "in")].

Definition port_channel_known_acl : bag :=
  kwargs [("acl_name", VStr "Acl_1"); ("intf_type", VStr "port_channel");
          ("intf_name", VList ["1/1"; "1/2"]); ("acl_direction", VStr "in")].






End Demo.

(** ** The remaining entry points of [class Acl]

[create_acl], [delete_l2_acl_rule], [remove_acl] and
[delete_ipv6_acl_rule] need three more validators of [params_validator]
and one more template of [acl_template]. *)
Record more_collaborators := MoreCollaborators {
  validate_params_mlx_create_acl : bag -> result unit;
  validate_params_mlx_remove_acl : bag -> result unit;
  validate_params_mlx_delete_ipv6_rule_acl : bag -> result unit;
  remove_acl_template : template
}.

Module AclRest.
Section Orchestrator.
Context {Dev : Type} (E : env Dev) (R : more_collaborators).

(** The [if address_type == ...] chain of [create_acl]; [acl_name] is what
    [self.mac.parse_acl_name] returned and [acl_type] is
    [parameters.get('acl_type', None)]. *)
Definition create_config (address_type acl_type : value)
    (acl_name : option string) : result string :=
  if Acl.eq_str address_type "mac" then
    concat_str "mac access-list " (frag acl_name)
  else if Acl.eq_str address_type "ip" then
    if negb (truthy acl_type) then
      Raise (ValueError MissingParameter "acl_type is required param for ip ACL")
    else
      s <- concat_str "ip access-list " acl_type ;;
      concat_str (s +:+ " ") (frag acl_name)
  else if Acl.eq_str address_type "ipv6" then
    concat_str "ipv6 access-list " (frag acl_name)
  else Raise Acl.address_type_not_supported.

Definition create_acl (parameters : bag) : M Dev string :=
  _ <-- lift (validate_params_mlx_create_acl R parameters) ;;
  address_type <-- lift (getitem parameters "address_type") ;;
  let acl_type := default VNone (parameters !! "acl_type") in
  acl_name <-- lift (mac_parse_acl_name (mac E) parameters) ;;
  config <-- lift (create_config address_type acl_type acl_name) ;;
  output <-- call E (Batch [config]) CliSet ;;
  lift (process_cli_output E "create_acl" config output).

Definition missing_seq_id : exn :=
  ValueError MissingParameter "missing required parameters: ['seq_id']".

Definition missing_acl_name : exn :=
  ValueError MissingParameter "missing required parameters: ['acl_name']".

(** The delete-by-sequence command: rendered, filtered, normalised. *)
Definition delete_seq_config (seq_id : value) : string :=
  let config := delete_rule_by_seq_id (tpls E) {[ "seq_id_str" := seq_id ]} in
  let config := Py.strip_disallowed config in
  Py.collapse_text config.

Definition delete_l2_acl_rule (parameters : bag) : M Dev string :=
  if negb (is_set parameters "seq_id") then raise missing_seq_id
  else if negb (is_set parameters "acl_name") then raise missing_acl_name
  else
    acl_name <-- lift (mac_parse_acl_name (mac E) parameters) ;;
    seq_id <-- lift (getitem parameters "seq_id") ;;
    _ <-- Acl.is_valid_seq_id E seq_id (frag acl_name) ;;
    let config :=
      create_acl_template (tpls E) {[ "acl_name_str" := frag acl_name ]} in
    let config := Py.collapse_text config in
    let cli_arr := [config] in
    let config := delete_seq_config seq_id in
    let cli_arr := cli_arr ++ [config] in
    output <-- call E (Batch cli_arr) CliSet ;;
    lift (process_cli_output E "delete_l2_acl_rule" config output).

Definition delete_ipv6_acl_rule (parameters : bag) : M Dev string :=
  _ <-- lift (validate_params_mlx_delete_ipv6_rule_acl R parameters) ;;
  acl_name <-- lift (getitem parameters "acl_name") ;;
  seq_id <-- lift (getitem parameters "seq_id") ;;
  _ <-- Acl.is_valid_seq_id E seq_id acl_name ;;
  cmd0 <-- lift (concat_str ("ipv6 access-list " +:+ " ") acl_name) ;;
  let cli_arr := [cmd0] in
  let config := delete_seq_config seq_id in
  let cli_arr := cli_arr ++ [config] in
  output <-- call E (Batch cli_arr) CliSet ;;
  lift (process_cli_output E "delete_ipv6_acl_rule" config output).

(** The interface-context command of [apply_acl] and [remove_acl] for one
    interface; [parameters] is the bag after [pop('intf_name')]. *)
Definition submode_config (parameters : bag) (intf : string) : string :=
  Py.collapse_text (interface_submode_template (tpls E)
                      (<[ "intf_name" := VStr intf ]> parameters)).

(** [t.render(address_type=address_type, **parameters)]: a bag that has
    the key already makes the call itself fail. *)
Definition render_with_address_type (t : template) (address_type : string)
    (parameters : bag) : result string :=
  if has_key parameters "address_type" then
    Raise (TypeError
      "render() got multiple values for keyword argument 'address_type'")
  else Ok (Py.collapse_text
             (t (<[ "address_type" := VStr address_type ]> parameters))).

(** The second loop of [remove_acl]: it sends nothing, it appends three
    commands per interface to one list. *)
Fixpoint remove_batch (parameters : bag) (address_type : string)
    (intfs : list string) : result (list string) :=
  match intfs with
  | [] => Ok []
  | intf :: intfs' =>
      let config := submode_config parameters intf in
      config' <- render_with_address_type (remove_acl_template R)
                   address_type parameters ;;
      cli_arr <- remove_batch parameters address_type intfs' ;;
      Ok ([config; config'; "exit"] ++ cli_arr)
  end.

Definition remove_acl (parameters : bag) : M Dev string :=
  _ <-- lift (validate_params_mlx_remove_acl R parameters) ;;
  acl_name <-- lift (getitem parameters "acl_name") ;;
  intf_type <-- lift (getitem parameters "intf_type") ;;
  (* intf_name = parameters.pop('intf_name', None) *)
  let intf_name := default VNone (parameters !! "intf_name") in
  let parameters := delete "intf_name" parameters in
  if negb (truthy intf_name) then
    raise (ValueError MissingParameter "No Interface specified")
  else
    address_type <-- Acl.get_address_type E acl_name ;;
    if negb (mem address_type ["mac"; "ip"; "ipv6"]) then raise Acl.not_supported
    else if String.eqb address_type "mac" && negb (Acl.eq_str intf_type "ethernet")
    then raise Acl.intf_type_not_supported
    else if Acl.eq_str intf_type "port_channel"
    then raise Acl.port_channel_not_allowed
    else
      intfs <-- lift (Acl.iterate intf_name) ;;
      _ <-- for_each intfs (fun intf =>
        let config := submode_config parameters intf in
        output <-- call E (Batch [config]) CliSet ;;
        _ <-- lift (process_cli_output E "remove_acl" config output) ;;
        pure tt) ;;
      cli_arr <-- lift (remove_batch parameters address_type intfs) ;;
      config <-- lift (render_with_address_type (remove_acl_template R)
                         address_type parameters) ;;
      output <-- call E (Batch cli_arr) CliSet ;;
      lift (process_cli_output E "remove_acl" config output).

End Orchestrator.
End AclRest.

(** ** More concrete collaborators and inputs *)
Module DemoRest.

(** Modelled from the spec: validators that accept every bag, and an
    unbind template of the shape of the bind template. *)
Definition demo_more : more_collaborators := {|
  validate_params_mlx_create_acl := Demo.accept;
  validate_params_mlx_remove_acl := Demo.accept;
  validate_params_mlx_delete_ipv6_rule_acl := Demo.accept;
  remove_acl_template :=
    Demo.render [Demo.Lit "no "; Demo.Slot "address_type";
                 Demo.Lit " access-group "; Demo.Slot "acl_name";
                 Demo.Lit " "; Demo.Slot "acl_direction"]
|}.

Definition bind_two : bag :=
  kwargs [("acl_name", VStr "Acl_1"); ("intf_type", VStr "ethernet");
          ("intf_name", VList ["1/1"; "1/2"]); ("acl_direction", VStr "in")].

Definition create_ip_extended : bag :=
  kwargs [("acl_name", VStr "Acl_2"); ("acl_type", VStr "extended");
          ("address_type", VStr "ip")].

Definition create_ip_untyped : bag :=
  kwargs [("acl_name", VStr "Acl_2"); ("address_type", VStr "ip")].

(** A sequence number given as text, and a switch that lists the rules
    of its MAC access list. *)
Definition delete_seq_string : bag :=
  kwargs [("acl_name", VStr "Acl_1"); ("seq_id", VStr "10")].




End DemoRest.

(** ** Named errors and character classes

Shorthands used in the statements. *)

Definition precedence_invalid : exn :=
  ValueError InvalidValue
    "Invalid precedence {}. Supported values are <0 to 7> | critical | flash |flash-override | immediate | internet | network |priority | routine ".

Definition tos_invalid : exn :=
  ValueError InvalidValue "Invalid tos {}. Allowed value in decimal <0-15>.".

Definition dscp_mapping_invalid : exn :=
  ValueError InvalidValue "Invalid dscp_mapping {}. Supported range is <0-63>".

Definition operator_needs_tcp_udp : exn :=
  ValueError InvalidValue
    "tcp udp operator is supported only for.protocol_type = tcp or udp".

(** A byte of a dotted-decimal address: a digit or a dot. *)
Definition dotted_char (c : ascii) : bool :=
  Py.isdigit_char c || Ascii.eqb c ".".

(** A text of digits, dots and slashes holds no keyword that starts with
    a letter. *)
Definition address_char (c : ascii) : bool :=
  dotted_char c || Ascii.eqb c "/".

Definition protocol_type_required : exn :=
  ValueError MissingParameter "'protocol_type' is required for MLX device".

Definition priority_invalid : exn :=
  ValueError InvalidValue "Invalid priority {}. Allowed value in decimal <0-7>.".

Definition priority_force_invalid : exn :=
  ValueError InvalidValue
    "Invalid priority_force {}. Allowed value in decimal <0-7>.".

Definition priority_mapping_invalid : exn :=
  ValueError InvalidValue
    "Invalid priority_mapping {}. Allowed value in decimal <0-7>.".

Definition vlan_invalid : exn :=
  ValueError InvalidValue
    "The 'vlan' value {} is invalid. Specify '1-4095' supported values".

(** ** Vocabulary for the builds and the interface loops *)

(** The keys a rule build stores: one per field parser. *)
Definition field_keys (fields : list (string * parser)) : list string :=
  map fst fields.

(** Every field parser of the list succeeds on the bag. *)
Definition all_fields_ok (fields : list (string * parser)) (parameters : bag)
    : bool :=
  forallb (fun kp => is_ok (kp.2 parameters)) fields.

(** The interface list that the loops of [apply_acl] and [remove_acl]
    walk: the items of 'intf_name'. *)
Definition interfaces_of (parameters : bag) : list string :=
  match Acl.iterate (default VNone (parameters !! "intf_name")) with
  | Ok l => l
  | Raise _ => []
  end.

(** The argument of the probe call for one interface, and of the bind
    call of [apply_acl] for one interface. *)
Definition probe_arg {Dev : Type} (E : env Dev) (parameters : bag)
    (intf : string) : cli_arg :=
  Batch [AclRest.submode_config E (delete "intf_name" parameters) intf].

Definition bind_arg {Dev : Type} (E : env Dev) (parameters : bag)
    (address_type : string) (intf : string) : cli_arg :=
  Batch [AclRest.submode_config E (delete "intf_name" parameters) intf;
         Py.collapse_text (apply_acl_template (tpls E)
                        (<[ "address_type" := VStr address_type ]>
                           (delete "intf_name" parameters)));
         "exit"].

(** The one batch of [remove_acl]: three commands per interface. *)
Definition unbind_arg {Dev : Type} (E : env Dev) (R : more_collaborators)
    (parameters : bag) (address_type : string) : cli_arg :=
  Batch (flat_map
           (fun intf =>
              [AclRest.submode_config E (delete "intf_name" parameters) intf;
               Py.collapse_text (remove_acl_template R
                              (<[ "address_type" := VStr address_type ]>
                                 (delete "intf_name" parameters)));
               "exit"])
           (interfaces_of parameters)).

(** A call that was answered and whose answer [_process_cli_output]
    accepted. *)
Definition accepted {Dev : Type} (E : env Dev) (method : string)
    (ev : event) : Prop :=
  exists cfg out,
    ev_arg ev = Batch [cfg] /\ ev_out ev = Ok out
    /\ is_ok (process_cli_output E method cfg out) = true.

Definition is_set_call (ev : event) : Prop := ev_handler ev = CliSet.

(** * Properties *)

(** ** The string primitives on examples *)

Example split_ex : Py.split "  permit   any	any  " = ["permit"; "any"; "any"].
Proof. reflexivity. Qed.

Example collapse_ex : Py.collapse " 10   permit  any " = "10 permit any".
Proof. reflexivity. Qed.

(** A rendered command also splits at a file separator (0x1c) and at a
    no-break space (0xa0), which a byte string keeps. *)
Example collapse_text_ex :
  Py.collapse_text
    ("permit" +:+ String (ascii_of_nat 28) ("any" +:+ String (ascii_of_nat 160) " any"))
  = "permit any any"
  /\ Py.split
       ("permit" +:+ String (ascii_of_nat 28) ("any" +:+ String (ascii_of_nat 160) " any"))
     = ["permit" +:+ String (ascii_of_nat 28) ("any" +:+ String (ascii_of_nat 160) "");
        "any"].
Proof. split; vm_compute; reflexivity. Qed.

Example inet_aton_ex :
  forallb Demo.c_inet_aton
    ["10.1.1.1"; "10.1"; "1"; "0x10.1.1.1"; "4294967295"; "0377.0.0.1"] = true
  /\ existsb Demo.c_inet_aton
       ["256.1.1.1"; "1.2.3.4.5"; "any"; "08"; "4294967296"; "1.2.3.4x"; ""]
     = false.
Proof. split; vm_compute; reflexivity. Qed.

Example find_ex : Py.find "any eq 80" "eq" = 4 /\ Py.find "any" "eq" = -1.
Proof. split; reflexivity. Qed.

Example split_on_ex : Py.split_on ":" "10: permit any" = ["10"; " permit any"].
Proof. reflexivity. Qed.

Example str_int_ex : Py.str_int 4095 = "4095" /\ Py.str_int 0 = "0" /\ Py.str_int (-3) = "-3".
Proof. repeat split; reflexivity. Qed.

Example int_ex : Py.int "0255" = 255.
Proof. reflexivity. Qed.

Example strip_ex : Py.strip_disallowed "permit a_b/c:1.2-x" = "permit abc1.2-x".
Proof. reflexivity. Qed.

Example parse_action_ex :
  IpAcl.parse_action (kwargs [("action", VStr "permit")]) = Ok (Some "permit").
Proof. vm_compute. reflexivity. Qed.

Example parse_vlan_ex :
  IpAcl.parse_vlan (kwargs [("vlan_id", VInt 10)]) = Ok (Some "10").
Proof. vm_compute. reflexivity. Qed.

Example parse_source_ex :
  IpAcl.parse_source (fun _ => true)
    (kwargs [("source", VStr "any  eq 80"); ("protocol_type", VStr "tcp")])
  = Ok (Some "any  eq 80").
Proof. vm_compute. reflexivity. Qed.


(** ** Field parsers *)

Arguments mem : simpl never.
Arguments Py.collapse : simpl never.
Arguments Py.collapse_text : simpl never.
Arguments Py.contains : simpl never.
Arguments Py.isdigit : simpl never.
Arguments Py.int : simpl never.
Arguments Py.split_on : simpl never.
Arguments Py.strip_disallowed : simpl never.

(** [parse_log] looks at nothing but the presence of the key. *)
Lemma parse_log_eq (parameters : bag) :
  IpAcl.parse_log parameters =
  if has_key parameters "log" then Ok None else Raise (KeyError "log").
Proof.
  unfold IpAcl.parse_log, in_or_falsy, has_key, getitem.
  destruct (parameters !! "log"); reflexivity.
Qed.

(** [parse_mirror] looks at nothing but the presence of the key. *)
Lemma parse_mirror_eq (parameters : bag) :
  IpAcl.parse_mirror parameters =
  if has_key parameters "mirror" then Ok None else Raise (KeyError "mirror").
Proof.
  unfold IpAcl.parse_mirror, in_or_falsy, has_key, getitem.
  destruct (parameters !! "mirror"); reflexivity.
Qed.

Lemma mem_true_iff (s : string) (l : list string) :
  mem s l = true <-> In s l.
Proof.
  unfold mem. rewrite existsb_exists. split.
  - intros [x [Hin Heq]]. apply String.eqb_eq in Heq. subst. assumption.
  - intros Hin. exists s. split; [assumption | apply String.eqb_refl].
Qed.

(** No protocol keyword is a digit string. *)
Lemma protocol_keywords_not_digits (s : string) :
  mem s IpAcl.protocol_keywords = true -> Py.isdigit s = false.
Proof.
  intros Hmem. apply mem_true_iff in Hmem.
  assert (Hall : forallb (fun k => negb (Py.isdigit k)) IpAcl.protocol_keywords = true)
    by (vm_compute; reflexivity).
  rewrite forallb_forall in Hall. specialize (Hall s Hmem).
  apply negb_true_iff in Hall. exact Hall.
Qed.

Lemma isdigit_nonempty (s : string) : Py.isdigit s = true -> nonempty s = true.
Proof. destruct s; [discriminate | reflexivity]. Qed.

(** Every digit string is rejected by [parse_protocol], in range or not:
    the range test passes numbers on to the keyword test. *)
Lemma parse_protocol_rejects_digits (parameters : bag) (s : string) :
  parameters !! "protocol_type" = Some (VStr s) ->
  Py.isdigit s = true ->
  exists msg, IpAcl.parse_protocol parameters = Raise (ValueError InvalidValue msg).
Proof.
  intros Hget Hdig. unfold IpAcl.parse_protocol. rewrite Hget. simpl.
  pose proof (isdigit_nonempty s Hdig) as Hne. unfold nonempty in Hne.
  rewrite Hne. simpl. rewrite Hdig.
  destruct ((Py.int s <? 0) || (255 <? Py.int s)); simpl; [eauto |].
  destruct (mem s IpAcl.protocol_keywords) eqn:Hmem; simpl; [| eauto].
  apply protocol_keywords_not_digits in Hmem. congruence.
Qed.

(** C1: [parse_protocol] on '256', '255', 'tcp' and 'bogus'.  '256' and
    'bogus' fail and 'tcp' is returned, as claimed; '255' is rejected by
    the keyword test although it lies in [0,255]. *)
Theorem parse_protocol_on_255 :
  IpAcl.parse_protocol (kwargs [("protocol_type", VStr "255")])
    = Raise (ValueError InvalidValue "invalid 'protocol_type' value {}.")
  /\ IpAcl.parse_protocol (kwargs [("protocol_type", VStr "256")])
    = Raise (ValueError InvalidValue
        "The 'protocol' value {} is invalid. Specify '0-255' supported values")
  /\ IpAcl.parse_protocol (kwargs [("protocol_type", VStr "tcp")]) = Ok (Some "tcp")
  /\ IpAcl.parse_protocol (kwargs [("protocol_type", VStr "bogus")])
    = Raise (ValueError InvalidValue "invalid 'protocol_type' value {}.").
Proof. repeat split; vm_compute; reflexivity. Qed.

(** C2: [parse_log] with 'log' and 'mirror' both truthy returns [None]
    instead of failing, with 'log' truthy alone returns [None] instead of
    the fragment, and with no 'log' key raises [KeyError]. *)
Theorem parse_log_inverted_presence_test :
  IpAcl.parse_log (kwargs [("log", VBool true); ("mirror", VBool true)]) = Ok None
  /\ IpAcl.parse_log (kwargs [("log", VBool true)]) = Ok None
  /\ IpAcl.parse_log (kwargs []) = Raise (KeyError "log")
  /\ IpAcl.parse_log (kwargs [("mirror", VBool true)]) = Raise (KeyError "log").
Proof. repeat split; vm_compute; reflexivity. Qed.

(** C4: with 'option' set, protocol tcp and an operator in the destination
    only, [parse_option] checks the source twice and accepts; without a
    source the second check reads an unbound variable. *)
Theorem parse_option_ignores_destination :
  IpAcl.parse_option
    (kwargs [("option", VStr "any"); ("protocol_type", VStr "tcp");
             ("source", VStr "any"); ("destination", VStr "any eq 80")])
    = Ok (Some "option any")
  /\ IpAcl.parse_option
    (kwargs [("option", VStr "any"); ("protocol_type", VStr "tcp");
             ("destination", VStr "any eq 80")])
    = Raise (UnboundLocalError "src")
  /\ IpAcl.parse_option
    (kwargs [("option", VStr "any"); ("protocol_type", VStr "tcp");
             ("source", VStr "any eq 80"); ("destination", VStr "any")])
    = Raise IpAcl.option_conflict.
Proof. repeat split; vm_compute; reflexivity. Qed.

(** C5, the claim as stated fails at 0: a [vlan_id] of 0 is outside
    [1,4095] and [parse_vlan] returns [None] for it. *)
Lemma parse_vlan_zero_is_absent :
  ~ (1 <= 0 <= 4095) /\
  IpAcl.parse_vlan (kwargs [("vlan_id", VInt 0)]) = Ok None.
Proof. split; [lia | vm_compute; reflexivity]. Qed.

(** C5, amended: for an integer [vlan_id], 0 gives [None]; every other
    value outside [1,4095] fails with InvalidValue; every value in
    [1,4095] gives its decimal string. *)
Theorem parse_vlan_integer (parameters : bag) (z : Z) :
  parameters !! "vlan_id" = Some (VInt z) ->
  (z = 0 -> IpAcl.parse_vlan parameters = Ok None)
  /\ (z <> 0 -> ~ (1 <= z <= 4095) ->
      IpAcl.parse_vlan parameters =
      Raise (ValueError InvalidValue
        "The 'vlan' value {} is invalid. Specify '1-4095' supported values"))
  /\ (1 <= z <= 4095 ->
      IpAcl.parse_vlan parameters = Ok (Some (Py.str_int z))).
Proof.
  intros Hget. unfold IpAcl.parse_vlan. rewrite Hget.
  unfold truthy, gt_int, lt_int, cmp_int, py_str.
  repeat split.
  - intros ->. reflexivity.
  - intros Hnz Hout. destruct (Z.eqb_spec z 0) as [|_]; [contradiction |]. simpl.
    destruct (Z.compare_spec z 0), (Z.compare_spec z 4096); simpl;
      try reflexivity; lia.
  - intros Hin. destruct (Z.eqb_spec z 0) as [|_]; [lia |]. simpl.
    destruct (Z.compare_spec z 0), (Z.compare_spec z 4096); simpl;
      try reflexivity; lia.
Qed.

Lemma parse_vlan_integer_witness :
  (10 = 0 -> IpAcl.parse_vlan (kwargs [("vlan_id", VInt 10)]) = Ok None)
  /\ (10 <> 0 -> ~ (1 <= 10 <= 4095) ->
      IpAcl.parse_vlan (kwargs [("vlan_id", VInt 10)]) =
      Raise (ValueError InvalidValue
        "The 'vlan' value {} is invalid. Specify '1-4095' supported values"))
  /\ (1 <= 10 <= 4095 ->
      IpAcl.parse_vlan (kwargs [("vlan_id", VInt 10)]) = Ok (Some (Py.str_int 10))).
Proof.
  apply (parse_vlan_integer (kwargs [("vlan_id", VInt 10)]) 10).
  vm_compute. reflexivity.
Defined.

(** ** Rule builders *)

Lemma run_fields_app (l1 l2 : list (string * parser)) (parameters ud : bag) :
  Acl.run_fields (l1 ++ l2) parameters ud =
  bind (Acl.run_fields l1 parameters ud)
       (fun ud' => Acl.run_fields l2 parameters ud').
Proof.
  revert ud. induction l1 as [| [k p] l1 IH]; intros ud; simpl.
  - reflexivity.
  - destruct (p parameters); simpl; [apply IH | reflexivity].
Qed.

Lemma run_fields_ok (l : list (string * parser)) (parameters ud : bag) :
  Forall (fun kp => is_ok (kp.2 parameters) = true) l ->
  exists ud', Acl.run_fields l parameters ud = Ok ud'.
Proof.
  intros Hall. revert ud. induction Hall as [| [k p] l Hp _ IH]; intros ud; simpl.
  - eauto.
  - simpl in Hp. destruct (p parameters); [apply IH | discriminate].
Qed.

(** The fragment stored by the last parser of a build is what is found
    under its key. *)
Lemma run_fields_last (l : list (string * parser)) (k : string) (p : parser)
    (parameters ud ud' : bag) :
  Acl.run_fields (l ++ [(k, p)]) parameters ud = Ok ud' ->
  exists v, p parameters = Ok v /\ ud' !! k = Some (frag v).
Proof.
  rewrite run_fields_app. destruct (Acl.run_fields l parameters ud) as [ud1 |];
    simpl; [| discriminate].
  destruct (p parameters) as [v |]; simpl; [| discriminate].
  intros [= <-]. exists v. split; [reflexivity | apply lookup_insert_eq].
Qed.

Section Builders.
Context {Dev : Type} (E : env Dev).

(** Both IPv4 rule builds stop at their first field: after the lookup of
    'acl_name' they evaluate [self.ip.parse_seq_id], which [class IpAcl]
    does not define. *)
Lemma ipv4_extended_build_raises (parameters : bag) :
  Acl.parse_params_for_add_ipv4_extended E parameters
  = (if has_key parameters "acl_name"
     then Raise (AttributeError "parse_seq_id")
     else Raise (KeyError "acl_name")).
Proof.
  unfold Acl.parse_params_for_add_ipv4_extended, getitem, has_key.
  destruct (parameters !! "acl_name"); reflexivity.
Qed.

Lemma ipv4_standard_build_raises (parameters : bag) :
  Acl.parse_params_for_add_ipv4_standard E parameters
  = match is_parameter_supported E
            ["acl_name"; "seq_id"; "action"; "source"; "vlan_id"; "log"]
            parameters with
    | Raise e => Raise e
    | Ok _ =>
        if has_key parameters "acl_name"
        then Raise (AttributeError "parse_seq_id")
        else Raise (KeyError "acl_name")
    end.
Proof.
  unfold Acl.parse_params_for_add_ipv4_standard, getitem, has_key.
  destruct (is_parameter_supported E _ parameters) as [[] |]; [| reflexivity].
  cbn [bind]. destruct (parameters !! "acl_name"); reflexivity.
Qed.

(** C9: a bag with 'priority' and 'priority_force' both truthy makes
    [parse_priority] and [parse_priority_force] fail with the conflict
    error whatever the two values are, since the conflict test comes
    before the range test; but the rule build never gets to them: it
    raises [KeyError] when the bag has no 'acl_name' and otherwise
    [AttributeError] at [self.ip.parse_seq_id], its first field, so it
    never fails with ConflictingParameters. *)
Theorem priority_conflict_not_reached_by_build (parameters : bag) :
  is_set parameters "priority" = true ->
  is_set parameters "priority_force" = true ->
  IpAcl.parse_priority parameters = Raise IpAcl.priority_conflict
  /\ IpAcl.parse_priority_force parameters = Raise IpAcl.priority_conflict
  /\ Acl.parse_params_for_add_ipv4_extended E parameters
     = (if has_key parameters "acl_name"
        then Raise (AttributeError "parse_seq_id")
        else Raise (KeyError "acl_name"))
  /\ (forall msg,
        Acl.parse_params_for_add_ipv4_extended E parameters
        <> Raise (ValueError ConflictingParameters msg)).
Proof.
  intros Hp Hpf. split; [| split; [| split]].
  - unfold IpAcl.parse_priority. rewrite Hp, Hpf. reflexivity.
  - unfold IpAcl.parse_priority_force. rewrite Hp, Hpf. reflexivity.
  - apply ipv4_extended_build_raises.
  - intros msg. rewrite ipv4_extended_build_raises.
    destruct (has_key parameters "acl_name"); discriminate.
Qed.

(** C10: [parse_mirror] returns [None] when the bag has the 'mirror' key
    and raises [KeyError] when it has not; it never returns a fragment
    and never raises a [ValueError], so the test on the action is never
    reached; a successful extended IPv4 build stores [None] under
    [mirror_str]. *)
Theorem parse_mirror_never_renders (parameters : bag) :
  IpAcl.parse_mirror parameters
  = (if has_key parameters "mirror" then Ok None else Raise (KeyError "mirror"))
  /\ (forall s, IpAcl.parse_mirror parameters <> Ok (Some s))
  /\ (forall k msg, IpAcl.parse_mirror parameters <> Raise (ValueError k msg))
  /\ (forall user_data,
        Acl.parse_params_for_add_ipv4_extended E parameters = Ok user_data ->
        user_data !! "mirror_str" = Some VNone).
Proof.
  pose proof (parse_mirror_eq parameters) as Heq.
  repeat split.
  - exact Heq.
  - intros s. rewrite Heq. destruct (has_key parameters "mirror"); discriminate.
  - intros k msg. rewrite Heq.
    destruct (has_key parameters "mirror"); discriminate.
  - intros user_data. unfold Acl.parse_params_for_add_ipv4_extended.
    destruct (getitem parameters "acl_name") as [acl_name |]; cbn [bind];
      [| discriminate].
    intros Hrun.
    change (Acl.ipv4_extended_fields E) with
      ((Acl.ipv4_extended_fields_before_priority E
        ++ removelast Acl.ipv4_extended_fields_from_priority)
       ++ [("mirror_str", IpAcl.parse_mirror)]) in Hrun.
    apply run_fields_last in Hrun as [v [Hv Hlook]].
    rewrite Heq in Hv. destruct (has_key parameters "mirror"); [| discriminate].
    injection Hv as <-. exact Hlook.
Qed.
End Builders.

Lemma priority_conflict_not_reached_by_build_witness :
  IpAcl.parse_priority Demo.both_priorities = Raise IpAcl.priority_conflict
  /\ IpAcl.parse_priority_force Demo.both_priorities
     = Raise IpAcl.priority_conflict
  /\ Acl.parse_params_for_add_ipv4_extended Demo.demo_env Demo.both_priorities
     = Raise (AttributeError "parse_seq_id").
Proof.
  destruct (priority_conflict_not_reached_by_build Demo.demo_env
              Demo.both_priorities)
    as (H1 & H2 & H3 & _).
  - vm_compute. reflexivity.
  - vm_compute. reflexivity.
  - split; [exact H1 | split; [exact H2 |]].
    rewrite H3. reflexivity.
Defined.

Lemma parse_mirror_never_renders_witness :
  IpAcl.parse_mirror Demo.mirrored = Ok None
  /\ (forall s, IpAcl.parse_mirror Demo.mirrored <> Ok (Some s))
  /\ (forall k msg, IpAcl.parse_mirror Demo.mirrored <> Raise (ValueError k msg)).
Proof.
  destruct (parse_mirror_never_renders Demo.demo_env Demo.mirrored)
    as (H1 & H2 & H3 & _).
  split; [| split; [exact H2 | exact H3]].
  rewrite H1. reflexivity.
Defined.

(** ** Post-processing of rendered commands *)

Lemma forallb_str_app (p : ascii -> bool) (s1 s2 : string) :
  Py.forallb_str p (s1 +:+ s2) = Py.forallb_str p s1 && Py.forallb_str p s2.
Proof.
  induction s1 as [| c s1 IH]; simpl.
  - reflexivity.
  - change (String.append s1 s2) with (s1 +:+ s2). rewrite IH.
    apply andb_assoc.
Qed.

Lemma forallb_str_filter (p : ascii -> bool) (s : string) :
  Py.forallb_str p (Py.filter_str p s) = true.
Proof.
  induction s as [| c s IH]; simpl; [reflexivity |].
  destruct (p c) eqn:Hc; simpl; [rewrite Hc |]; exact IH.
Qed.

(** The words of [s.split()] are made of bytes of [s]. *)
Lemma forallb_str_split (p : ascii -> bool) (s : string) :
  Py.forallb_str p s = true ->
  Forall (fun w => Py.forallb_str p w = true) (Py.split s).
Proof.
  induction s as [| c s IH]; intros Hs.
  - constructor.
  - cbn [Py.forallb_str] in Hs. apply andb_true_iff in Hs as [Hc Hs].
    specialize (IH Hs). cbn [Py.split].
    destruct (Py.isspace c); [exact IH |].
    destruct s as [| d s'].
    + constructor; [simpl; rewrite Hc; reflexivity | constructor].
    + destruct (Py.isspace d).
      * constructor; [simpl; rewrite Hc; reflexivity | exact IH].
      * destruct (Py.split (String d s')) as [| w ws].
        -- constructor; [simpl; rewrite Hc; reflexivity | constructor].
        -- inversion IH as [| ? ? Hw Hws]; subst.
           constructor; [simpl; rewrite Hc, Hw; reflexivity | exact Hws].
Qed.

Lemma forallb_str_join (p : ascii -> bool) (sep : string) (ws : list string) :
  Py.forallb_str p sep = true ->
  Forall (fun w => Py.forallb_str p w = true) ws ->
  Py.forallb_str p (Py.join sep ws) = true.
Proof.
  intros Hsep Hws. induction Hws as [| w ws Hw Hws IH]; [reflexivity |].
  cbn [Py.join]. destruct ws as [| w' ws']; [exact Hw |].
  rewrite !forallb_str_app, Hw, Hsep, IH. reflexivity.
Qed.

(** After the character filter and the whitespace normalisation, every
    byte is in [A-Za-z0-9 .-]. *)
Lemma strip_then_collapse_allowed (s : string) :
  Py.forallb_str Py.allowed_char (Py.collapse (Py.strip_disallowed s)) = true.
Proof.
  unfold Py.collapse, Py.strip_disallowed.
  apply forallb_str_join; [reflexivity |].
  apply forallb_str_split, forallb_str_filter.
Qed.

Lemma filter_str_app (p : ascii -> bool) (s1 s2 : string) :
  Py.filter_str p (s1 +:+ s2) = Py.filter_str p s1 +:+ Py.filter_str p s2.
Proof.
  induction s1 as [| c s1 IH]; simpl; [reflexivity |].
  change (String.append s1 s2) with (s1 +:+ s2). rewrite IH.
  destruct (p c); reflexivity.
Qed.

Lemma split_concat (s : string) :
  Py.concat_str_list (Py.split s) = Py.filter_str Py.not_space s.
Proof.
  induction s as [| c s IH]; [reflexivity |].
  cbn [Py.split Py.filter_str]. unfold Py.not_space at 1.
  destruct (Py.isspace c) eqn:Hc; cbn [negb]; [exact IH |].
  destruct s as [| d s']; [reflexivity |].
  destruct (Py.isspace d) eqn:Hd.
  - cbn [Py.concat_str_list fold_right]. fold (Py.concat_str_list (Py.split (String d s'))).
    rewrite IH. reflexivity.
  - destruct (Py.split (String d s')) as [| w ws]; rewrite <- IH; reflexivity.
Qed.

Lemma split_words_no_space (s : string) :
  Forall (fun w => Py.filter_str Py.not_space w = w) (Py.split s).
Proof.
  induction s as [| c s IH]; [constructor |].
  cbn [Py.split]. destruct (Py.isspace c) eqn:Hc; [exact IH |].
  assert (Hone : Py.filter_str Py.not_space (String c EmptyString) = String c EmptyString)
    by (simpl; unfold Py.not_space; rewrite Hc; reflexivity).
  destruct s as [| d s']; [constructor; [exact Hone | constructor] |].
  destruct (Py.isspace d).
  - constructor; [exact Hone | exact IH].
  - destruct (Py.split (String d s')) as [| w ws].
    + constructor; [exact Hone | constructor].
    + inversion IH as [| ? ? Hw Hws]; subst. constructor; [| exact Hws].
      simpl. unfold Py.not_space at 1. rewrite Hc. simpl. rewrite Hw. reflexivity.
Qed.

Lemma append_empty_r (s : string) : s +:+ EmptyString = s.
Proof.
  induction s as [| c s IH]; [reflexivity |].
  change (String c s +:+ EmptyString) with (String c (s +:+ EmptyString)).
  rewrite IH. reflexivity.
Qed.

Lemma join_space_nonspace (ws : list string) :
  Forall (fun w => Py.filter_str Py.not_space w = w) ws ->
  Py.filter_str Py.not_space (Py.join " " ws) = Py.concat_str_list ws.
Proof.
  induction 1 as [| w ws Hw Hws IH]; [reflexivity |].
  cbn [Py.join]. destruct ws as [| w' ws'].
  - cbn [Py.concat_str_list fold_right]. rewrite Hw. symmetry. apply append_empty_r.
  - rewrite !filter_str_app, Hw, IH. reflexivity.
Qed.

(** The whitespace normalisation removes and inserts whitespace only: the
    other bytes of the text are kept, in order. *)
Lemma collapse_keeps_nonspace (s : string) :
  Py.filter_str Py.not_space (Py.collapse s) = Py.filter_str Py.not_space s.
Proof.
  unfold Py.collapse. rewrite join_space_nonspace by apply split_words_no_space.
  apply split_concat.
Qed.







(** ** Runs of the orchestrator *)

Ltac listing_queries :=
  repeat match goal with
  | |- Forall _ [] => constructor
  | |- Forall _ (_ :: _) =>
      constructor;
      [ split; [reflexivity | first [left; reflexivity | right; reflexivity]] | ]
  end.

Section Runs.
Context {Dev : Type} (E : env Dev).


(** What a run of [get_acl_address_and_acl_type] leaves in the trace:
    only listing queries; when it returns, exactly the two of them, both
    answered, and the identity is read off their lines. *)
Lemma get_acl_run (acl_name : value) (w : world Dev) :
  exists delta,
    trace (Acl.get_acl_address_and_acl_type E acl_name w).2 = trace w ++ delta
    /\ Forall is_listing_query delta
    /\ (length delta <= 2)%nat
    /\ forall ident,
         (Acl.get_acl_address_and_acl_type E acl_name w).1 = Ok ident ->
         exists out1 out2 name,
           acl_name = VStr name
           /\ delta = [Event show_all CliGet (Ok out1);
                       Event show_ipv6 CliGet (Ok out2)]
           /\ ident = Acl.scan_listing name (listing_lines out1 out2)
           /\ nonempty (Acl.ret_protocol ident) = true.
Proof.
  unfold Acl.get_acl_address_and_acl_type, bindM, call.
  destruct (callback E (dev w) (Cmd "show access-list all") CliGet)
    as [[out1 | e1] d1] eqn:H1; cbn [fst snd dev trace].
  2:{ eexists. split; [reflexivity |]. split; [| split].
      - listing_queries.
      - cbn. lia.
      - intros ident [=]. }
  destruct (callback E d1 (Cmd "show ipv6 access-list") CliGet)
    as [[out2 | e2] d2] eqn:H2; cbn [fst snd dev trace].
  2:{ exists [Event show_all CliGet (Ok out1); Event show_ipv6 CliGet (Raise e2)].
      split; [rewrite <- app_assoc; reflexivity |]. split; [| split].
      - listing_queries.
      - cbn. lia.
      - intros ident [=]. }
  exists [Event show_all CliGet (Ok out1); Event show_ipv6 CliGet (Ok out2)].
  split; [| split; [| split]].
  - destruct acl_name as [| | | name |]; try (cbn; rewrite <- app_assoc; reflexivity).
    destruct (nonempty _); cbn; rewrite <- app_assoc; reflexivity.
  - listing_queries.
  - cbn. lia.
  - intros ident Hok.
    destruct acl_name as [| | | name |]; cbn in Hok; try discriminate Hok.
    destruct (nonempty _) eqn:Hne in Hok; cbn in Hok; [| discriminate Hok].
    injection Hok as <-. exists out1, out2, name. repeat split. exact Hne.
Qed.

(** The same run when the device answers both queries. *)
Lemma get_acl_answers (acl_name : value) (w : world Dev)
    (out1 out2 : string) (d1 d2 : Dev) :
  callback E (dev w) show_all CliGet = (Ok out1, d1) ->
  callback E d1 show_ipv6 CliGet = (Ok out2, d2) ->
  Acl.get_acl_address_and_acl_type E acl_name w =
  (match acl_name with
   | VStr name =>
       let ret := Acl.scan_listing name (listing_lines out1 out2) in
       if nonempty (Acl.ret_protocol ret) then Ok ret
       else Raise Acl.acl_not_found
   | _ => Raise (TypeError "'in <string>' requires string as left operand")
   end,
   World d2 (trace w ++ [Event show_all CliGet (Ok out1);
                         Event show_ipv6 CliGet (Ok out2)])).
Proof.
  intros H1 H2. unfold show_all, show_ipv6 in *.
  unfold Acl.get_acl_address_and_acl_type, bindM, call.
  rewrite H1. cbn [dev trace]. rewrite H2. rewrite <- app_assoc. cbn [app].
  destruct acl_name as [| | | name |]; try reflexivity.
  unfold listing_lines. cbv zeta. destruct (nonempty _); reflexivity.
Qed.



Lemma find_none_iff (name : string) (res : list string) :
  List.find (Py.contains name) res = None
  <-> forall line, In line res -> Py.contains name line = false.
Proof.
  split.
  - intros Hnone line Hin. exact (find_none _ _ Hnone line Hin).
  - intros Hno. induction res as [| line res IH]; [reflexivity |].
    cbn [List.find]. rewrite (Hno line) by (left; reflexivity).
    apply IH. intros l Hl. apply Hno. right. exact Hl.
Qed.







End Runs.

Lemma seq_id_listed_spec (seq_id : value) (lines : list string) :
  Acl.seq_id_listed seq_id lines =
  existsb (fun line => match Acl.leading_seq_id line with
                       | Some n => eq_int seq_id n
                       | None => false
                       end) lines.
Proof.
  induction lines as [| line lines IH]; [reflexivity |].
  cbn [Acl.seq_id_listed existsb]. unfold Acl.leading_seq_id.
  destruct (negb (nonempty line)); [exact IH |].
  destruct (negb (Py.isdigit _)); [exact IH |].
  destruct (eq_int seq_id _); [reflexivity | exact IH].
Qed.

(** No line of the listing starts with the sequence number. *)
Lemma seq_id_not_listed (seq_id : value) (lines : list string) :
  (forall line n, In line lines -> Acl.leading_seq_id line = Some n ->
                  eq_int seq_id n = false) ->
  Acl.seq_id_listed seq_id lines = false.
Proof.
  intros Hno. rewrite seq_id_listed_spec.
  apply not_true_is_false. intros Hex. apply existsb_exists in Hex.
  destruct Hex as (line & Hin & Hline).
  destruct (Acl.leading_seq_id line) as [n |] eqn:Hlead; [| discriminate].
  rewrite (Hno line n Hin Hlead) in Hline. discriminate.
Qed.

Section SeqId.
Context {Dev : Type} (E : env Dev).

Lemma get_address_type_run (acl_name : value) (w : world Dev) :
  Acl.get_address_type E acl_name w =
  (match (Acl.get_acl_address_and_acl_type E acl_name w).1 with
   | Ok ret => Ok (Acl.ret_protocol ret)
   | Raise e => Raise e
   end, (Acl.get_acl_address_and_acl_type E acl_name w).2).
Proof.
  unfold Acl.get_address_type, bindM.
  destruct (Acl.get_acl_address_and_acl_type E acl_name w) as [[ret | e] w1];
    reflexivity.
Qed.

Lemma get_acl_type_run (acl_name : value) (w : world Dev) :
  Acl.get_acl_type E acl_name w =
  (match (Acl.get_acl_address_and_acl_type E acl_name w).1 with
   | Ok ret => Ok (Acl.ret_type ret)
   | Raise e => Raise e
   end, (Acl.get_acl_address_and_acl_type E acl_name w).2).
Proof.
  unfold Acl.get_acl_type, bindM.
  destruct (Acl.get_acl_address_and_acl_type E acl_name w) as [[ret | e] w1];
    reflexivity.
Qed.

(** A run of [is_valid_seq_id] sends read-only commands only: the two
    listing queries, then the rule listing.  It returns only when the
    rule listing shows the sequence number, and when the rule listing is
    answered and accepted without showing it, the run fails with
    SequenceNotFound. *)
Lemma is_valid_seq_id_run (seq_id acl_name : value) (w w' : world Dev)
    (r : result bool) :
  Acl.is_valid_seq_id E seq_id acl_name w = (r, w') ->
  exists delta,
    trace w' = trace w ++ delta
    /\ Forall is_get delta
    /\ (length delta <= 3)%nat
    /\ (forall b, r = Ok b ->
        exists e1 e2 cfg out,
          delta = [e1; e2; Event (Cmd cfg) CliGet (Ok out)]
          /\ Acl.seq_id_listed seq_id (Py.split_on newline out) = true)
    /\ (forall e1 e2 cfg out rest,
        delta = e1 :: e2 :: Event (Cmd cfg) CliGet (Ok out) :: rest ->
        is_ok (process_cli_output E "is_valid_seq_id" cfg out) = true ->
        Acl.seq_id_listed seq_id (Py.split_on newline out) = false ->
        r = Raise Acl.seq_not_found).
Proof.
  intros Hrun. unfold Acl.is_valid_seq_id in Hrun.
  destruct (negb (truthy acl_name)).
  { injection Hrun as <- <-. exists []. rewrite app_nil_r.
    repeat split; cbn; try constructor; try lia; intros; discriminate. }
  destruct (negb (truthy seq_id)).
  { injection Hrun as <- <-. exists []. rewrite app_nil_r.
    repeat split; cbn; try constructor; try lia; intros; discriminate. }
  unfold bindM in Hrun. rewrite get_address_type_run in Hrun.
  destruct (get_acl_run E acl_name w) as (delta1 & Htr & Hq & Hlen & Hident).
  destruct (Acl.get_acl_address_and_acl_type E acl_name w) as [[ident | e1] w1]
    eqn:Hget; cbn [fst snd] in *.
  2:{ injection Hrun as <- <-. exists delta1. split; [exact Htr |].
      split; [| split; [lia | split]].
      - eapply Forall_impl; [exact Hq |]. intros ev [Hh _]. exact Hh.
      - intros b [=].
      - intros x1 x2 cfg out rest ->. cbn in Hlen. lia. }
  destruct (Hident ident eq_refl) as (out1 & out2 & name & -> & -> & -> & Hne).
  unfold lift, call in Hrun.
  match type of Hrun with
  | context [match ?c with Ok _ => _ | Raise _ => _ end] =>
      destruct c as [cmd | e2] eqn:Hcmd
  end.
  2:{ injection Hrun as <- <-. eexists. split; [exact Htr |].
      split; [| split; [cbn; lia | split]].
      - repeat constructor.
      - intros b [=].
      - intros x1 x2 cfg out rest [=]. }
  destruct (callback E (dev w1) _ CliGet) as [[output | e3] d3] eqn:Hcb.
  2:{ injection Hrun as <- <-. eexists. split;
        [cbn [trace]; rewrite Htr, <- app_assoc; reflexivity |].
      split; [| split; [cbn; lia | split]].
      - repeat constructor.
      - intros b [=].
      - intros x1 x2 cfg out rest [=]. }
  destruct (process_cli_output E "is_valid_seq_id" _ output) as [msg | e4] eqn:Hp.
  2:{ injection Hrun as <- <-. eexists. split;
        [cbn [trace]; rewrite Htr, <- app_assoc; reflexivity |].
      split; [| split; [cbn; lia | split]].
      - repeat constructor.
      - intros b [=].
      - intros x1 x2 cfg out rest [= <- <- <- <- <-] Hok. rewrite Hp in Hok.
        discriminate Hok. }
  destruct (Acl.seq_id_listed seq_id (Py.split_on newline output)) eqn:Hl;
    injection Hrun as <- <-; (eexists; split;
        [cbn [trace]; rewrite Htr, <- app_assoc; reflexivity |];
      split; [| split; [cbn; lia | split]]).
  - repeat constructor.
  - intros b _. eauto 10.
  - intros x1 x2 cfg out rest [= <- <- <- <- <-] _ Hno. congruence.
  - repeat constructor.
  - intros b [=].
  - intros; reflexivity.
Qed.
End SeqId.

Section DeleteRule.
Context {Dev : Type} (E : env Dev).


End DeleteRule.

Lemma classify_line_protocol (line : string) :
  In (Acl.ret_protocol (Acl.classify_line line)) ["mac"; "ip"; "ipv6"; ""].
Proof.
  unfold Acl.classify_line.
  destruct (String.eqb (Py.slice_to 4 line) "mac "); [cbn; auto |].
  destruct (String.eqb (Py.slice_to 3 line) "ip ").
  { destruct (Py.contains "extended" line); cbn; auto. }
  destruct (String.eqb (Py.slice_to 5 line) "ipv6 "); cbn; auto.
Qed.

(** The listings give one of the three protocols, or none. *)
Lemma scan_listing_protocol (name : string) (res : list string) :
  In (Acl.ret_protocol (Acl.scan_listing name res)) ["mac"; "ip"; "ipv6"; ""].
Proof.
  induction res as [| line res IH]; [cbn; auto |].
  cbn [Acl.scan_listing]. destruct (Py.contains name line);
    [apply classify_line_protocol | exact IH].
Qed.

Section ApplyAcl.
Context {Dev : Type} (E : env Dev).

Lemma apply_acl_port_channel_run (parameters : bag) (w w' : world Dev)
    (r : result string) :
  parameters !! "intf_type" = Some (VStr "port_channel") ->
  Acl.apply_acl E parameters w = (r, w') ->
  (exists e, r = Raise e)
  /\ exists delta,
       trace w' = trace w ++ delta
       /\ Forall is_listing_query delta
       /\ (forall name out1 out2,
           parameters !! "acl_name" = Some (VStr name) ->
           delta = [Event show_all CliGet (Ok out1);
                    Event show_ipv6 CliGet (Ok out2)] ->
           nonempty (Acl.ret_protocol
                       (Acl.scan_listing name (listing_lines out1 out2))) = true ->
           exists msg, r = Raise (ValueError UnsupportedInterfaceType msg)).
Proof.
  intros Hintf Hrun. unfold Acl.apply_acl, bindM, lift, getitem in Hrun.
  rewrite Hintf in Hrun.
  destruct (validate_params_mlx_apply_acl (vals E) parameters) as [[] | e0].
  2:{ injection Hrun as <- <-. split; [eauto |]. exists []. rewrite app_nil_r.
      split; [reflexivity | split; [constructor | intros; discriminate]]. }
  destruct (parameters !! "acl_name") as [acl_name |] eqn:Hname.
  2:{ injection Hrun as <- <-. split; [eauto |]. exists []. rewrite app_nil_r.
      split; [reflexivity | split; [constructor | intros; discriminate]]. }
  destruct (negb (truthy _)).
  { injection Hrun as <- <-. split; [eauto |]. exists []. rewrite app_nil_r.
    split; [reflexivity | split; [constructor | intros; discriminate]]. }
  rewrite get_address_type_run in Hrun.
  destruct (get_acl_run E acl_name w) as (delta1 & Htr & Hq & Hlen & Hident).
  destruct (Acl.get_acl_address_and_acl_type E acl_name w) as [[ident | e1] w1]
    eqn:Hget; cbn [fst snd] in *.
  2:{ injection Hrun as <- <-. split; [eauto |]. exists delta1.
      split; [exact Htr | split; [exact Hq |]].
      intros name out1 out2 [= ->] -> Hne.
      pose proof (get_acl_run E (VStr name) w) as (d & Htr' & _ & _ & _).
      rewrite Hget in Htr'. cbn [snd] in Htr'. rewrite Htr in Htr'.
      apply app_inv_head in Htr'. subst d. clear Hident.
      exfalso. revert Hget Hne. unfold Acl.get_acl_address_and_acl_type, bindM, call.
      destruct (callback E (dev w) (Cmd "show access-list all") CliGet)
        as [[o1 | x1] d1]; cbn [trace dev].
      2:{ intros [= _ Hw]. rewrite <- Hw in Htr. cbn [trace] in Htr.
          apply app_inv_head in Htr. discriminate Htr. }
      destruct (callback E d1 (Cmd "show ipv6 access-list") CliGet)
        as [[o2 | x2] d2]; cbn [trace dev].
      2:{ intros [= _ Hw]. rewrite <- Hw in Htr. cbn [trace] in Htr.
          rewrite <- app_assoc in Htr.
          apply app_inv_head in Htr. discriminate Htr. }
      destruct (nonempty _) eqn:Hne'; [intros [=] |].
      intros [= _ Hw]. rewrite <- Hw in Htr. cbn [trace] in Htr.
      rewrite <- app_assoc in Htr. apply app_inv_head in Htr.
      injection Htr as <- <-. unfold listing_lines. congruence. }
  destruct (Hident ident eq_refl) as (out1 & out2 & name & -> & -> & -> & Hne).
  cbn [Acl.eq_str] in Hrun.
  change (String.eqb "port_channel" "ethernet") with false in Hrun.
  change (String.eqb "port_channel" "port_channel") with true in Hrun.
  cbn [negb] in Hrun. rewrite andb_true_r in Hrun.
  assert (Hmem : mem (Acl.ret_protocol (Acl.scan_listing name (listing_lines out1 out2)))
                   ["mac"; "ip"; "ipv6"] = true).
  { pose proof (scan_listing_protocol name (listing_lines out1 out2)) as Hin.
    apply mem_true_iff.
    destruct Hin as [H | [H | [H | [H | []]]]]; rewrite <- H in *; cbn; auto.
    discriminate Hne. }
  rewrite Hmem in Hrun. cbn [negb] in Hrun.
  destruct (String.eqb _ "mac"); injection Hrun as <- <-;
    (split; [eauto |]; eexists; split; [exact Htr | split; [listing_queries |]];
     intros; eexists; reflexivity).
Qed.

(** C8, amended: with [intf_type] equal to 'port_channel', [apply_acl]
    always fails and sends nothing but listing queries, so no interface
    probe and no bind command; when the two listing queries are answered
    and give a protocol for the ACL name, the failure is
    UnsupportedInterfaceType. *)
Theorem apply_acl_port_channel (parameters : bag) (w : world Dev) :
  parameters !! "intf_type" = Some (VStr "port_channel") ->
  (exists e, (Acl.apply_acl E parameters w).1 = Raise e)
  /\ exists delta,
       trace (Acl.apply_acl E parameters w).2 = trace w ++ delta
       /\ Forall is_listing_query delta
       /\ (forall name out1 out2,
           parameters !! "acl_name" = Some (VStr name) ->
           delta = [Event show_all CliGet (Ok out1);
                    Event show_ipv6 CliGet (Ok out2)] ->
           nonempty (Acl.ret_protocol
                       (Acl.scan_listing name (listing_lines out1 out2))) = true ->
           exists msg, (Acl.apply_acl E parameters w).1
                       = Raise (ValueError UnsupportedInterfaceType msg)).
Proof.
  intros Hintf.
  destruct (Acl.apply_acl E parameters w) as [r w'] eqn:Hrun.
  exact (apply_acl_port_channel_run parameters w w' r Hintf Hrun).
Qed.
End ApplyAcl.

Section AddRule.
Context {Dev : Type} (E : env Dev).




End AddRule.

(** ** The orchestrator on a concrete switch *)






(** C8, the claim as stated fails for an access list that the device does
    not list: the interface type is 'port_channel', the interface list is
    not empty, and the call fails with AclNotFound. *)
Lemma apply_acl_port_channel_unknown_acl :
  Demo.port_channel_unknown_acl !! "intf_type" = Some (VStr "port_channel")
  /\ Demo.port_channel_unknown_acl !! "intf_name" = Some (VList ["1/1"; "1/2"])
  /\ (Acl.apply_acl Demo.demo_env Demo.port_channel_unknown_acl Demo.world0).1
     = Raise Acl.acl_not_found.
Proof. repeat split; vm_compute; reflexivity. Qed.

Lemma apply_acl_port_channel_witness :
  (exists msg,
     (Acl.apply_acl Demo.demo_env Demo.port_channel_known_acl Demo.world0).1
     = Raise (ValueError UnsupportedInterfaceType msg))
  /\ Forall is_listing_query
       (trace (Acl.apply_acl Demo.demo_env Demo.port_channel_known_acl
                 Demo.world0).2).
Proof.
  destruct (apply_acl_port_channel Demo.demo_env Demo.port_channel_known_acl
              Demo.world0)
    as (_ & delta & Htr & Hq & Hkind).
  - vm_compute. reflexivity.
  - split.
    + vm_compute in Htr. subst delta.
      eapply (Hkind "Acl_1").
      * vm_compute. reflexivity.
      * reflexivity.
      * vm_compute. reflexivity.
    + rewrite Htr. cbn [Demo.world0 trace app]. exact Hq.
Defined.

(** * Further properties *)

(** ** Whitespace normalisation *)

Lemma split_words_shape (s : string) :
  Forall (fun w => Py.forallb_str Py.not_space w = true /\ w <> EmptyString)
         (Py.split s).
Proof.
  induction s as [| c s IH]; [constructor |].
  cbn [Py.split]. destruct (Py.isspace c) eqn:Hc; [exact IH |].
  assert (Hone : Py.forallb_str Py.not_space (String c EmptyString) = true
                 /\ String c EmptyString <> EmptyString).
  { split; [| discriminate]. cbn. unfold Py.not_space. rewrite Hc. reflexivity. }
  destruct s as [| d s']; [constructor; [exact Hone | constructor] |].
  destruct (Py.isspace d).
  - constructor; [exact Hone | exact IH].
  - destruct (Py.split (String d s')) as [| w ws].
    + constructor; [exact Hone | constructor].
    + inversion IH as [| ? ? [Hw _] Hws]; subst. constructor; [| exact Hws].
      split; [| discriminate]. cbn. unfold Py.not_space at 1. rewrite Hc, Hw.
      reflexivity.
Qed.

Lemma split_word_then_space (w rest : string) :
  Py.forallb_str Py.not_space w = true -> w <> EmptyString ->
  Py.split (w +:+ String " " rest) = w :: Py.split rest.
Proof.
  induction w as [| c w IH]; intros Hw Hne; [congruence |].
  cbn [Py.forallb_str] in Hw. apply andb_true_iff in Hw as [Hc Hw].
  unfold Py.not_space in Hc. apply negb_true_iff in Hc.
  change (String c w +:+ String " " rest) with (String c (w +:+ String " " rest)).
  cbn [Py.split]. rewrite Hc.
  destruct w as [| d w'].
  - reflexivity.
  - change (String d w' +:+ String " " rest)
      with (String d (w' +:+ String " " rest)).
    cbn [Py.forallb_str] in Hw. pose proof Hw as Hw'.
    apply andb_true_iff in Hw' as [Hd _].
    unfold Py.not_space in Hd. apply negb_true_iff in Hd. rewrite Hd.
    change (String d (w' +:+ String " " rest))
      with (String d w' +:+ String " " rest).
    rewrite IH by (assumption || discriminate). reflexivity.
Qed.

Lemma split_one_word (w : string) :
  Py.forallb_str Py.not_space w = true -> w <> EmptyString ->
  Py.split w = [w].
Proof.
  induction w as [| c w IH]; intros Hw Hne; [congruence |].
  cbn [Py.forallb_str] in Hw. apply andb_true_iff in Hw as [Hc Hw].
  unfold Py.not_space in Hc. apply negb_true_iff in Hc.
  cbn [Py.split]. rewrite Hc.
  destruct w as [| d w']; [reflexivity |].
  pose proof Hw as Hw'. cbn [Py.forallb_str] in Hw'.
  apply andb_true_iff in Hw' as [Hd _].
  unfold Py.not_space in Hd. apply negb_true_iff in Hd. rewrite Hd.
  rewrite IH by (assumption || discriminate). reflexivity.
Qed.

Lemma split_join_words (ws : list string) :
  Forall (fun w => Py.forallb_str Py.not_space w = true /\ w <> EmptyString) ws ->
  Py.split (Py.join " " ws) = ws.
Proof.
  induction 1 as [| w ws [Hw Hne] Hws IH]; [reflexivity |].
  cbn [Py.join]. destruct ws as [| w' ws'].
  - apply split_one_word; assumption.
  - change (w +:+ " " +:+ Py.join " " (w' :: ws'))
      with (w +:+ String " " (Py.join " " (w' :: ws'))).
    rewrite split_word_then_space by assumption. rewrite IH. reflexivity.
Qed.

(** X1: [' '.join(s.split())] is a normal form: normalising twice is
    normalising once, the words of the normalised text are the words of
    the text, and its non-whitespace bytes are those of the text in the
    same order. *)
Theorem collapse_normal_form (s : string) :
  Py.collapse (Py.collapse s) = Py.collapse s
  /\ Py.split (Py.collapse s) = Py.split s
  /\ Py.filter_str Py.not_space (Py.collapse s) = Py.filter_str Py.not_space s.
Proof.
  assert (Hsplit : Py.split (Py.collapse s) = Py.split s)
    by (unfold Py.collapse; apply split_join_words, split_words_shape).
  split; [| split].
  - unfold Py.collapse at 1. rewrite Hsplit. reflexivity.
  - exact Hsplit.
  - apply collapse_keeps_nonspace.
Qed.

(** ** More on the field parsers *)

(** X2: [parse_protocol] returns a value exactly when the bag holds one of
    the protocol keywords, and then returns that keyword: no other string,
    and in particular no number, is ever returned. *)
Theorem parse_protocol_keywords_only (parameters : bag) (s : string) :
  IpAcl.parse_protocol parameters = Ok (Some s)
  <-> parameters !! "protocol_type" = Some (VStr s)
      /\ mem s IpAcl.protocol_keywords = true.
Proof.
  unfold IpAcl.parse_protocol. split.
  - destruct (parameters !! "protocol_type") as [v |]; [| discriminate].
    destruct (negb (truthy v)); [discriminate |].
    destruct v as [| | | t |]; try discriminate. cbn [str_method bind].
    destruct (Py.isdigit t).
    + destruct ((Py.int t <? 0) || (255 <? Py.int t)); [discriminate |].
      cbn [bind]. destruct (mem t IpAcl.protocol_keywords) eqn:Hmem;
        [| discriminate]. cbn [negb]. intros [= ->]. auto.
    + cbn [bind]. destruct (mem t IpAcl.protocol_keywords) eqn:Hmem;
        [| discriminate]. cbn [negb]. intros [= ->]. auto.
  - intros [-> Hmem].
    assert (Hne : negb (truthy (VStr s)) = false).
    { destruct s; [vm_compute in Hmem; discriminate | reflexivity]. }
    rewrite Hne. cbn [str_method bind].
    rewrite (protocol_keywords_not_digits s Hmem). cbn [bind].
    rewrite Hmem. reflexivity.
Qed.

Lemma collapse_nonempty (s : string) :
  Py.collapse s <> EmptyString -> nonempty s = true.
Proof. destruct s; [intros H; exfalso; apply H; reflexivity | reflexivity]. Qed.

(** X3: of the eight precedence names of the docstring, [parse_precedence]
    accepts six and rejects 'critical' and 'flash', which the list literal
    of the source runs together. *)
Theorem parse_precedence_names (parameters : bag) (s : string) :
  parameters !! "precedence" = Some (VStr s) ->
  (In (Py.collapse s)
      ["flash-override"; "immediate"; "internet"; "network"; "priority"; "routine"] ->
   IpAcl.parse_precedence parameters = Ok (Some ("precedence " +:+ Py.collapse s)))
  /\ (In (Py.collapse s) ["critical"; "flash"] ->
      IpAcl.parse_precedence parameters = Raise precedence_invalid).
Proof.
  intros Hget. unfold IpAcl.parse_precedence, is_set, getitem. rewrite Hget.
  cbn [truthy]. fold (nonempty s). split; intros Hin.
  - assert (Hne : nonempty s = true).
    { apply collapse_nonempty. intros Heq. rewrite Heq in Hin. cbn in Hin.
      intuition discriminate. }
    rewrite Hne. cbn [negb bind str_method].
    cbn in Hin. destruct Hin as [H | [H | [H | [H | [H | [H | []]]]]]];
      rewrite <- H; reflexivity.
  - assert (Hne : nonempty s = true).
    { apply collapse_nonempty. intros Heq. rewrite Heq in Hin. cbn in Hin.
      intuition discriminate. }
    rewrite Hne. cbn [negb bind str_method].
    cbn in Hin. destruct Hin as [H | [H | []]]; rewrite <- H; reflexivity.
Qed.

(** X4: for an integer [tos], 0 is taken for an absent field and gives
    [None]; 1 to 15 give the fragment; every other integer is invalid. *)
Theorem parse_tos_integer (parameters : bag) (z : Z) :
  parameters !! "tos" = Some (VInt z) ->
  (z = 0 -> IpAcl.parse_tos parameters = Ok None)
  /\ (1 <= z <= 15 ->
      IpAcl.parse_tos parameters = Ok (Some ("tos " +:+ Py.str_int z)))
  /\ (z < 0 \/ 15 < z -> IpAcl.parse_tos parameters = Raise tos_invalid).
Proof.
  intros Hget. unfold IpAcl.parse_tos, is_set, getitem. rewrite Hget.
  unfold truthy, ge_int, le_int, gt_int, lt_int, cmp_int, py_str.
  repeat split.
  - intros ->. reflexivity.
  - intros Hin. destruct (Z.eqb_spec z 0) as [| _]; [lia |]. cbn [negb bind].
    destruct (Z.compare_spec z 0), (Z.compare_spec z 15); cbn;
      try reflexivity; lia.
  - intros Hout. destruct (Z.eqb_spec z 0) as [| _]; [lia |]. cbn [negb bind].
    destruct (Z.compare_spec z 0), (Z.compare_spec z 15); cbn;
      try reflexivity; lia.
Qed.

(** X5: a value that is truthy but not a string, given for a field whose
    parser normalises text, makes the parser raise [AttributeError]
    instead of a validation error. *)
Theorem text_fields_reject_non_strings (parameters : bag) (v : value) :
  truthy v = true -> (forall s, v <> VStr s) ->
  (parameters !! "dscp" = Some v ->
   IpAcl.parse_dscp_mapping parameters = Raise (AttributeError "split"))
  /\ (parameters !! "dscp_marking" = Some v ->
      IpAcl.parse_dscp_marking parameters = Raise (AttributeError "split"))
  /\ (parameters !! "fragment" = Some v ->
      IpAcl.parse_fragment parameters = Raise (AttributeError "split"))
  /\ (parameters !! "precedence" = Some v ->
      IpAcl.parse_precedence parameters = Raise (AttributeError "split"))
  /\ (parameters !! "protocol_type" = Some v ->
      IpAcl.parse_protocol parameters = Raise (AttributeError "isdigit")).
Proof.
  intros Htrue Hnot.
  assert (Hm : forall attr, str_method attr v = Raise (AttributeError attr)).
  { intros attr. destruct v; try reflexivity. destruct (Hnot s eq_refl). }
  repeat split; intros Hget.
  - unfold IpAcl.parse_dscp_mapping, IpAcl.digits_upto, is_set, getitem.
    rewrite Hget, Htrue. cbn [negb bind]. rewrite Hm. reflexivity.
  - unfold IpAcl.parse_dscp_marking, IpAcl.digits_upto, is_set, getitem.
    rewrite Hget, Htrue. cbn [negb bind]. rewrite Hm. reflexivity.
  - unfold IpAcl.parse_fragment, is_set, getitem.
    rewrite Hget, Htrue. cbn [negb bind]. rewrite Hm. reflexivity.
  - unfold IpAcl.parse_precedence, is_set, getitem.
    rewrite Hget, Htrue. cbn [negb bind]. rewrite Hm. reflexivity.
  - unfold IpAcl.parse_protocol. rewrite Hget, Htrue. cbn [negb].
    rewrite Hm. reflexivity.
Qed.

(** X6: a bag with 'drop_precedence' and 'drop_precedence_force' both
    truthy makes each of the two parsers fail with the conflict error,
    whatever the two values are. *)
Theorem drop_precedence_conflict_first (parameters : bag) :
  is_set parameters "drop_precedence" = true ->
  is_set parameters "drop_precedence_force" = true ->
  IpAcl.parse_drop_precedence parameters = Raise IpAcl.drop_precedence_conflict
  /\ IpAcl.parse_drop_precedence_force parameters
     = Raise IpAcl.drop_precedence_conflict.
Proof.
  intros H1 H2.
  unfold IpAcl.parse_drop_precedence, IpAcl.parse_drop_precedence_force.
  rewrite H1, H2. split; reflexivity.
Qed.

(** X7: for a non-empty string, [parse_dscp_mapping] succeeds exactly when
    the normalised text is a digit string of value at most 63, and then
    returns the keyword followed by that text as written (leading zeros
    kept); otherwise it fails with InvalidValue. *)
Theorem parse_dscp_mapping_range (parameters : bag) (s : string) :
  parameters !! "dscp" = Some (VStr s) -> nonempty s = true ->
  (Py.isdigit (Py.collapse s) = true /\ Py.int (Py.collapse s) <= 63 ->
   IpAcl.parse_dscp_mapping parameters
   = Ok (Some ("dscp-mapping " +:+ Py.collapse s)))
  /\ (~ (Py.isdigit (Py.collapse s) = true /\ Py.int (Py.collapse s) <= 63) ->
      IpAcl.parse_dscp_mapping parameters = Raise dscp_mapping_invalid).
Proof.
  intros Hget Hne.
  unfold IpAcl.parse_dscp_mapping, IpAcl.digits_upto, is_set, getitem.
  rewrite Hget. cbn [truthy]. fold (nonempty s). rewrite Hne.
  cbn [negb bind str_method].
  assert (Hnonneg : forall t acc, 0 <= acc -> Py.isdigit t = true ->
                                  0 <= Py.int_acc acc t).
  { clear. unfold Py.isdigit. intros t. induction t as [| c t IH]; intros acc Hacc Hd.
    - discriminate.
    - cbn [Py.forallb_str] in Hd. apply andb_true_iff in Hd as [Hc Ht].
      cbn [Py.int_acc]. unfold Py.isdigit_char in Hc.
      apply andb_true_iff in Hc as [Hlo Hhi]. apply N.leb_le in Hlo.
      destruct t as [| d t'].
      + cbn. lia.
      + apply IH; [lia | exact Ht]. }
  split.
  - intros [Hd Hle]. rewrite Hd.
    assert (H0 : 0 <= Py.int (Py.collapse s)) by (apply Hnonneg; [lia | exact Hd]).
    destruct (Z.leb_spec 0 (Py.int (Py.collapse s))); [| lia].
    destruct (Z.leb_spec (Py.int (Py.collapse s)) 63); [| lia]. reflexivity.
  - intros Hnot. destruct (Py.isdigit (Py.collapse s)) eqn:Hd; [| reflexivity].
    destruct (Z.leb_spec (Py.int (Py.collapse s)) 63); [tauto |].
    rewrite andb_false_r. reflexivity.
Qed.

(** ** Operators and addresses *)

Lemma find_from_hit (sub s : string) (i r : Z) :
  0 <= i -> Py.find_from i sub s = r -> 0 <= r ->
  i <= r /\ String.prefix sub (Py.slice_from (Z.to_nat (r - i)) s) = true.
Proof.
  revert i. induction s as [| c s IH]; intros i Hi Hfind Hr.
  - cbn [Py.find_from] in Hfind.
    destruct (String.prefix sub EmptyString) eqn:Hp; [| lia].
    subst r. rewrite Z.sub_diag. cbn. split; [lia | exact Hp].
  - cbn [Py.find_from] in Hfind.
    destruct (String.prefix sub (String c s)) eqn:Hp.
    + subst r. rewrite Z.sub_diag. cbn. split; [lia | exact Hp].
    + destruct (IH (i + 1) ltac:(lia) Hfind Hr) as [Hle Hpre].
      split; [lia |].
      replace (Z.to_nat (r - i)) with (S (Z.to_nat (r - (i + 1)))) by lia.
      cbn [Py.slice_from]. exact Hpre.
Qed.

Lemma prefix_nonempty (sub s : string) :
  sub <> EmptyString -> String.prefix sub s = true -> nonempty s = true.
Proof.
  intros Hsub Hp. destruct s; [| reflexivity].
  destruct sub; [congruence | discriminate Hp].
Qed.

Lemma tcp_udp_ops_nonempty (op : string) :
  In op IpAcl.tcp_udp_ops -> op <> EmptyString.
Proof.
  intros Hin. cbn in Hin.
  destruct Hin as [<- | [<- | [<- | [<- | [<- | []]]]]]; discriminate.
Qed.

(** When some operator keyword occurs in the text, the loop of
    [_parse_source_destination] stops at one, and the operator part it
    cuts off is not empty. *)
Lemma first_op_index_found (ops : list string) (input op : string) :
  (forall o, In o ops -> o <> EmptyString) ->
  In op ops -> Py.contains op input = true ->
  exists i, IpAcl.first_op_index ops input = Some i
            /\ 0 <= i
            /\ nonempty (Py.slice_from (Z.to_nat i) input) = true.
Proof.
  intros Hne Hin Hc. induction ops as [| o ops IH]; [destruct Hin |].
  cbn [IpAcl.first_op_index].
  destruct (Z.leb_spec 0 (Py.find input o)) as [Hhit | Hmiss].
  - exists (Py.find input o). split; [reflexivity | split; [exact Hhit |]].
    destruct (find_from_hit o input 0 (Py.find input o) ltac:(lia) eq_refl Hhit)
      as [_ Hp].
    rewrite Z.sub_0_r in Hp.
    eapply prefix_nonempty; [| exact Hp]. apply Hne. left. reflexivity.
  - destruct Hin as [-> | Hin].
    + unfold Py.contains in Hc. apply Z.leb_le in Hc. lia.
    + apply IH; [| exact Hin]. intros o' Ho'. apply Hne. right. exact Ho'.
Qed.

(** X8: when the protocol is neither 'tcp' nor 'udp', every address text
    in which one of the operator keywords [range], [neq], [lt], [gt], [eq]
    occurs anywhere, also inside a host name, is rejected. *)
Theorem operator_keyword_needs_tcp_udp (inet_aton : string -> bool)
    (protocol_type : value) (input op : string) :
  in_strs protocol_type ["tcp"; "udp"] = false ->
  In op IpAcl.tcp_udp_ops -> Py.contains op input = true ->
  IpAcl._parse_source_destination inet_aton protocol_type input
  = Raise operator_needs_tcp_udp.
Proof.
  intros Hpt Hin Hc.
  destruct (first_op_index_found IpAcl.tcp_udp_ops input op
              tcp_udp_ops_nonempty Hin Hc) as (i & Hi & _ & Hne).
  unfold IpAcl._parse_source_destination. rewrite Hi, Hpt, Hne. reflexivity.
Qed.

Lemma operator_keyword_needs_tcp_udp_witness :
  IpAcl._parse_source_destination Demo.c_inet_aton (VStr "ip") "host gtw1"
  = Raise operator_needs_tcp_udp.
Proof.
  apply (operator_keyword_needs_tcp_udp Demo.c_inet_aton (VStr "ip")
           "host gtw1" "gt").
  - reflexivity.
  - cbn. auto.
  - vm_compute. reflexivity.
Defined.

(** X9: with 'option' set and the protocol 'tcp' or 'udp', a source in
    which an operator keyword occurs makes [parse_option] fail with the
    conflict error, whatever the option is. *)
Theorem parse_option_source_conflict (parameters : bag) (pt s op : string) :
  is_set parameters "option" = true ->
  parameters !! "protocol_type" = Some (VStr pt) ->
  In pt ["tcp"; "udp"] ->
  parameters !! "source" = Some (VStr s) -> nonempty s = true ->
  In op IpAcl.tcp_udp_ops -> Py.contains op (Py.collapse s) = true ->
  IpAcl.parse_option parameters = Raise IpAcl.option_conflict.
Proof.
  intros Hopt Hpt Hin Hsrc Hne Hop Hc.
  unfold IpAcl.parse_option, is_set, getitem in *. rewrite Hopt, Hpt, Hsrc.
  cbn [negb truthy in_strs]. fold (nonempty s). rewrite Hne.
  assert (Hmem : mem pt ["tcp"; "udp"] = true) by (apply mem_true_iff; exact Hin).
  assert (Hpte : negb (String.eqb pt "") = true).
  { destruct pt; [vm_compute in Hmem; discriminate | reflexivity]. }
  rewrite Hpte, Hmem. cbn [andb bind str_method].
  unfold IpAcl._is_tcp_udp_opstr_set at 1.
  assert (Hex : existsb (fun o => 0 <=? Py.find (Py.collapse s) o)
                        IpAcl.tcp_udp_ops = true).
  { apply existsb_exists. exists op. split; [exact Hop | exact Hc]. }
  rewrite Hex. reflexivity.
Qed.

Lemma parse_option_source_conflict_witness :
  IpAcl.parse_option
    (kwargs [("option", VStr "bogus"); ("protocol_type", VStr "udp");
             ("source", VStr "any  range 1 9")])
  = Raise IpAcl.option_conflict.
Proof.
  apply (parse_option_source_conflict _ "udp" "any  range 1 9" "range");
    try (vm_compute; reflexivity); cbn; auto.
Defined.




Lemma forallb_str_impl (p q : ascii -> bool) (s : string) :
  (forall c, p c = true -> q c = true) ->
  Py.forallb_str p s = true -> Py.forallb_str q s = true.
Proof.
  intros Hpq. induction s as [| c s IH]; [reflexivity |]. cbn [Py.forallb_str].
  intros H. apply andb_true_iff in H as [Hc Hs].
  rewrite (Hpq c Hc), (IH Hs). reflexivity.
Qed.

Lemma digit_is_dotted (s : string) :
  Py.forallb_str Py.isdigit_char s = true -> Py.forallb_str dotted_char s = true.
Proof.
  apply forallb_str_impl. intros c Hc. unfold dotted_char. rewrite Hc. reflexivity.
Qed.

Lemma find_from_no_head (a : ascii) (sub s : string) (i : Z) :
  Py.forallb_str (fun c => negb (Ascii.eqb c a)) s = true ->
  Py.find_from i (String a sub) s = -1.
Proof.
  revert i. induction s as [| c s IH]; intros i Hs; [reflexivity |].
  cbn [Py.forallb_str] in Hs. apply andb_true_iff in Hs as [Hc Hs].
  cbn [Py.find_from String.prefix].
  destruct (ascii_dec a c) as [-> | _].
  - rewrite Ascii.eqb_refl in Hc. discriminate Hc.
  - apply IH. exact Hs.
Qed.

Lemma address_char_not_letter (a c : ascii) :
  In a ["r"; "n"; "l"; "g"; "e"; "a"; "h"]%char ->
  address_char c = true -> negb (Ascii.eqb c a) = true.
Proof.
  intros Ha Hc. destruct (Ascii.eqb_spec c a) as [-> | _]; [| reflexivity].
  cbn in Ha.
  destruct Ha as [<- | [<- | [<- | [<- | [<- | [<- | [<- | []]]]]]]];
    vm_compute in Hc; discriminate Hc.
Qed.

Lemma address_text_no_operator (s : string) :
  Py.forallb_str address_char s = true ->
  IpAcl.first_op_index IpAcl.tcp_udp_ops s = None.
Proof.
  intros Hs.
  assert (Hno : forall a sub, In a ["r"; "n"; "l"; "g"; "e"; "a"; "h"]%char ->
                              Py.find s (String a sub) = -1).
  { intros a sub Ha. apply find_from_no_head.
    eapply forallb_str_impl; [| exact Hs].
    intros c Hc. apply address_char_not_letter; assumption. }
  unfold IpAcl.tcp_udp_ops. cbn [IpAcl.first_op_index].
  rewrite !Hno by (cbn; auto 10). reflexivity.
Qed.

Lemma address_text_not_any_host (s : string) :
  Py.forallb_str address_char s = true ->
  String.eqb (Py.slice_to 3 s) "any" = false
  /\ String.eqb (Py.slice_to 4 s) "host" = false.
Proof.
  intros Hs. destruct s as [| c s]; [split; reflexivity |].
  cbn [Py.forallb_str] in Hs. apply andb_true_iff in Hs as [Hc _].
  pose proof (address_char_not_letter "a" c ltac:(cbn; auto 10) Hc) as Ha.
  pose proof (address_char_not_letter "h" c ltac:(cbn; auto 10) Hc) as Hh.
  apply negb_true_iff in Ha, Hh.
  split; cbn [Py.slice_to String.eqb]; [rewrite Ha | rewrite Hh]; reflexivity.
Qed.

Lemma forallb_str_app_intro (p : ascii -> bool) (s1 s2 : string) :
  Py.forallb_str p s1 = true -> Py.forallb_str p s2 = true ->
  Py.forallb_str p (s1 +:+ s2) = true.
Proof. intros H1 H2. rewrite forallb_str_app, H1, H2. reflexivity. Qed.

Lemma split_on_no_sep (c : ascii) (s : string) :
  Py.forallb_str (fun d => negb (Ascii.eqb d c)) s = true ->
  Py.split_on c s = [s].
Proof.
  induction s as [| d s IH]; [reflexivity |]. cbn [Py.forallb_str].
  intros H. apply andb_true_iff in H as [Hd Hs]. apply negb_true_iff in Hd.
  unfold Py.split_on; fold Py.split_on. rewrite Hd, (IH Hs). reflexivity.
Qed.

Lemma split_on_once (c : ascii) (s1 s2 : string) :
  Py.forallb_str (fun d => negb (Ascii.eqb d c)) s1 = true ->
  Py.forallb_str (fun d => negb (Ascii.eqb d c)) s2 = true ->
  Py.split_on c (s1 +:+ String c s2) = [s1; s2].
Proof.
  intros H1 H2. induction s1 as [| d s1 IH].
  - change (EmptyString +:+ String c s2) with (String c s2).
    unfold Py.split_on; fold Py.split_on.
    rewrite Ascii.eqb_refl, (split_on_no_sep c s2 H2). reflexivity.
  - cbn [Py.forallb_str] in H1. apply andb_true_iff in H1 as [Hd H1].
    apply negb_true_iff in Hd.
    change (String d s1 +:+ String c s2) with (String d (s1 +:+ String c s2)).
    unfold Py.split_on; fold Py.split_on. rewrite Hd, (IH H1). reflexivity.
Qed.

Lemma contains_sep (c : ascii) (s1 s2 : string) :
  Py.contains (String c EmptyString) (s1 +:+ String c s2) = true.
Proof.
  unfold Py.contains, Py.find. apply Z.leb_le.
  assert (H : forall i, 0 <= i ->
            0 <= Py.find_from i (String c EmptyString) (s1 +:+ String c s2)).
  { induction s1 as [| d s1 IH]; intros i Hi.
    - change (EmptyString +:+ String c s2) with (String c s2).
      cbn [Py.find_from String.prefix]. destruct (ascii_dec c c); [| congruence].
      destruct s2; exact Hi.
    - change (String d s1 +:+ String c s2) with (String d (s1 +:+ String c s2)).
      cbn [Py.find_from]. destruct (String.prefix _ _); [exact Hi |].
      apply IH. lia. }
  apply H. lia.
Qed.

Lemma dotted_char_not_slash (c : ascii) :
  dotted_char c = true -> negb (Ascii.eqb c "/") = true.
Proof.
  intros Hc. destruct (Ascii.eqb_spec c "/") as [-> | _]; [| reflexivity].
  vm_compute in Hc. discriminate Hc.
Qed.

(** X11: the prefix length of an address in prefix form is never bounded:
    for a dotted-decimal address that [inet_aton] accepts, the text
    [addr/len] is accepted for every digit string [len], of any size. *)
Theorem prefix_length_unbounded (inet_aton : string -> bool)
    (protocol_type : value) (ip prefix_len : string) :
  Py.forallb_str dotted_char ip = true ->
  Py.isdigit prefix_len = true ->
  inet_aton (Py.collapse ip) = true ->
  IpAcl._parse_source_destination inet_aton protocol_type
    (ip +:+ String "/" prefix_len)
  = Ok ((ip +:+ String "/" prefix_len) +:+ " ").
Proof.
  intros Hip Hlen Hinet.
  assert (Hdig : Py.forallb_str Py.isdigit_char prefix_len = true).
  { unfold Py.isdigit in Hlen. destruct prefix_len; [discriminate | exact Hlen]. }
  assert (Haddr : Py.forallb_str address_char (ip +:+ String "/" prefix_len) = true).
  { apply forallb_str_app_intro.
    - eapply forallb_str_impl; [| exact Hip]. intros c Hc. unfold address_char.
      rewrite Hc. reflexivity.
    - cbn [Py.forallb_str]. apply andb_true_iff. split; [reflexivity |].
      eapply forallb_str_impl; [| exact (digit_is_dotted _ Hdig)].
      intros c Hc. unfold address_char. rewrite Hc. reflexivity. }
  unfold IpAcl._parse_source_destination.
  rewrite (address_text_no_operator _ Haddr).
  destruct (address_text_not_any_host _ Haddr) as [Hany Hhost].
  rewrite Hany, Hhost. rewrite andb_false_r. cbn [nonempty String.eqb negb bind].
  rewrite contains_sep.
  rewrite split_on_once.
  - unfold IpAcl._validate_ipv4. rewrite Hinet. cbn [bind]. rewrite Hlen.
    cbn [negb].
    destruct (Z.ltb_spec (Py.int prefix_len) 0), (Z.ltb_spec 32 (Py.int prefix_len));
      try reflexivity; lia.
  - eapply forallb_str_impl; [| exact Hip]. apply dotted_char_not_slash.
  - eapply forallb_str_impl; [| exact (digit_is_dotted _ Hdig)].
    apply dotted_char_not_slash.
Qed.

Lemma prefix_length_unbounded_witness :
  IpAcl._parse_source_destination Demo.c_inet_aton (VStr "ip") "10.0.0.0/99"
  = Ok "10.0.0.0/99 ".
Proof.
  apply (prefix_length_unbounded Demo.c_inet_aton (VStr "ip") "10.0.0.0" "99");
    vm_compute; reflexivity.
Defined.

Lemma run_fields_snoc (l : list (string * parser)) (k : string) (p : parser)
    (parameters ud ud' : bag) :
  Acl.run_fields (l ++ [(k, p)]) parameters ud = Ok ud' ->
  exists ud1 v,
    Acl.run_fields l parameters ud = Ok ud1
    /\ p parameters = Ok v
    /\ ud' = <[ k := frag v ]> ud1.
Proof.
  rewrite run_fields_app. destruct (Acl.run_fields l parameters ud) as [ud1 |];
    cbn [bind]; [| discriminate].
  cbn [Acl.run_fields]. destruct (p parameters) as [v |]; cbn [bind];
    [| discriminate].
  intros [= <-]. eauto.
Qed.

Section Ipv4Builds.
Context {Dev : Type} (E : env Dev).

(** X12: neither IPv4 rule build ever returns, whatever the bag is: both
    start with [self.ip.parse_seq_id], and [class IpAcl] defines no such
    method.  With 'acl_name' in the bag the extended build raises
    [AttributeError], and so does the standard build once the parameter
    filter has accepted the bag; without 'acl_name' the error is
    [KeyError].  No field parser of [IpAcl] is reached by a build. *)
Theorem ipv4_rule_builds_never_return (parameters : bag) :
  (forall user_data,
     Acl.parse_params_for_add_ipv4_standard E parameters <> Ok user_data)
  /\ (forall user_data,
        Acl.parse_params_for_add_ipv4_extended E parameters <> Ok user_data)
  /\ (has_key parameters "acl_name" = true ->
      Acl.parse_params_for_add_ipv4_extended E parameters
      = Raise (AttributeError "parse_seq_id")
      /\ (is_ok (is_parameter_supported E
                   ["acl_name"; "seq_id"; "action"; "source"; "vlan_id"; "log"]
                   parameters) = true ->
          Acl.parse_params_for_add_ipv4_standard E parameters
          = Raise (AttributeError "parse_seq_id")))
  /\ (has_key parameters "acl_name" = false ->
      Acl.parse_params_for_add_ipv4_extended E parameters
      = Raise (KeyError "acl_name")).
Proof.
  rewrite ipv4_standard_build_raises, ipv4_extended_build_raises.
  split; [| split; [| split]].
  - intros user_data.
    destruct (is_parameter_supported E _ parameters) as [[] |];
      [| discriminate].
    destruct (has_key parameters "acl_name"); discriminate.
  - intros user_data. destruct (has_key parameters "acl_name"); discriminate.
  - intros ->. split; [reflexivity |].
    destruct (is_parameter_supported E _ parameters) as [[] |];
      [reflexivity | discriminate].
  - intros ->. reflexivity.
Qed.
End Ipv4Builds.

(** X13: both address parsers need the 'protocol_type' key, and say so
    differently: without it [parse_source] raises [KeyError] for a source
    given as text, and [parse_destination] fails with MissingParameter when
    a destination is given and returns [None] when none is. *)
Theorem address_parsers_need_protocol_type (inet_aton : string -> bool)
    (parameters : bag) :
  parameters !! "protocol_type" = None ->
  (forall s, parameters !! "source" = Some (VStr s) -> nonempty s = true ->
             IpAcl.parse_source inet_aton parameters
             = Raise (KeyError "protocol_type"))
  /\ (is_set parameters "destination" = true ->
      IpAcl.parse_destination inet_aton parameters = Raise protocol_type_required)
  /\ (is_set parameters "destination" = false ->
      IpAcl.parse_destination inet_aton parameters = Ok None).
Proof.
  intros Hpt. split; [| split].
  - intros s Hsrc Hne. unfold IpAcl.parse_source, is_set, getitem.
    rewrite Hsrc, Hpt. cbn [truthy]. fold (nonempty s). rewrite Hne.
    reflexivity.
  - intros Hdst. unfold IpAcl.parse_destination. rewrite Hdst.
    unfold is_set. rewrite Hpt. reflexivity.
  - intros Hdst. unfold IpAcl.parse_destination. rewrite Hdst. reflexivity.
Qed.

Lemma address_parsers_need_protocol_type_witness :
  IpAcl.parse_source Demo.c_inet_aton
    (kwargs [("source", VStr "any"); ("destination", VStr "any")])
  = Raise (KeyError "protocol_type")
  /\ IpAcl.parse_destination Demo.c_inet_aton
       (kwargs [("source", VStr "any"); ("destination", VStr "any")])
     = Raise protocol_type_required.
Proof.
  destruct (address_parsers_need_protocol_type Demo.c_inet_aton
              (kwargs [("source", VStr "any"); ("destination", VStr "any")]))
    as (H1 & H2 & _).
  - vm_compute. reflexivity.
  - split.
    + apply (H1 "any"); vm_compute; reflexivity.
    + apply H2. vm_compute. reflexivity.
Defined.

(** ** The field parsers on concrete bags *)

Lemma parse_protocol_keywords_only_witness :
  IpAcl.parse_protocol (kwargs [("protocol_type", VStr "ospf")]) = Ok (Some "ospf").
Proof.
  apply (proj2 (parse_protocol_keywords_only
                  (kwargs [("protocol_type", VStr "ospf")]) "ospf")).
  split; vm_compute; reflexivity.
Defined.

Lemma parse_precedence_names_witness :
  IpAcl.parse_precedence (kwargs [("precedence", VStr " flash ")])
  = Raise precedence_invalid
  /\ IpAcl.parse_precedence (kwargs [("precedence", VStr "routine")])
     = Ok (Some "precedence routine").
Proof.
  split.
  - apply (proj2 (parse_precedence_names
                    (kwargs [("precedence", VStr " flash ")]) " flash " eq_refl)).
    vm_compute. auto.
  - apply (proj1 (parse_precedence_names
                    (kwargs [("precedence", VStr "routine")]) "routine" eq_refl)).
    vm_compute. auto 10.
Defined.

Lemma parse_tos_integer_witness :
  IpAcl.parse_tos (kwargs [("tos", VInt 0)]) = Ok None
  /\ IpAcl.parse_tos (kwargs [("tos", VInt 15)]) = Ok (Some "tos 15")
  /\ IpAcl.parse_tos (kwargs [("tos", VInt 16)]) = Raise tos_invalid.
Proof.
  split; [| split].
  - apply (parse_tos_integer (kwargs [("tos", VInt 0)]) 0 eq_refl). reflexivity.
  - apply (parse_tos_integer (kwargs [("tos", VInt 15)]) 15 eq_refl). lia.
  - apply (parse_tos_integer (kwargs [("tos", VInt 16)]) 16 eq_refl). lia.
Defined.

Lemma text_fields_reject_non_strings_witness :
  IpAcl.parse_dscp_mapping (kwargs [("dscp", VInt 5)])
  = Raise (AttributeError "split").
Proof.
  apply (text_fields_reject_non_strings (kwargs [("dscp", VInt 5)]) (VInt 5)).
  - reflexivity.
  - discriminate.
  - vm_compute. reflexivity.
Defined.

Lemma drop_precedence_conflict_first_witness :
  IpAcl.parse_drop_precedence
    (kwargs [("drop_precedence", VStr "1"); ("drop_precedence_force", VStr "9")])
  = Raise IpAcl.drop_precedence_conflict
  /\ IpAcl.parse_drop_precedence_force
       (kwargs [("drop_precedence", VStr "1"); ("drop_precedence_force", VStr "9")])
     = Raise IpAcl.drop_precedence_conflict.
Proof.
  apply drop_precedence_conflict_first; vm_compute; reflexivity.
Defined.

Lemma parse_dscp_mapping_range_witness :
  IpAcl.parse_dscp_mapping (kwargs [("dscp", VStr " 007 ")])
  = Ok (Some "dscp-mapping 007")
  /\ IpAcl.parse_dscp_mapping (kwargs [("dscp", VStr "64")])
     = Raise dscp_mapping_invalid.
Proof.
  split.
  - apply (proj1 (parse_dscp_mapping_range
                    (kwargs [("dscp", VStr " 007 ")]) " 007 " eq_refl eq_refl)).
    split; [vm_compute; reflexivity | vm_compute; discriminate].
  - apply (proj2 (parse_dscp_mapping_range
                    (kwargs [("dscp", VStr "64")]) "64" eq_refl eq_refl)).
    intros [_ Hle]. vm_compute in Hle. apply Hle. reflexivity.
Defined.

(** ** What the listings can say about an access list *)

Lemma classify_line_identity (line : string) :
  In (Acl.classify_line line)
     [Acl.AclIdentity "extended" "mac"; Acl.AclIdentity "extended" "ip";
      Acl.AclIdentity "standard" "ip"; Acl.AclIdentity "standard" "ipv6";
      Acl.AclIdentity "" ""].
Proof.
  unfold Acl.classify_line.
  destruct (String.eqb (Py.slice_to 4 line) "mac "); [cbn; auto |].
  destruct (String.eqb (Py.slice_to 3 line) "ip ").
  { destruct (Py.contains "extended" line); cbn; auto. }
  destruct (String.eqb (Py.slice_to 5 line) "ipv6 "); cbn; auto 6.
Qed.

Lemma scan_listing_identity (name : string) (res : list string) :
  In (Acl.scan_listing name res)
     [Acl.AclIdentity "extended" "mac"; Acl.AclIdentity "extended" "ip";
      Acl.AclIdentity "standard" "ip"; Acl.AclIdentity "standard" "ipv6";
      Acl.AclIdentity "" ""].
Proof.
  induction res as [| line res IH]; [cbn; auto 6 |].
  cbn [Acl.scan_listing]. destruct (Py.contains name line);
    [apply classify_line_identity | exact IH].
Qed.

Section Identity.
Context {Dev : Type} (E : env Dev).

(** X14: when [get_acl_address_and_acl_type] returns, the identity is one
    of four: a MAC list is always 'extended', an IPv6 list always
    'standard', an IPv4 list either; and the run has sent exactly the two
    listing queries, both answered, and nothing else. *)
Theorem acl_identity_is_one_of_four (acl_name : value) (w : world Dev)
    (ident : Acl.acl_identity) :
  (Acl.get_acl_address_and_acl_type E acl_name w).1 = Ok ident ->
  In (Acl.ret_protocol ident, Acl.ret_type ident)
     [("mac", "extended"); ("ip", "extended"); ("ip", "standard");
      ("ipv6", "standard")]
  /\ exists out1 out2,
       trace (Acl.get_acl_address_and_acl_type E acl_name w).2
       = trace w ++ [Event show_all CliGet (Ok out1);
                     Event show_ipv6 CliGet (Ok out2)].
Proof.
  intros Hok.
  destruct (get_acl_run E acl_name w) as (delta & Htr & _ & _ & Hident).
  destruct (Hident ident Hok) as (out1 & out2 & name & -> & -> & -> & Hne).
  split; [| exists out1, out2; exact Htr].
  pose proof (scan_listing_identity name (listing_lines out1 out2)) as Hin.
  destruct Hin as [H | [H | [H | [H | [H | []]]]]]; rewrite <- H in *;
    cbn; auto.
  discriminate Hne.
Qed.

End Identity.

Lemma acl_identity_is_one_of_four_witness :
  In ("ip", "extended")
     [("mac", "extended"); ("ip", "extended"); ("ip", "standard");
      ("ipv6", "standard")]
  /\ exists out1 out2,
       trace (Acl.get_acl_address_and_acl_type Demo.demo_env (VStr "Acl_1")
                Demo.world0).2
       = trace Demo.world0 ++ [Event show_all CliGet (Ok out1);
                               Event show_ipv6 CliGet (Ok out2)].
Proof.
  apply (acl_identity_is_one_of_four Demo.demo_env (VStr "Acl_1") Demo.world0
           (Acl.AclIdentity "extended" "ip")).
  vm_compute. reflexivity.
Defined.

(** ** Deleting a rule by its sequence number *)

(** No integer equals a string: [int(line_seq_id) == seq_id] is false on
    every line when [seq_id] is a string. *)
Lemma seq_id_listed_string (s : string) (lines : list string) :
  Acl.seq_id_listed (VStr s) lines = false.
Proof. apply seq_id_not_listed. reflexivity. Qed.


Section DeleteSiblings.
Context {Dev : Type} (E : env Dev) (R : more_collaborators).

Lemma is_valid_seq_id_string (s : string) (acl_name : value)
    (w w' : world Dev) (r : result bool) :
  Acl.is_valid_seq_id E (VStr s) acl_name w = (r, w') ->
  exists e, r = Raise e.
Proof.
  intros Hrun. apply is_valid_seq_id_run in Hrun
    as (delta & _ & _ & _ & Hok & _).
  destruct r as [b | e]; [| eauto].
  destruct (Hok b eq_refl) as (e1 & e2 & cfg & out & _ & Hl).
  rewrite seq_id_listed_string in Hl. discriminate Hl.
Qed.

Lemma delete_l2_acl_rule_run (parameters : bag) (w w' : world Dev)
    (r : result string) :
  AclRest.delete_l2_acl_rule E parameters w = (r, w') ->
  exists delta,
    trace w' = trace w ++ delta
    /\ (forall ev, In ev delta -> ev_handler ev = CliSet ->
        exists seq_id name e1 e2 cfg out,
          parameters !! "seq_id" = Some seq_id
          /\ mac_parse_acl_name (mac E) parameters = Ok name
          /\ delta = [e1; e2; Event (Cmd cfg) CliGet (Ok out); ev]
          /\ Acl.seq_id_listed seq_id (Py.split_on newline out) = true
          /\ ev_arg ev =
             Batch [Py.collapse_text (create_acl_template (tpls E)
                                   {[ "acl_name_str" := frag name ]});
                    AclRest.delete_seq_config E seq_id])
    /\ (forall s, parameters !! "seq_id" = Some (VStr s) ->
        (exists e, r = Raise e) /\ Forall is_get delta).
Proof.
  intros Hrun. unfold AclRest.delete_l2_acl_rule, bindM, lift, getitem in Hrun.
  destruct (negb (is_set parameters "seq_id")).
  { injection Hrun as <- <-. exists []. rewrite app_nil_r.
    split; [reflexivity | split]; [intros ev [] |].
    intros s _. split; [eauto | constructor]. }
  destruct (negb (is_set parameters "acl_name")).
  { injection Hrun as <- <-. exists []. rewrite app_nil_r.
    split; [reflexivity | split]; [intros ev [] |].
    intros s _. split; [eauto | constructor]. }
  destruct (mac_parse_acl_name (mac E) parameters) as [name | e0].
  2:{ injection Hrun as <- <-. exists []. rewrite app_nil_r.
      split; [reflexivity | split]; [intros ev [] |].
      intros s _. split; [eauto | constructor]. }
  destruct (parameters !! "seq_id") as [seq_id |].
  2:{ injection Hrun as <- <-. exists []. rewrite app_nil_r.
      split; [reflexivity | split]; [intros ev [] |].
      intros s [=]. }
  destruct (Acl.is_valid_seq_id E seq_id (frag name) w) as [[b | e2] w2] eqn:Hv.
  2:{ injection Hrun as <- <-.
      apply is_valid_seq_id_run in Hv as (delta2 & Htr2 & Hg2 & _).
      exists delta2. split; [exact Htr2 | split].
      - intros ev Hin Hset. rewrite List.Forall_forall in Hg2.
        specialize (Hg2 ev Hin). unfold is_get in Hg2. congruence.
      - intros s _. split; [eauto | exact Hg2]. }
  pose proof Hv as Hv'.
  apply is_valid_seq_id_run in Hv as (delta2 & Htr2 & Hg2 & _ & Hok2 & _).
  destruct (Hok2 b eq_refl) as (x1 & x2 & cfg & out & -> & Hlisted).
  unfold call in Hrun.
  destruct (callback E (dev w2) _ CliSet) as [out4 d4].
  exists [x1; x2; Event (Cmd cfg) CliGet (Ok out);
          Event (Batch [Py.collapse_text (create_acl_template (tpls E)
                                       {[ "acl_name_str" := frag name ]});
                        AclRest.delete_seq_config E seq_id]) CliSet out4].
  split; [| split].
  - destruct out4 as [output | e4]; injection Hrun as <- <-; cbn [trace];
      rewrite Htr2, <- !app_assoc; reflexivity.
  - inversion Hg2 as [| ? ? Hx1 Hg2']; subst.
    inversion Hg2' as [| ? ? Hx2 _]; subst. unfold is_get in Hx1, Hx2.
    intros ev [<- | [<- | [<- | [<- | []]]]]; try discriminate; try congruence.
    intros _. exists seq_id, name, x1, x2, cfg, out. repeat split. exact Hlisted.
  - intros s [= ->]. apply is_valid_seq_id_string in Hv' as [e [=]].
Qed.

Lemma delete_ipv6_acl_rule_run (parameters : bag) (w w' : world Dev)
    (r : result string) :
  AclRest.delete_ipv6_acl_rule E R parameters w = (r, w') ->
  exists delta,
    trace w' = trace w ++ delta
    /\ (forall ev, In ev delta -> ev_handler ev = CliSet ->
        exists seq_id name e1 e2 cfg out,
          parameters !! "seq_id" = Some seq_id
          /\ parameters !! "acl_name" = Some (VStr name)
          /\ delta = [e1; e2; Event (Cmd cfg) CliGet (Ok out); ev]
          /\ Acl.seq_id_listed seq_id (Py.split_on newline out) = true
          /\ ev_arg ev =
             Batch [("ipv6 access-list " +:+ " ") +:+ name;
                    AclRest.delete_seq_config E seq_id])
    /\ (forall s, parameters !! "seq_id" = Some (VStr s) ->
        (exists e, r = Raise e) /\ Forall is_get delta).
Proof.
  intros Hrun. unfold AclRest.delete_ipv6_acl_rule, bindM, lift, getitem in Hrun.
  destruct (validate_params_mlx_delete_ipv6_rule_acl R parameters) as [[] | e0].
  2:{ injection Hrun as <- <-. exists []. rewrite app_nil_r.
      split; [reflexivity | split]; [intros ev [] |].
      intros s _. split; [eauto | constructor]. }
  destruct (parameters !! "acl_name") as [acl_name |].
  2:{ injection Hrun as <- <-. exists []. rewrite app_nil_r.
      split; [reflexivity | split]; [intros ev [] |].
      intros s _. split; [eauto | constructor]. }
  destruct (parameters !! "seq_id") as [seq_id |].
  2:{ injection Hrun as <- <-. exists []. rewrite app_nil_r.
      split; [reflexivity | split]; [intros ev [] |].
      intros s [=]. }
  destruct (Acl.is_valid_seq_id E seq_id acl_name w) as [[b | e2] w2] eqn:Hv.
  2:{ injection Hrun as <- <-.
      apply is_valid_seq_id_run in Hv as (delta2 & Htr2 & Hg2 & _).
      exists delta2. split; [exact Htr2 | split].
      - intros ev Hin Hset. rewrite List.Forall_forall in Hg2.
        specialize (Hg2 ev Hin). unfold is_get in Hg2. congruence.
      - intros s _. split; [eauto | exact Hg2]. }
  pose proof Hv as Hv'.
  apply is_valid_seq_id_run in Hv as (delta2 & Htr2 & Hg2 & _ & Hok2 & _).
  destruct (Hok2 b eq_refl) as (x1 & x2 & cfg & out & -> & Hlisted).
  destruct acl_name as [| | | name |]; cbn [concat_str] in Hrun;
    try (injection Hrun as <- <-; eexists; split; [exact Htr2 | split];
         [ intros ev Hin Hset; rewrite List.Forall_forall in Hg2;
           specialize (Hg2 ev Hin); unfold is_get in Hg2; congruence
         | intros s [= ->]; apply is_valid_seq_id_string in Hv' as [e [=]] ]).
  unfold call in Hrun.
  destruct (callback E (dev w2) _ CliSet) as [out4 d4].
  exists [x1; x2; Event (Cmd cfg) CliGet (Ok out);
          Event (Batch [("ipv6 access-list " +:+ " ") +:+ name;
                        AclRest.delete_seq_config E seq_id]) CliSet out4].
  split; [| split].
  - destruct out4 as [output | e4]; injection Hrun as <- <-; cbn [trace];
      rewrite Htr2, <- !app_assoc; reflexivity.
  - inversion Hg2 as [| ? ? Hx1 Hg2']; subst.
    inversion Hg2' as [| ? ? Hx2 _]; subst. unfold is_get in Hx1, Hx2.
    intros ev [<- | [<- | [<- | [<- | []]]]]; try discriminate; try congruence.
    intros _. exists seq_id, name, x1, x2, cfg, out. repeat split. exact Hlisted.
  - intros s [= ->]. apply is_valid_seq_id_string in Hv' as [e [=]].
Qed.

Lemma delete_ipv4_acl_rule_string (parameters : bag) (s : string)
    (w w' : world Dev) (r : result string) :
  parameters !! "seq_id" = Some (VStr s) ->
  Acl.delete_ipv4_acl_rule E parameters w = (r, w') ->
  (exists e, r = Raise e)
  /\ exists delta, trace w' = trace w ++ delta /\ Forall is_get delta.
Proof.
  intros Hs Hrun.
  unfold Acl.delete_ipv4_acl_rule, bindM, lift, getitem in Hrun.
  rewrite Hs in Hrun.
  destruct (validate_params_mlx_delete_ipv4_rule_acl (vals E) parameters)
    as [[] | e0].
  2:{ injection Hrun as <- <-. split; [eauto |]. exists []. rewrite app_nil_r.
      split; [reflexivity | constructor]. }
  destruct (parameters !! "acl_name") as [acl_name |].
  2:{ injection Hrun as <- <-. split; [eauto |]. exists []. rewrite app_nil_r.
      split; [reflexivity | constructor]. }
  rewrite get_acl_type_run in Hrun.
  destruct (get_acl_run E acl_name w) as (delta1 & Htr & Hq & _ & _).
  assert (Hg1 : Forall is_get delta1).
  { eapply Forall_impl; [exact Hq |]. intros ev [Hh _]. exact Hh. }
  destruct (Acl.get_acl_address_and_acl_type E acl_name w) as [[ident | e1] w1];
    cbn [fst snd] in *.
  2:{ injection Hrun as <- <-. split; [eauto |]. exists delta1.
      split; [exact Htr | exact Hg1]. }
  destruct (Acl.is_valid_seq_id E (VStr s) acl_name w1) as [[b | e2] w2] eqn:Hv.
  { apply is_valid_seq_id_string in Hv as [e [=]]. }
  injection Hrun as <- <-. split; [eauto |].
  apply is_valid_seq_id_run in Hv as (delta2 & Htr2 & Hg2 & _).
  exists (delta1 ++ delta2). split.
  - rewrite Htr2, Htr, app_assoc. reflexivity.
  - apply Forall_app. split; assumption.
Qed.

(** X15: a sequence number given as a string is never found, since the
    loop of [is_valid_seq_id] compares it with an integer: the three
    delete-by-sequence entry points fail on such a bag and send read-only
    commands only, whatever the device lists. *)
Theorem string_seq_id_is_never_found (parameters : bag) (s : string)
    (w : world Dev) :
  parameters !! "seq_id" = Some (VStr s) ->
  ((exists e, (AclRest.delete_l2_acl_rule E parameters w).1 = Raise e)
   /\ exists delta,
        trace (AclRest.delete_l2_acl_rule E parameters w).2 = trace w ++ delta
        /\ Forall is_get delta)
  /\ ((exists e, (Acl.delete_ipv4_acl_rule E parameters w).1 = Raise e)
      /\ exists delta,
           trace (Acl.delete_ipv4_acl_rule E parameters w).2 = trace w ++ delta
           /\ Forall is_get delta)
  /\ ((exists e, (AclRest.delete_ipv6_acl_rule E R parameters w).1 = Raise e)
      /\ exists delta,
           trace (AclRest.delete_ipv6_acl_rule E R parameters w).2
           = trace w ++ delta
           /\ Forall is_get delta).
Proof.
  intros Hs. split; [| split].
  - destruct (AclRest.delete_l2_acl_rule E parameters w) as [r w'] eqn:Hrun.
    apply delete_l2_acl_rule_run in Hrun as (delta & Htr & _ & Hstr).
    destruct (Hstr s Hs) as [Hr Hg]. split; [exact Hr | eauto].
  - destruct (Acl.delete_ipv4_acl_rule E parameters w) as [r w'] eqn:Hrun.
    exact (delete_ipv4_acl_rule_string parameters s w w' r Hs Hrun).
  - destruct (AclRest.delete_ipv6_acl_rule E R parameters w) as [r w'] eqn:Hrun.
    apply delete_ipv6_acl_rule_run in Hrun as (delta & Htr & _ & Hstr).
    destruct (Hstr s Hs) as [Hr Hg]. split; [exact Hr | eauto].
Qed.


End DeleteSiblings.

(** ** Creating an access list, and adding a rule to a list of another
    protocol *)

Section CreateAcl.
Context {Dev : Type} (E : env Dev) (R : more_collaborators).

Lemma create_config_shape (address_type acl_type : value)
    (acl_name : option string) (config : string) :
  AclRest.create_config address_type acl_type acl_name = Ok config ->
  exists name,
    acl_name = Some name
    /\ ((address_type = VStr "mac" /\ config = "mac access-list " +:+ name)
        \/ (address_type = VStr "ip"
            /\ exists t, acl_type = VStr t /\ t <> ""
                 /\ config = (("ip access-list " +:+ t) +:+ " ") +:+ name)
        \/ (address_type = VStr "ipv6"
            /\ config = "ipv6 access-list " +:+ name)).
Proof.
  unfold AclRest.create_config.
  destruct address_type as [| | | a |]; cbn [Acl.eq_str]; try discriminate.
  destruct (String.eqb a "mac") eqn:Hmac.
  { apply String.eqb_eq in Hmac as ->.
    destruct acl_name as [name |]; cbn; [| discriminate].
    intros [= <-]. eauto 10. }
  destruct (String.eqb a "ip") eqn:Hip.
  { apply String.eqb_eq in Hip as ->.
    destruct acl_type as [| | | t |]; cbn; try discriminate;
      try (destruct (negb _); discriminate).
    destruct (String.eqb t "") eqn:Ht; cbn; [discriminate |].
    destruct acl_name as [name |]; cbn; [| discriminate].
    intros [= <-]. exists name. split; [reflexivity |]. right. left.
    split; [reflexivity |]. exists t. repeat split.
    intros ->. discriminate Ht. }
  destruct (String.eqb a "ipv6") eqn:Hv6; [| discriminate].
  apply String.eqb_eq in Hv6 as ->.
  destruct acl_name as [name |]; cbn; [| discriminate].
  intros [= <-]. eauto 10.
Qed.

Lemma create_acl_run (parameters : bag) (w w' : world Dev) (r : result string) :
  AclRest.create_acl E R parameters w = (r, w') ->
  exists delta,
    trace w' = trace w ++ delta
    /\ (delta = []
        \/ exists config out name,
             delta = [Event (Batch [config]) CliSet out]
             /\ mac_parse_acl_name (mac E) parameters = Ok (Some name)
             /\ ((parameters !! "address_type" = Some (VStr "mac")
                  /\ config = "mac access-list " +:+ name)
                 \/ (parameters !! "address_type" = Some (VStr "ip")
                     /\ exists t, parameters !! "acl_type" = Some (VStr t)
                          /\ t <> ""
                          /\ config = (("ip access-list " +:+ t) +:+ " ") +:+ name)
                 \/ (parameters !! "address_type" = Some (VStr "ipv6")
                     /\ config = "ipv6 access-list " +:+ name)))
    /\ (is_ok r = true -> delta <> []).
Proof.
  intros Hrun. unfold AclRest.create_acl, bindM, lift, getitem in Hrun.
  destruct (validate_params_mlx_create_acl R parameters) as [[] | e0].
  2:{ injection Hrun as <- <-. exists []. rewrite app_nil_r.
      split; [reflexivity | split; [left; reflexivity | discriminate]]. }
  destruct (parameters !! "address_type") as [address_type |] eqn:Haddr.
  2:{ injection Hrun as <- <-. exists []. rewrite app_nil_r.
      split; [reflexivity | split; [left; reflexivity | discriminate]]. }
  destruct (mac_parse_acl_name (mac E) parameters) as [acl_name | e1].
  2:{ injection Hrun as <- <-. exists []. rewrite app_nil_r.
      split; [reflexivity | split; [left; reflexivity | discriminate]]. }
  destruct (AclRest.create_config _ _ acl_name) as [config | e2] eqn:Hcfg.
  2:{ injection Hrun as <- <-. exists []. rewrite app_nil_r.
      split; [reflexivity | split; [left; reflexivity | discriminate]]. }
  apply create_config_shape in Hcfg as (name & -> & Hshape).
  unfold call in Hrun.
  destruct (callback E (dev w) (Batch [config]) CliSet) as [out d1].
  exists [Event (Batch [config]) CliSet out]. split; [| split].
  - destruct out as [output | e3]; injection Hrun as <- <-; reflexivity.
  - right. exists config, out, name. split; [reflexivity |].
    split; [reflexivity |].
    destruct Hshape as [[-> ->] | [[-> (t & Ht & Hne & ->)] | [-> ->]]].
    + left. auto.
    + right. left. split; [reflexivity |]. exists t.
      destruct (parameters !! "acl_type") as [v |]; cbn in Ht;
        [subst v; auto | discriminate].
    + right. right. auto.
  - intros _. discriminate.
Qed.

(** X17: [create_acl] never asks the device anything: a run sends either
    nothing or exactly one cli-set batch holding one command, and a call
    that returns has sent it.  The command is 'mac access-list NAME',
    'ip access-list TYPE NAME' or 'ipv6 access-list NAME' by the address
    type, with NAME what the name parser returned; 'acl_type' is used
    for 'ip' only, where it must be a non-empty string and is inserted
    as it is. *)
Theorem create_acl_sends_one_command (parameters : bag) (w : world Dev) :
  exists delta,
    trace (AclRest.create_acl E R parameters w).2 = trace w ++ delta
    /\ (delta = []
        \/ exists config out name,
             delta = [Event (Batch [config]) CliSet out]
             /\ mac_parse_acl_name (mac E) parameters = Ok (Some name)
             /\ ((parameters !! "address_type" = Some (VStr "mac")
                  /\ config = "mac access-list " +:+ name)
                 \/ (parameters !! "address_type" = Some (VStr "ip")
                     /\ exists t, parameters !! "acl_type" = Some (VStr t)
                          /\ t <> ""
                          /\ config = (("ip access-list " +:+ t) +:+ " ") +:+ name)
                 \/ (parameters !! "address_type" = Some (VStr "ipv6")
                     /\ config = "ipv6 access-list " +:+ name)))
    /\ (is_ok (AclRest.create_acl E R parameters w).1 = true -> delta <> []).
Proof.
  destruct (AclRest.create_acl E R parameters w) as [r w'] eqn:Hrun.
  exact (create_acl_run parameters w w' r Hrun).
Qed.

(** X18: [add_ipv4_rule_acl] adds no rule to a list that the device shows
    as a MAC or IPv6 list, and [add_ipv6_rule_acl] none to a list shown
    as MAC or IPv4: once the two listing queries are answered and give
    another protocol for the name, the call fails with the not-supported
    error and the two queries are all it has sent, whatever the rule
    fields are. *)
Theorem add_rule_protocol_mismatch (parameters : bag) (name : string)
    (w : world Dev) (out1 out2 : string) (d1 d2 : Dev) :
  parameters !! "acl_name" = Some (VStr name) ->
  callback E (dev w) show_all CliGet = (Ok out1, d1) ->
  callback E d1 show_ipv6 CliGet = (Ok out2, d2) ->
  nonempty (Acl.ret_protocol (Acl.scan_listing name (listing_lines out1 out2)))
  = true ->
  (validate_params_mlx_add_ipv4_rule_acl (vals E) parameters = Ok tt ->
   Acl.ret_protocol (Acl.scan_listing name (listing_lines out1 out2)) <> "ip" ->
   Acl.add_ipv4_rule_acl E parameters w
   = (Raise Acl.not_supported,
      World d2 (trace w ++ [Event show_all CliGet (Ok out1);
                            Event show_ipv6 CliGet (Ok out2)])))
  /\ (validate_params_mlx_add_ipv6_rule_acl (vals E) parameters = Ok tt ->
      Acl.ret_protocol (Acl.scan_listing name (listing_lines out1 out2))
      <> "ipv6" ->
      Acl.add_ipv6_rule_acl E parameters w
      = (Raise Acl.not_supported,
         World d2 (trace w ++ [Event show_all CliGet (Ok out1);
                               Event show_ipv6 CliGet (Ok out2)]))).
Proof.
  intros Hname H1 H2 Hne. split; intros Hval Hproto.
  - unfold Acl.add_ipv4_rule_acl, bindM, lift, getitem.
    rewrite Hval, Hname, (get_acl_answers E _ _ _ _ _ _ H1 H2).
    cbv zeta. rewrite Hne.
    destruct (String.eqb _ "ip") eqn:Heq; [| reflexivity].
    apply String.eqb_eq in Heq. contradiction.
  - unfold Acl.add_ipv6_rule_acl, bindM, lift, getitem.
    rewrite Hval, Hname, (get_acl_answers E _ _ _ _ _ _ H1 H2).
    cbv zeta. rewrite Hne.
    destruct (String.eqb _ "ipv6") eqn:Heq; [| reflexivity].
    apply String.eqb_eq in Heq. contradiction.
Qed.

End CreateAcl.

(** ** Binding and unbinding an access list *)

(** A loop whose body makes at most one call per item, and stops at the
    first item whose body raises. *)
Lemma for_each_run {Dev A : Type} (f : A -> cli_arg) (P : event -> Prop)
    (body : A -> M Dev unit) :
  (forall x w,
     (trace (body x w).2 = trace w /\ is_ok (body x w).1 = false)
     \/ exists out,
          trace (body x w).2 = trace w ++ [Event (f x) CliSet out]
          /\ (is_ok (body x w).1 = true -> P (Event (f x) CliSet out))) ->
  forall l w,
    exists evs,
      trace (for_each l body w).2 = trace w ++ evs
      /\ Forall is_set_call evs
      /\ (exists rest, map f l = map ev_arg evs ++ rest)
      /\ (is_ok (for_each l body w).1 = true ->
          map ev_arg evs = map f l /\ Forall P evs).
Proof.
  intros Hbody l. induction l as [| x l IH]; intros w.
  - exists []. cbn. rewrite app_nil_r.
    split; [reflexivity | split; [constructor | split]].
    + exists []. reflexivity.
    + intros _. split; [reflexivity | constructor].
  - cbn [for_each]. unfold bindM.
    destruct (Hbody x w) as [[Htr Hfail] | (out & Htr & HP)];
      destruct (body x w) as [[[] | e] w1]; cbn [fst snd is_ok] in *.
    + discriminate Hfail.
    + exists []. rewrite app_nil_r.
      split; [exact Htr | split; [constructor | split]].
      * eexists. cbn [map app]. reflexivity.
      * discriminate.
    + destruct (IH w1) as (evs & Htr1 & Hset & [rest Hpre] & Hok).
      exists (Event (f x) CliSet out :: evs).
      split; [| split; [| split]].
      * rewrite Htr1, Htr, <- app_assoc. reflexivity.
      * constructor; [reflexivity | exact Hset].
      * exists rest. cbn [map app ev_arg]. rewrite Hpre. reflexivity.
      * intros Hr. destruct (Hok Hr) as [Hm HPs]. split.
        -- cbn [map ev_arg]. rewrite Hm. reflexivity.
        -- constructor; [apply HP; reflexivity | exact HPs].
    + exists [Event (f x) CliSet out].
      split; [exact Htr | split; [| split]].
      * constructor; [reflexivity | constructor].
      * exists (map f l). reflexivity.
      * discriminate.
Qed.

(** A run that ended before its loops: the listing queries are all it
    sent. *)
Ltac ended_early qs :=
  exists qs, [], [], EmptyString; cbn [app map]; rewrite ?app_nil_r;
  split; [first [reflexivity | eassumption] |];
  split; [first [eassumption | solve [listing_queries]] |];
  split; [constructor |];
  split; [eexists; reflexivity |];
  split; [eexists; reflexivity |];
  split; [intros Hne0; contradiction |];
  split; [intros Hne0; contradiction |];
  intros Hok0; discriminate Hok0.

Section Binding.
Context {Dev : Type} (E : env Dev) (R : more_collaborators).

Lemma apply_acl_run (parameters : bag) (w w' : world Dev) (r : result string) :
  Acl.apply_acl E parameters w = (r, w') ->
  exists queries probes binds address_type,
    trace w' = trace w ++ queries ++ probes ++ binds
    /\ Forall is_listing_query queries
    /\ Forall is_set_call (probes ++ binds)
    /\ (exists rest, map (probe_arg E parameters) (interfaces_of parameters)
                     = map ev_arg probes ++ rest)
    /\ (exists rest, map (bind_arg E parameters address_type)
                       (interfaces_of parameters)
                     = map ev_arg binds ++ rest)
    /\ (probes ++ binds <> [] ->
        exists out1 out2 name,
          parameters !! "acl_name" = Some (VStr name)
          /\ queries = [Event show_all CliGet (Ok out1);
                        Event show_ipv6 CliGet (Ok out2)]
          /\ address_type
             = Acl.ret_protocol (Acl.scan_listing name (listing_lines out1 out2)))
    /\ (binds <> [] ->
        map ev_arg probes
        = map (probe_arg E parameters) (interfaces_of parameters)
        /\ Forall (accepted E "apply_acl") probes)
    /\ (is_ok r = true ->
        r = Ok "apply_acl: Successful"
        /\ map ev_arg binds
           = map (bind_arg E parameters address_type) (interfaces_of parameters)).
Proof.
  intros Hrun. unfold Acl.apply_acl in Hrun. cbv zeta in Hrun.
  unfold bindM at 1, lift at 1 in Hrun.
  destruct (validate_params_mlx_apply_acl (vals E) parameters) as [[] | e0];
    [| injection Hrun as <- <-; ended_early (@nil event)].
  unfold bindM at 1, lift at 1, getitem at 1 in Hrun.
  destruct (parameters !! "acl_name") as [acl_name |] eqn:Hname;
    [| injection Hrun as <- <-; ended_early (@nil event)].
  unfold bindM at 1, lift at 1, getitem at 1 in Hrun.
  destruct (parameters !! "intf_type") as [intf_type |] eqn:Hintf;
    [| injection Hrun as <- <-; ended_early (@nil event)].
  destruct (negb (truthy _));
    [injection Hrun as <- <-; ended_early (@nil event) |].
  unfold bindM at 1 in Hrun. rewrite get_address_type_run in Hrun.
  destruct (get_acl_run E acl_name w) as (delta1 & Htr & Hq & Hlen & Hident).
  destruct (Acl.get_acl_address_and_acl_type E acl_name w) as [[ident | e1] w1]
    eqn:Hget; cbn [fst snd] in *;
    [| injection Hrun as <- <-; ended_early delta1].
  destruct (Hident ident eq_refl) as (out1 & out2 & name & -> & -> & -> & Hne).
  clear Hident Hlen.
  set (address_type :=
         Acl.ret_protocol (Acl.scan_listing name (listing_lines out1 out2))) in *.
  destruct (negb (mem address_type _));
    [injection Hrun as <- <-;
     ended_early [Event show_all CliGet (Ok out1);
                  Event show_ipv6 CliGet (Ok out2)] |].
  destruct (_ && _);
    [injection Hrun as <- <-;
     ended_early [Event show_all CliGet (Ok out1);
                  Event show_ipv6 CliGet (Ok out2)] |].
  destruct (Acl.eq_str intf_type "port_channel");
    [injection Hrun as <- <-;
     ended_early [Event show_all CliGet (Ok out1);
                  Event show_ipv6 CliGet (Ok out2)] |].
  unfold bindM at 1, lift at 1 in Hrun. unfold interfaces_of.
  destruct (Acl.iterate _) as [intfs | e2];
    [| injection Hrun as <- <-;
       ended_early [Event show_all CliGet (Ok out1);
                    Event show_ipv6 CliGet (Ok out2)]].
  unfold bindM at 1 in Hrun.
  match type of Hrun with
  | context [for_each intfs ?b w1] =>
      destruct (for_each_run (probe_arg E parameters) (accepted E "apply_acl") b)
        with (l := intfs) (w := w1)
        as (probes & Htr1 & Hset1 & Hpre1 & Hok1)
  end.
  { intros intf w0. right. unfold bindM, call, lift, pure.
    destruct (callback E (dev w0) _ CliSet) as [[output | e3] d3] eqn:Hcb;
      cbn [fst snd trace].
    - exists (Ok output). split.
      + destruct (process_cli_output E "apply_acl" _ output); reflexivity.
      + intros Hacc. eexists _, output. split; [reflexivity |].
        split; [reflexivity |].
        destruct (process_cli_output E "apply_acl" _ output);
          [reflexivity | discriminate Hacc].
    - exists (Raise e3). split; [reflexivity | discriminate]. }
  destruct (for_each intfs _ w1) as [[[] | e3] w2]; cbn [fst snd is_ok] in *.
  2:{ injection Hrun as <- <-.
      exists [Event show_all CliGet (Ok out1); Event show_ipv6 CliGet (Ok out2)],
             probes, [], address_type.
      rewrite !app_nil_r.
      split; [rewrite Htr1, Htr, <- app_assoc; reflexivity |].
      split; [exact Hq |]. split; [exact Hset1 |]. split; [exact Hpre1 |].
      split; [eexists; reflexivity |].
      split; [intros _; exists out1, out2, name; auto |].
      split; [intros Hne0; contradiction | discriminate]. }
  destruct (Hok1 eq_refl) as [Hall1 Hacc1].
  unfold bindM at 1 in Hrun.
  match type of Hrun with
  | context [for_each intfs ?b w2] =>
      destruct (for_each_run (bind_arg E parameters address_type)
                  (fun _ => True) b)
        with (l := intfs) (w := w2)
        as (binds & Htr2 & Hset2 & Hpre2 & Hok2)
  end.
  { intros intf w0. unfold bindM, call, lift, pure.
    destruct (has_key (delete "intf_name" parameters) "address_type").
    { left. split; reflexivity. }
    right.
    destruct (callback E (dev w0) _ CliSet) as [[output | e4] d4] eqn:Hcb;
      cbn [fst snd trace].
    - exists (Ok output). split; [| trivial].
      destruct (_ && _); [reflexivity |].
      destruct (process_cli_output E "apply_acl" _ output); reflexivity.
    - exists (Raise e4). split; [reflexivity | trivial]. }
  exists [Event show_all CliGet (Ok out1); Event show_ipv6 CliGet (Ok out2)],
         probes, binds, address_type.
  destruct (for_each intfs _ w2) as [[[] | e4] w3]; cbn [fst snd is_ok] in *;
    injection Hrun as <- <-;
    (split; [rewrite Htr2, Htr1, Htr, <- !app_assoc; reflexivity |]);
    (split; [exact Hq |]);
    (split; [apply Forall_app; split; assumption |]);
    (split; [exact Hpre1 |]); (split; [exact Hpre2 |]);
    (split; [intros _; exists out1, out2, name; auto |]);
    (split; [intros _; split; assumption |]).
  - intros _. split; [reflexivity |]. apply Hok2. reflexivity.
  - discriminate.
Qed.

(** X19: a run of [apply_acl] sends, in this order, listing queries, one
    probe per interface and one bind batch per interface, each a prefix
    of the interface list in its order, and nothing else: no command
    undoes a bind.  The first bind is sent only after every interface
    was probed and every probe accepted; a call that returns has sent
    the bind batch of every interface. *)
Theorem apply_acl_probes_then_binds (parameters : bag) (w : world Dev) :
  exists queries probes binds address_type,
    trace (Acl.apply_acl E parameters w).2
    = trace w ++ queries ++ probes ++ binds
    /\ Forall is_listing_query queries
    /\ Forall is_set_call (probes ++ binds)
    /\ (exists rest, map (probe_arg E parameters) (interfaces_of parameters)
                     = map ev_arg probes ++ rest)
    /\ (exists rest, map (bind_arg E parameters address_type)
                       (interfaces_of parameters)
                     = map ev_arg binds ++ rest)
    /\ (probes ++ binds <> [] ->
        exists out1 out2 name,
          parameters !! "acl_name" = Some (VStr name)
          /\ queries = [Event show_all CliGet (Ok out1);
                        Event show_ipv6 CliGet (Ok out2)]
          /\ address_type
             = Acl.ret_protocol (Acl.scan_listing name (listing_lines out1 out2)))
    /\ (binds <> [] ->
        map ev_arg probes
        = map (probe_arg E parameters) (interfaces_of parameters)
        /\ Forall (accepted E "apply_acl") probes)
    /\ (is_ok (Acl.apply_acl E parameters w).1 = true ->
        (Acl.apply_acl E parameters w).1 = Ok "apply_acl: Successful"
        /\ map ev_arg binds
           = map (bind_arg E parameters address_type) (interfaces_of parameters)).
Proof.
  destruct (Acl.apply_acl E parameters w) as [r w'] eqn:Hrun.
  exact (apply_acl_run parameters w w' r Hrun).
Qed.

End Binding.

Section Unbinding.
Context {Dev : Type} (E : env Dev) (R : more_collaborators).

(** The list built by the second loop of [remove_acl]. *)
Lemma remove_batch_flat (parameters : bag) (address_type : string)
    (intfs cli_arr : list string) :
  AclRest.remove_batch E R parameters address_type intfs = Ok cli_arr ->
  cli_arr
  = flat_map
      (fun intf =>
         [AclRest.submode_config E parameters intf;
          Py.collapse_text (remove_acl_template R
                         (<[ "address_type" := VStr address_type ]> parameters));
          "exit"])
      intfs.
Proof.
  revert cli_arr. induction intfs as [| intf intfs IH]; intros cli_arr.
  - intros [= <-]. reflexivity.
  - cbn [AclRest.remove_batch flat_map]. unfold AclRest.render_with_address_type.
    destruct (has_key parameters "address_type"); [discriminate |].
    cbn [bind].
    destruct (AclRest.remove_batch E R parameters address_type intfs)
      as [l |]; [| discriminate].
    cbn [bind]. intros [= <-]. rewrite (IH l eq_refl). reflexivity.
Qed.

Lemma remove_acl_run (parameters : bag) (w w' : world Dev) (r : result string) :
  AclRest.remove_acl E R parameters w = (r, w') ->
  exists queries probes final,
    trace w' = trace w ++ queries ++ probes ++ final
    /\ Forall is_listing_query queries
    /\ Forall is_set_call (probes ++ final)
    /\ (exists rest, map (probe_arg E parameters) (interfaces_of parameters)
                     = map ev_arg probes ++ rest)
    /\ (final = []
        \/ exists out out1 out2 name,
             parameters !! "acl_name" = Some (VStr name)
             /\ queries = [Event show_all CliGet (Ok out1);
                           Event show_ipv6 CliGet (Ok out2)]
             /\ final =
                [Event (unbind_arg E R parameters
                          (Acl.ret_protocol
                             (Acl.scan_listing name (listing_lines out1 out2))))
                       CliSet out]
             /\ map ev_arg probes
                = map (probe_arg E parameters) (interfaces_of parameters)
             /\ Forall (accepted E "remove_acl") probes)
    /\ (is_ok r = true -> final <> []).
Proof.
  intros Hrun. unfold AclRest.remove_acl in Hrun. cbv zeta in Hrun.
  assert (Hearly : forall qs tr,
            tr = trace w ++ qs ->
            Forall is_listing_query qs ->
            exists queries probes final : list event,
              tr = trace w ++ queries ++ probes ++ final
              /\ Forall is_listing_query queries
              /\ Forall is_set_call (probes ++ final)
              /\ (exists rest,
                    map (probe_arg E parameters) (interfaces_of parameters)
                    = map ev_arg probes ++ rest)
              /\ (final = []
                  \/ exists out out1 out2 name,
                       parameters !! "acl_name" = Some (VStr name)
                       /\ queries = [Event show_all CliGet (Ok out1);
                                     Event show_ipv6 CliGet (Ok out2)]
                       /\ final =
                          [Event (unbind_arg E R parameters
                                    (Acl.ret_protocol
                                       (Acl.scan_listing name
                                          (listing_lines out1 out2))))
                                 CliSet out]
                       /\ map ev_arg probes
                          = map (probe_arg E parameters)
                              (interfaces_of parameters)
                       /\ Forall (accepted E "remove_acl") probes)
              /\ (false = true -> final <> [])).
  { intros qs tr -> Hqs. exists qs, [], []. rewrite !app_nil_r.
    split; [reflexivity |]. split; [exact Hqs |]. split; [constructor |].
    split; [eexists; reflexivity |]. split; [left; reflexivity | discriminate]. }
  unfold bindM at 1, lift at 1 in Hrun.
  destruct (validate_params_mlx_remove_acl R parameters) as [[] | e0];
    [| injection Hrun as <- <-;
       apply (Hearly []); [symmetry; apply app_nil_r | constructor]].
  unfold bindM at 1, lift at 1, getitem at 1 in Hrun.
  destruct (parameters !! "acl_name") as [acl_name |] eqn:Hname;
    [| injection Hrun as <- <-;
       apply (Hearly []); [symmetry; apply app_nil_r | constructor]].
  unfold bindM at 1, lift at 1, getitem at 1 in Hrun.
  destruct (parameters !! "intf_type") as [intf_type |] eqn:Hintf;
    [| injection Hrun as <- <-;
       apply (Hearly []); [symmetry; apply app_nil_r | constructor]].
  destruct (negb (truthy _));
    [injection Hrun as <- <-;
     apply (Hearly []); [symmetry; apply app_nil_r | constructor] |].
  unfold bindM at 1 in Hrun. rewrite get_address_type_run in Hrun.
  destruct (get_acl_run E acl_name w) as (delta1 & Htr & Hq & Hlen & Hident).
  destruct (Acl.get_acl_address_and_acl_type E acl_name w) as [[ident | e1] w1]
    eqn:Hget; cbn [fst snd] in *;
    [| injection Hrun as <- <-; exact (Hearly _ _ Htr Hq)].
  destruct (Hident ident eq_refl) as (out1 & out2 & name & -> & -> & -> & Hne).
  clear Hident Hlen.
  set (address_type :=
         Acl.ret_protocol (Acl.scan_listing name (listing_lines out1 out2))) in *.
  destruct (negb (mem address_type _));
    [injection Hrun as <- <-; exact (Hearly _ _ Htr Hq) |].
  destruct (_ && _);
    [injection Hrun as <- <-; exact (Hearly _ _ Htr Hq) |].
  destruct (Acl.eq_str intf_type "port_channel");
    [injection Hrun as <- <-; exact (Hearly _ _ Htr Hq) |].
  unfold bindM at 1, lift at 1 in Hrun.
  unfold unbind_arg in *. unfold interfaces_of in *.
  destruct (Acl.iterate _) as [intfs | e2];
    [| injection Hrun as <- <-; exact (Hearly _ _ Htr Hq)].
  clear Hearly.
  unfold bindM at 1 in Hrun.
  match type of Hrun with
  | context [for_each intfs ?b w1] =>
      destruct (for_each_run (probe_arg E parameters) (accepted E "remove_acl") b)
        with (l := intfs) (w := w1)
        as (probes & Htr1 & Hset1 & Hpre1 & Hok1)
  end.
  { intros intf w0. right. unfold bindM, call, lift, pure.
    destruct (callback E (dev w0) _ CliSet) as [[output | e3] d3] eqn:Hcb;
      cbn [fst snd trace].
    - exists (Ok output). split.
      + destruct (process_cli_output E "remove_acl" _ output); reflexivity.
      + intros Hacc. eexists _, output. split; [reflexivity |].
        split; [reflexivity |].
        destruct (process_cli_output E "remove_acl" _ output);
          [reflexivity | discriminate Hacc].
    - exists (Raise e3). split; [reflexivity | discriminate]. }
  assert (Hstop : trace w1 ++ probes
                  = trace w ++ [Event show_all CliGet (Ok out1);
                                Event show_ipv6 CliGet (Ok out2)]
                      ++ probes ++ []).
  { rewrite Htr, app_nil_r, <- app_assoc. reflexivity. }
  destruct (for_each intfs _ w1) as [[[] | e3] w2]; cbn [fst snd is_ok] in *.
  2:{ injection Hrun as <- <-. eexists _, probes, [].
      split; [rewrite Htr1; exact Hstop |].
      split; [exact Hq |]. split; [rewrite app_nil_r; exact Hset1 |].
      split; [exact Hpre1 |]. split; [left; reflexivity | discriminate]. }
  destruct (Hok1 eq_refl) as [Hall1 Hacc1].
  unfold bindM at 1, lift at 1 in Hrun.
  destruct (AclRest.remove_batch E R _ address_type intfs) as [cli_arr | e4]
    eqn:Hbatch.
  2:{ injection Hrun as <- <-. eexists _, probes, [].
      split; [rewrite Htr1; exact Hstop |].
      split; [exact Hq |]. split; [rewrite app_nil_r; exact Hset1 |].
      split; [exact Hpre1 |]. split; [left; reflexivity | discriminate]. }
  apply remove_batch_flat in Hbatch. subst cli_arr.
  unfold bindM at 1, lift at 1 in Hrun.
  destruct (AclRest.render_with_address_type _ _ _) as [config | e5].
  2:{ injection Hrun as <- <-. eexists _, probes, [].
      split; [rewrite Htr1; exact Hstop |].
      split; [exact Hq |]. split; [rewrite app_nil_r; exact Hset1 |].
      split; [exact Hpre1 |]. split; [left; reflexivity | discriminate]. }
  unfold bindM, call, lift in Hrun.
  destruct (callback E (dev w2) _ CliSet) as [out d3].
  eexists _, probes, [Event _ CliSet out].
  split; [| split; [exact Hq | split; [| split; [exact Hpre1 | split]]]].
  - destruct out as [output | e6]; injection Hrun as <- <-; cbn [trace];
      rewrite Htr1, Htr, <- !app_assoc; reflexivity.
  - apply Forall_app. split; [exact Hset1 |].
    constructor; [reflexivity | constructor].
  - right. exists out, out1, out2, name.
    split; [reflexivity |]. split; [reflexivity |].
    split; [reflexivity |]. split; assumption.
  - intros _. discriminate.
Qed.

(** X20: [remove_acl] probes the interfaces one call each, in order, and
    then unbinds them all in a single batch of three commands per
    interface (the interface context, the unbind command, 'exit'),
    which it sends only after every interface was probed and every
    probe accepted; a call that returns has sent that batch. *)
Theorem remove_acl_one_batch (parameters : bag) (w : world Dev) :
  exists queries probes final,
    trace (AclRest.remove_acl E R parameters w).2
    = trace w ++ queries ++ probes ++ final
    /\ Forall is_listing_query queries
    /\ Forall is_set_call (probes ++ final)
    /\ (exists rest, map (probe_arg E parameters) (interfaces_of parameters)
                     = map ev_arg probes ++ rest)
    /\ (final = []
        \/ exists out out1 out2 name,
             parameters !! "acl_name" = Some (VStr name)
             /\ queries = [Event show_all CliGet (Ok out1);
                           Event show_ipv6 CliGet (Ok out2)]
             /\ final =
                [Event (unbind_arg E R parameters
                          (Acl.ret_protocol
                             (Acl.scan_listing name (listing_lines out1 out2))))
                       CliSet out]
             /\ map ev_arg probes
                = map (probe_arg E parameters) (interfaces_of parameters)
             /\ Forall (accepted E "remove_acl") probes)
    /\ (is_ok (AclRest.remove_acl E R parameters w).1 = true -> final <> []).
Proof.
  destruct (AclRest.remove_acl E R parameters w) as [r w'] eqn:Hrun.
  exact (remove_acl_run parameters w w' r Hrun).
Qed.

End Unbinding.

Lemma string_seq_id_is_never_found_witness :
  (exists e,
     (Acl.delete_ipv4_acl_rule Demo.demo_env DemoRest.delete_seq_string
        Demo.world0).1 = Raise e)
  /\ Acl.seq_id_listed (VInt 10)
       (Py.split_on newline
          (Demo.reply Demo.switch "show ip access-list Acl_1")) = true.
Proof.
  split; [| vm_compute; reflexivity].
  destruct (string_seq_id_is_never_found Demo.demo_env DemoRest.demo_more
              DemoRest.delete_seq_string "10" Demo.world0)
    as (_ & [Hr _] & _).
  - reflexivity.
  - exact Hr.
Defined.


Lemma create_acl_sends_one_command_witness :
  trace (AclRest.create_acl Demo.demo_env DemoRest.demo_more
           DemoRest.create_ip_extended Demo.world0).2
  = [Event (Batch ["ip access-list extended Acl_2"]) CliSet (Ok "")]
  /\ exists e,
       AclRest.create_acl Demo.demo_env DemoRest.demo_more
         DemoRest.create_ip_untyped Demo.world0
       = (Raise e, Demo.world0).
Proof.
  destruct (create_acl_sends_one_command Demo.demo_env DemoRest.demo_more
              DemoRest.create_ip_extended Demo.world0)
    as (delta & Htr & _ & Hsent).
  split; [| eexists; vm_compute; reflexivity].
  destruct delta as [| ev delta]; [exfalso; apply Hsent; reflexivity |].
  vm_compute. reflexivity.
Defined.

Lemma add_rule_protocol_mismatch_witness :
  Acl.add_ipv4_rule_acl Demo.demo_env Demo.l2_rule Demo.world0
  = (Raise Acl.not_supported,
     World Demo.switch
       [Event show_all CliGet (Ok (Demo.reply Demo.switch "show access-list all"));
        Event show_ipv6 CliGet
          (Ok (Demo.reply Demo.switch "show ipv6 access-list"))]).
Proof.
  refine (proj1 (add_rule_protocol_mismatch Demo.demo_env Demo.l2_rule "Mac_1"
                   Demo.world0
                   (Demo.reply Demo.switch "show access-list all")
                   (Demo.reply Demo.switch "show ipv6 access-list")
                   Demo.switch Demo.switch _ _ _ _) _ _).
  - reflexivity.
  - reflexivity.
  - reflexivity.
  - vm_compute. reflexivity.
  - reflexivity.
  - vm_compute. discriminate.
Defined.

Lemma apply_acl_probes_then_binds_witness :
  exists probes binds,
    trace (Acl.apply_acl Demo.demo_env DemoRest.bind_two Demo.world0).2
    = [Event show_all CliGet (Ok (Demo.reply Demo.switch "show access-list all"));
       Event show_ipv6 CliGet
         (Ok (Demo.reply Demo.switch "show ipv6 access-list"))]
      ++ probes ++ binds
    /\ map ev_arg probes
       = [Batch ["interface ethernet 1/1"]; Batch ["interface ethernet 1/2"]]
    /\ map ev_arg binds
       = [Batch ["interface ethernet 1/1"; "ip access-group Acl_1 in"; "exit"];
          Batch ["interface ethernet 1/2"; "ip access-group Acl_1 in"; "exit"]].
Proof.
  destruct (apply_acl_probes_then_binds Demo.demo_env DemoRest.bind_two
              Demo.world0)
    as (queries & probes & binds & address_type & Htr & _ & _ & _ & _ & Hid
        & Hfirst & Hok).
  destruct Hok as [_ Hbinds]; [vm_compute; reflexivity |].
  assert (Hne : binds <> []).
  { intros ->. discriminate Hbinds. }
  destruct (Hfirst Hne) as [Hprobes _].
  destruct Hid as (out1 & out2 & name & Hname & -> & ->).
  { intros Hnil. apply app_eq_nil in Hnil as [_ Hnil]. contradiction. }
  injection Hname as <-.
  assert (Hq : [Event show_all CliGet (Ok out1); Event show_ipv6 CliGet (Ok out2)]
               = [Event show_all CliGet
                    (Ok (Demo.reply Demo.switch "show access-list all"));
                  Event show_ipv6 CliGet
                    (Ok (Demo.reply Demo.switch "show ipv6 access-list"))]).
  { assert (Hc : exists rest,
              trace (Acl.apply_acl Demo.demo_env DemoRest.bind_two Demo.world0).2
              = [Event show_all CliGet
                   (Ok (Demo.reply Demo.switch "show access-list all"));
                 Event show_ipv6 CliGet
                   (Ok (Demo.reply Demo.switch "show ipv6 access-list"))]
                ++ rest)
      by (eexists; vm_compute; reflexivity).
    destruct Hc as [rest Hc]. rewrite Hc in Htr. cbn in Htr.
    injection Htr as <- <- _. reflexivity. }
  injection Hq as -> ->.
  exists probes, binds. split; [exact Htr | split].
  - rewrite Hprobes. vm_compute. reflexivity.
  - rewrite Hbinds. vm_compute. reflexivity.
Defined.

Lemma remove_acl_one_batch_witness :
  exists probes,
    trace (AclRest.remove_acl Demo.demo_env DemoRest.demo_more
             DemoRest.bind_two Demo.world0).2
    = [Event show_all CliGet (Ok (Demo.reply Demo.switch "show access-list all"));
       Event show_ipv6 CliGet
         (Ok (Demo.reply Demo.switch "show ipv6 access-list"))]
      ++ probes
      ++ [Event (Batch ["interface ethernet 1/1"; "no ip access-group Acl_1 in";
                        "exit";
                        "interface ethernet 1/2"; "no ip access-group Acl_1 in";
                        "exit"]) CliSet (Ok "")]
    /\ map ev_arg probes
       = [Batch ["interface ethernet 1/1"]; Batch ["interface ethernet 1/2"]].
Proof.
  destruct (remove_acl_one_batch Demo.demo_env DemoRest.demo_more
              DemoRest.bind_two Demo.world0)
    as (queries & probes & final & Htr & _ & _ & _ & Hfinal & Hok).
  destruct Hfinal as [-> | (out & out1 & out2 & name & Hname & -> & -> & Hprobes & _)].
  { exfalso. apply Hok; [vm_compute |]; reflexivity. }
  injection Hname as <-.
  assert (Hc : exists p1 p2,
            trace (AclRest.remove_acl Demo.demo_env DemoRest.demo_more
                     DemoRest.bind_two Demo.world0).2
            = [Event show_all CliGet
                 (Ok (Demo.reply Demo.switch "show access-list all"));
               Event show_ipv6 CliGet
                 (Ok (Demo.reply Demo.switch "show ipv6 access-list"));
               p1; p2;
               Event (Batch ["interface ethernet 1/1";
                             "no ip access-group Acl_1 in"; "exit";
                             "interface ethernet 1/2";
                             "no ip access-group Acl_1 in"; "exit"])
                     CliSet (Ok "")])
    by (eexists _, _; vm_compute; reflexivity).
  destruct Hc as (p1 & p2 & Hc).
  assert (Hlen : length probes = 2%nat).
  { apply (f_equal (@length _)) in Hprobes. rewrite !length_map in Hprobes.
    exact Hprobes. }
  destruct probes as [| q1 [| q2 [| q3 probes]]]; try discriminate Hlen.
  rewrite Hc in Htr. cbn in Htr. injection Htr as <- <- <- <- Hlast.
  exists [p1; p2]. split; [| rewrite Hprobes; vm_compute; reflexivity].
  rewrite Hc. reflexivity.
Defined.

(** ** Numbers given as text, and what a rule build stores *)

(** X21: the integer fields compare their value with the bounds as it is:
    a number given as a non-empty string, such as '3', is above every
    bound and is rejected as out of range by [parse_vlan], [parse_tos],
    [parse_priority_mapping] and, when the other of the two is not set,
    by [parse_priority] and [parse_priority_force]. *)
Theorem integer_fields_reject_strings (parameters : bag) (s : string) :
  nonempty s = true ->
  (parameters !! "vlan_id" = Some (VStr s) ->
   IpAcl.parse_vlan parameters = Raise vlan_invalid)
  /\ (parameters !! "tos" = Some (VStr s) ->
      IpAcl.parse_tos parameters = Raise tos_invalid)
  /\ (parameters !! "priority_mapping" = Some (VStr s) ->
      IpAcl.parse_priority_mapping parameters = Raise priority_mapping_invalid)
  /\ (parameters !! "priority" = Some (VStr s) ->
      is_set parameters "priority_force" = false ->
      IpAcl.parse_priority parameters = Raise priority_invalid)
  /\ (parameters !! "priority_force" = Some (VStr s) ->
      is_set parameters "priority" = false ->
      IpAcl.parse_priority_force parameters = Raise priority_force_invalid).
Proof.
  intros Hs. unfold nonempty in Hs.
  split; [| split; [| split; [| split]]].
  - intros Hget. unfold IpAcl.parse_vlan. rewrite Hget. cbn [truthy].
    rewrite Hs. reflexivity.
  - intros Hget. unfold IpAcl.parse_tos, is_set, getitem. rewrite Hget.
    cbn [truthy]. rewrite Hs. reflexivity.
  - intros Hget. unfold IpAcl.parse_priority_mapping, is_set, getitem.
    rewrite Hget. cbn [truthy]. rewrite Hs. reflexivity.
  - intros Hget Hother. unfold IpAcl.parse_priority. rewrite Hother.
    unfold is_set, getitem. rewrite Hget. cbn [truthy]. rewrite Hs. reflexivity.
  - intros Hget Hother. unfold IpAcl.parse_priority_force. rewrite Hother.
    unfold is_set, getitem. rewrite Hget. cbn [truthy]. rewrite Hs. reflexivity.
Qed.

Lemma integer_fields_reject_strings_witness :
  IpAcl.parse_tos (kwargs [("tos", VStr "3")]) = Raise tos_invalid
  /\ IpAcl.parse_priority (kwargs [("priority", VStr "3")])
     = Raise priority_invalid
  /\ IpAcl.parse_priority (kwargs [("priority", VInt 3)])
     = Ok (Some "priority 3").
Proof.
  split; [| split].
  - apply (integer_fields_reject_strings (kwargs [("tos", VStr "3")]) "3");
      reflexivity.
  - apply (integer_fields_reject_strings (kwargs [("priority", VStr "3")]) "3");
      reflexivity.
  - vm_compute. reflexivity.
Defined.

Lemma run_fields_all_ok (l : list (string * parser)) (parameters ud : bag) :
  is_ok (Acl.run_fields l parameters ud) = all_fields_ok l parameters.
Proof.
  revert ud. induction l as [| [k p] l IH]; intros ud; [reflexivity |].
  cbn [Acl.run_fields all_fields_ok forallb snd].
  destruct (p parameters) as [v |]; cbn [bind is_ok andb]; [apply IH | reflexivity].
Qed.

(** The first parser that raises gives the error of the build. *)
Lemma run_fields_first_failure (l1 l2 : list (string * parser)) (k : string)
    (p : parser) (parameters ud : bag) (e : exn) :
  all_fields_ok l1 parameters = true ->
  p parameters = Raise e ->
  Acl.run_fields (l1 ++ (k, p) :: l2) parameters ud = Raise e.
Proof.
  intros Hok Hp. rewrite run_fields_app.
  rewrite <- (run_fields_all_ok l1 parameters ud) in Hok.
  destruct (Acl.run_fields l1 parameters ud) as [ud1 |]; [| discriminate Hok].
  cbn [bind Acl.run_fields]. rewrite Hp. reflexivity.
Qed.

Lemma run_fields_keys (l : list (string * parser)) (parameters ud ud' : bag)
    (k : string) :
  Acl.run_fields l parameters ud = Ok ud' ->
  is_Some (ud' !! k) <-> is_Some (ud !! k) \/ In k (field_keys l).
Proof.
  revert ud. induction l as [| [k0 p] l IH]; intros ud.
  - intros [= <-]. cbn. tauto.
  - cbn [Acl.run_fields field_keys map fst In].
    destruct (p parameters) as [v |]; cbn [bind]; [| discriminate].
    intros Hrun. rewrite (IH _ Hrun).
    destruct (decide (k0 = k)) as [-> | Hne].
    + rewrite lookup_insert_eq. split; [intros _ | intros _; left; eauto].
      right. left. reflexivity.
    + rewrite lookup_insert_ne by exact Hne.
      split; [intros [H | H]; auto | intros [H | [H | H]]; auto]. contradiction.
Qed.

Section Builds.
Context {Dev : Type} (E : env Dev).

(** X22: the L2 and the IPv6 rule build succeed exactly when every one
    of their field parsers succeeds on the bag (and, for the IPv6 build,
    the bag has 'acl_name'); the parsers run in source order, and the
    error of the first one that fails is the error of the build, so a
    later field's error is never reported before an earlier one's. *)
Theorem build_succeeds_iff_all_fields (parameters : bag) :
  is_ok (Acl.parse_params_for_add_l2_acl_rule E parameters)
  = all_fields_ok (Acl.l2_fields E) parameters
  /\ is_ok (Acl.parse_params_for_add_ipv6_extended E parameters)
     = has_key parameters "acl_name"
       && all_fields_ok (Acl.ipv6_fields E) parameters
  /\ (forall l1 k p l2 e,
        Acl.l2_fields E = l1 ++ (k, p) :: l2 ->
        all_fields_ok l1 parameters = true ->
        p parameters = Raise e ->
        Acl.parse_params_for_add_l2_acl_rule E parameters = Raise e)
  /\ (forall l1 k p l2 e,
        has_key parameters "acl_name" = true ->
        Acl.ipv6_fields E = l1 ++ (k, p) :: l2 ->
        all_fields_ok l1 parameters = true ->
        p parameters = Raise e ->
        Acl.parse_params_for_add_ipv6_extended E parameters = Raise e).
Proof.
  split; [| split; [| split]].
  - apply run_fields_all_ok.
  - unfold Acl.parse_params_for_add_ipv6_extended, getitem, has_key.
    destruct (parameters !! "acl_name"); [| reflexivity].
    cbn [bind andb]. apply run_fields_all_ok.
  - intros l1 k p l2 e Hsplit Hok Hp.
    unfold Acl.parse_params_for_add_l2_acl_rule. rewrite Hsplit.
    apply run_fields_first_failure; assumption.
  - intros l1 k p l2 e Hname Hsplit Hok Hp.
    unfold Acl.parse_params_for_add_ipv6_extended, getitem.
    unfold has_key in Hname.
    destruct (parameters !! "acl_name"); [| discriminate Hname].
    cbn [bind]. rewrite Hsplit. apply run_fields_first_failure; assumption.
Qed.

(** X23: what a successful L2 or IPv6 build hands to the template is
    defined on exactly one key per field parser (and, for IPv6, on
    'acl_name_str'): no key of the bag passes through by itself. *)
Theorem build_stores_one_key_per_field (parameters user_data : bag)
    (k : string) :
  (Acl.parse_params_for_add_l2_acl_rule E parameters = Ok user_data ->
   is_Some (user_data !! k) <-> In k (field_keys (Acl.l2_fields E)))
  /\ (Acl.parse_params_for_add_ipv6_extended E parameters = Ok user_data ->
      is_Some (user_data !! k)
      <-> k = "acl_name_str" \/ In k (field_keys (Acl.ipv6_fields E))).
Proof.
  assert (Hsingle : forall v : value,
            is_Some (({[ "acl_name_str" := v ]} : bag) !! k)
            <-> k = "acl_name_str").
  { intros v. destruct (decide ("acl_name_str" = k)) as [<- | Hne].
    - rewrite lookup_singleton_eq. split; eauto.
    - rewrite lookup_singleton_ne by exact Hne.
      split; [intros [x [=]] | intros ->; contradiction]. }
  split.
  - unfold Acl.parse_params_for_add_l2_acl_rule. intros Hrun.
    rewrite (run_fields_keys _ _ _ _ k Hrun), lookup_empty.
    split; [intros [[x [=]] | H]; exact H | auto].
  - unfold Acl.parse_params_for_add_ipv6_extended, getitem.
    destruct (parameters !! "acl_name"); [| discriminate].
    cbn [bind]. intros Hrun.
    rewrite (run_fields_keys _ _ _ _ k Hrun), Hsingle. reflexivity.
Qed.

End Builds.

Lemma build_stores_one_key_per_field_witness :
  exists user_data,
    Acl.parse_params_for_add_ipv6_extended Demo.demo_env Demo.v6_rule
    = Ok user_data
    /\ is_Some (user_data !! "source_str")
    /\ ~ is_Some (user_data !! "source").
Proof.
  destruct (run_fields_ok (Acl.ipv6_fields Demo.demo_env) Demo.v6_rule
              {[ "acl_name_str" := VStr "V6_1" ]}) as [user_data Hrun].
  { repeat (constructor; [vm_compute; reflexivity |]). constructor. }
  assert (Hb : Acl.parse_params_for_add_ipv6_extended Demo.demo_env
                 Demo.v6_rule = Ok user_data).
  { unfold Acl.parse_params_for_add_ipv6_extended.
    change (getitem Demo.v6_rule "acl_name") with (Ok (VStr "V6_1")).
    exact Hrun. }
  exists user_data. split; [exact Hb |].
  destruct (build_stores_one_key_per_field Demo.demo_env Demo.v6_rule
              user_data "source_str") as [_ Hyes].
  destruct (build_stores_one_key_per_field Demo.demo_env Demo.v6_rule
              user_data "source") as [_ Hno].
  split.
  - apply (Hyes Hb). right. cbn. auto 20.
  - intros Hm. apply (Hno Hb) in Hm.
    destruct Hm as [Hm | Hm]; [discriminate Hm |].
    cbn in Hm.
    repeat (destruct Hm as [Hm | Hm]; [discriminate Hm |]). exact Hm.
Defined.
